(** * Conversation orchestration engine of the restaurant chatbot

    A shallow embedding of the Python services under [app/services] and of
    the action dispatcher in [app/routes/webhook.py], with the properties
    the specification states about them, followed by further properties
    read off the code: of the session store, the orders, the dispatcher,
    the usage reports, the codec, the prompt, the menu text and the
    customers.

    Conventions of the embedding.
    - A Python [str] is a list of code points ([text]); [len] is [length].
    - A Python value that travels through JSON (a decoded action, a session
      dictionary, the payload of an order) is a [json]; a [dict] is a
      [gmap] from [text] keys.
    - A raised exception is [None] in an [option] result; where the source
      catches the exception, the embedding does the same case analysis.
    - Wall-clock readings ([datetime.utcnow()]) are arguments: a [datetime]
      is a number of microseconds since 1970-01-01T00:00:00.
    - What is not code of the services is a parameter where the services
      depend on it: the decoder handed to [extract_action], the outcome of
      a commit, the call of the language model, and the arithmetic of the
      Redis server on float fields together with what [int] and [float]
      read from the text of a field. *)

From Stdlib Require Import ZArith NArith Lia String Ascii DecimalString.
From Stdlib Require Import Floats.SpecFloat.
From Stdlib Require DecimalZ.
From stdpp Require Import gmap list fin_maps.

Set Warnings "-register-all".
#[local] Open Scope Z_scope.

(** ** Python strings *)

Abbreviation text := (list N).

Fixpoint py (s : string) : text :=
  match s with
  | EmptyString => []
  | String c s' => N_of_ascii c :: py s'
  end.
Arguments py _%_string : simpl never.

(** [pyq] reads an apostrophe as a double quote, to write JSON samples. *)
Definition pyq (s : string) : text :=
  (λ c, if (c =? 39)%N then 34%N else c) <$> py s.
Arguments pyq _%_string : simpl never.

Definition in_range (lo hi c : N) : bool := ((lo <=? c) && (c <=? hi))%N.

(** [str.isspace] on one code point; the class [\s] of [re] on [str]
    patterns is the same set. *)
Definition is_space (c : N) : bool :=
  in_range 9 13 c || in_range 28 32 c || (c =? 133)%N || (c =? 160)%N
  || (c =? 5760)%N || in_range 8192 8202 c || in_range 8232 8233 c
  || (c =? 8239)%N || (c =? 8287)%N || (c =? 12288)%N.

Fixpoint lstrip (s : text) : text :=
  match s with
  | c :: s' => if is_space c then lstrip s' else s
  | [] => []
  end.

Definition rstrip (s : text) : text := reverse (lstrip (reverse s)).

(** [str.strip()] *)
Definition strip (s : text) : text := rstrip (lstrip s).

(** ** The fragment of [re] the service uses

    Literals, sequence, alternation, greedy and lazy repetition of a
    character class, and one capturing group.  [rmatch] is a backtracking
    matcher in continuation-passing style: alternatives are tried in the
    order Python tries them. *)

Inductive regex :=
| RLit (l : text)
| RSeq (r1 r2 : regex)
| RAlt (r1 r2 : regex)
| RStar (greedy : bool) (p : N → bool)
| RGroup (r : regex).

Fixpoint match_lit (l s : text) : option text :=
  match l, s with
  | [], _ => Some s
  | a :: l', c :: s' => if (a =? c)%N then match_lit l' s' else None
  | _ :: _, [] => None
  end.

Section Backtracking.
Context {A : Type}.

Fixpoint star_greedy (p : N → bool) (s : text) (k : text → option A)
    : option A :=
  match s with
  | c :: s' =>
      if p c then
        match star_greedy p s' k with
        | Some a => Some a
        | None => k s
        end
      else k s
  | [] => k []
  end.

Fixpoint star_lazy (p : N → bool) (s : text) (k : text → option A)
    : option A :=
  match k s with
  | Some a => Some a
  | None =>
      match s with
      | c :: s' => if p c then star_lazy p s' k else None
      | [] => None
      end
  end.

Fixpoint rmatch (r : regex) (s : text) (g : option text)
    (k : text → option text → option A) : option A :=
  match r with
  | RLit l => match match_lit l s with Some s' => k s' g | None => None end
  | RSeq r1 r2 => rmatch r1 s g (λ s1 g1, rmatch r2 s1 g1 k)
  | RAlt r1 r2 =>
      match rmatch r1 s g k with
      | Some a => Some a
      | None => rmatch r2 s g k
      end
  | RStar true p => star_greedy p s (λ s', k s' g)
  | RStar false p => star_lazy p s (λ s', k s' g)
  | RGroup r1 =>
      rmatch r1 s g (λ s' _, k s' (Some (take (length s - length s') s)))
  end.
End Backtracking.

(** A match anchored at the head of [s]: its length and [group(1)]. *)
Definition match_at (r : regex) (s : text) : option (nat * option text) :=
  rmatch r s None (λ s' g, Some ((length s - length s')%nat, g)).

(** [re.search]: the leftmost position where the pattern matches. *)
Fixpoint re_search (r : regex) (s : text) : option (nat * option text) :=
  match match_at r s with
  | Some m => Some m
  | None => match s with [] => None | _ :: s' => re_search r s' end
  end.

(** [re.sub]: every non-overlapping match, left to right, is replaced.
    [skip] counts the characters of the current match still to drop. *)
Fixpoint re_sub_from (r : regex) (repl : text) (skip : nat) (s : text)
    : text :=
  match skip with
  | S n => match s with [] => [] | _ :: s' => re_sub_from r repl n s' end
  | O =>
      match match_at r s, s with
      | Some (S n, _), _ :: s' => repl ++ re_sub_from r repl n s'
      | Some (_, _), c :: s' => repl ++ c :: re_sub_from r repl 0 s'
      | Some (_, _), [] => repl
      | None, c :: s' => c :: re_sub_from r repl 0 s'
      | None, [] => []
      end
  end.

Definition re_sub (r : regex) (repl s : text) : text :=
  re_sub_from r repl 0 s.

(** ** JSON values *)

Inductive json :=
| JNull
| JBool (b : bool)
| JInt (z : Z)
| JFloat (f : spec_float)
| JStr (s : text)
| JArr (l : list json)
| JObj (d : gmap text json).

Abbreviation dict := (gmap text json).

(** Truth value of a Python object ([if x], [x or y]). *)
Definition truthy (v : json) : bool :=
  match v with
  | JNull => false
  | JBool b => b
  | JInt z => negb (z =? 0)
  | JFloat (S754_zero _) => false
  | JFloat _ => true
  | JStr s => match s with [] => false | _ => true end
  | JArr l => match l with [] => false | _ => true end
  | JObj d => negb (bool_decide (d = ∅))
  end.

Definition py_or (x y : json) : json := if truthy x then x else y.

(** [v == "literal"] *)
Definition str_eq (v : json) (s : text) : bool :=
  match v with
  | JStr x => bool_decide (x = s)
  | _ => false
  end.

(** [d.get(k)] and [d.get(k, default)] *)
Definition dict_get (d : dict) (k : text) : json := default JNull (d !! k).
Definition dict_get_or (d : dict) (k : text) (dflt : json) : json :=
  default dflt (d !! k).

(** ** [json.loads]

    The decoder of the standard library, after its scanner: whitespace is
    space, tab, line feed and carriage return; strings are strict (no raw
    control character); numbers with a fraction or an exponent are rounded
    to binary64; [NaN], [Infinity] and [-Infinity] are accepted.  Every
    recursive call has consumed a character, so a fuel of the input length
    is enough. *)

Definition binary64_of_Z (z : Z) : spec_float := binary_normalize 53 1024 z 0 false.

(** [float(lexeme)] for the decimal [(-1)^neg * m * 10^e], correctly rounded. *)
Definition float_of_decimal (neg : bool) (m e : Z) : spec_float :=
  match m with
  | Zpos p =>
      if 0 <=? e then binary_normalize 53 1024 ((if neg then -m else m) * 10 ^ e) 0 neg
      else SFdiv 53 1024 (S754_finite neg p 0)
             (S754_finite false (Z.to_pos (10 ^ (- e))) 0)
  | _ => S754_zero neg
  end.

Definition is_json_ws (c : N) : bool :=
  ((c =? 32) || (c =? 9) || (c =? 10) || (c =? 13))%N.

Fixpoint skip_ws (s : text) : text :=
  match s with
  | c :: s' => if is_json_ws c then skip_ws s' else s
  | [] => []
  end.

Definition is_digit (c : N) : bool := in_range 48 57 c.

Fixpoint span_digits (s : text) : text * text :=
  match s with
  | c :: s' =>
      if is_digit c then let '(ds, r) := span_digits s' in (c :: ds, r)
      else ([], s)
  | [] => ([], [])
  end.

Definition digits_val (ds : text) : Z :=
  fold_left (λ a c, 10 * a + (Z.of_N c - 48)) ds 0.

Definition hex_val (c : N) : option N :=
  if in_range 48 57 c then Some (c - 48)%N
  else if in_range 97 102 c then Some (c - 87)%N
  else if in_range 65 70 c then Some (c - 55)%N
  else None.

Definition read_hex4 (s : text) : option (N * text) :=
  match s with
  | a :: b :: c :: d :: rest =>
      match hex_val a, hex_val b, hex_val c, hex_val d with
      | Some x, Some y, Some z, Some w =>
          Some (((x * 16 + y) * 16 + z) * 16 + w, rest)%N
      | _, _, _, _ => None
      end
  | _ => None
  end.

Definition backslash (e : N) : option N :=
  if (e =? 34)%N then Some 34%N          (* quote *)
  else if (e =? 92)%N then Some 92%N     (* backslash *)
  else if (e =? 47)%N then Some 47%N     (* slash *)
  else if (e =? 98)%N then Some 8%N      (* b *)
  else if (e =? 102)%N then Some 12%N    (* f *)
  else if (e =? 110)%N then Some 10%N    (* n *)
  else if (e =? 114)%N then Some 13%N    (* r *)
  else if (e =? 116)%N then Some 9%N     (* t *)
  else None.

(** The body of a string literal, after its opening quote. *)
Fixpoint scanstring (fuel : nat) (s acc : text) : option (text * text) :=
  match fuel, s with
  | S n, c :: s1 =>
      if (c =? 34)%N then Some (reverse acc, s1)
      else if (c =? 92)%N then
        match s1 with
        | e :: s2 =>
            if (e =? 117)%N then
              match read_hex4 s2 with
              | Some (u, s3) =>
                  match s3 with
                  | b :: v :: s4 =>
                      if in_range 55296 56319 u && (b =? 92)%N && (v =? 117)%N then
                        match read_hex4 s4 with
                        | Some (u2, s5) =>
                            if in_range 56320 57343 u2 then
                              scanstring n s5
                                ((65536 + ((u - 55296) * 1024 + (u2 - 56320)))%N :: acc)
                            else scanstring n s3 (u :: acc)
                        | None => None
                        end
                      else scanstring n s3 (u :: acc)
                  | _ => scanstring n s3 (u :: acc)
                  end
              | None => None
              end
            else
              match backslash e with
              | Some ch => scanstring n s2 (ch :: acc)
              | None => None
              end
        | [] => None
        end
      else if (c <? 32)%N then None
      else scanstring n s1 (c :: acc)
  | _, _ => None
  end.

(** [NUMBER_RE]: an integer part, an optional fraction, an optional
    exponent; a fraction or exponent without digits is not part of the
    number. *)
Definition scan_number (s : text) : option (json * text) :=
  let '(neg, s1) :=
    match s with
    | c :: s' => if (c =? 45)%N then (true, s') else (false, s)
    | [] => (false, s)
    end in
  let int_part :=
    match s1 with
    | c :: s2 =>
        if (c =? 48)%N then Some ([c], s2)
        else if in_range 49 57 c then Some (span_digits s1)
        else None
    | [] => None
    end in
  match int_part with
  | None => None
  | Some (ids, r0) =>
      let '(frac, r1) :=
        match r0 with
        | c :: r =>
            if (c =? 46)%N then
              match span_digits r with
              | ([], _) => ([], r0)
              | (fs, r') => (fs, r')
              end
            else ([], r0)
        | [] => ([], r0)
        end in
      let '(ex, r2) :=
        match r1 with
        | c :: r =>
            if (c =? 101)%N || (c =? 69)%N then
              let '(eneg, r') :=
                match r with
                | sg :: r'' =>
                    if (sg =? 45)%N then (true, r'')
                    else if (sg =? 43)%N then (false, r'')
                    else (false, r)
                | [] => (false, r)
                end in
              match span_digits r' with
              | ([], _) => (None, r1)
              | (es, r'') =>
                  (Some (if eneg then - digits_val es else digits_val es), r'')
              end
            else (None, r1)
        | [] => (None, r1)
        end in
      match frac, ex with
      | [], None =>
          Some (JInt (if neg then - digits_val ids else digits_val ids), r2)
      | _, _ =>
          Some (JFloat (float_of_decimal neg (digits_val (ids ++ frac))
                          (default 0 ex - Z.of_nat (length frac))), r2)
      end
  end.

Definition scan_word (w : text) (v : json) (s : text) : option (json * text) :=
  match match_lit w s with
  | Some rest => Some (v, rest)
  | None => None
  end.

Fixpoint scan_once (fuel : nat) (s : text) : option (json * text) :=
  match fuel, s with
  | S n, c :: s' =>
      if (c =? 34)%N then
        match scanstring (length s') s' [] with
        | Some (str, rest) => Some (JStr str, rest)
        | None => None
        end
      else if (c =? 123)%N then
        match skip_ws s' with
        | c1 :: s2 =>
            if (c1 =? 125)%N then Some (JObj ∅, s2)
            else if (c1 =? 34)%N then scan_pairs n s2 ∅
            else None
        | [] => None
        end
      else if (c =? 91)%N then
        match skip_ws s' with
        | c1 :: s2 =>
            if (c1 =? 93)%N then Some (JArr [], s2)
            else scan_items n (c1 :: s2) []
        | [] => None
        end
      else if (c =? 110)%N then scan_word (py "null") JNull s
      else if (c =? 116)%N then scan_word (py "true") (JBool true) s
      else if (c =? 102)%N then scan_word (py "false") (JBool false) s
      else
        match scan_number s with
        | Some r => Some r
        | None =>
            if (c =? 78)%N then scan_word (py "NaN") (JFloat S754_nan) s
            else if (c =? 73)%N then
              scan_word (py "Infinity") (JFloat (S754_infinity false)) s
            else if (c =? 45)%N then
              scan_word (py "-Infinity") (JFloat (S754_infinity true)) s
            else None
        end
  | _, _ => None
  end
with scan_pairs (fuel : nat) (s : text) (acc : dict) : option (json * text) :=
  match fuel with
  | S n =>
      match scanstring (length s) s [] with
      | Some (key, s1) =>
          match skip_ws s1 with
          | c :: s2 =>
              if (c =? 58)%N then
                match scan_once n (skip_ws s2) with
                | Some (v, s3) =>
                    match skip_ws s3 with
                    | c' :: s4 =>
                        if (c' =? 125)%N then Some (JObj (<[key:=v]> acc), s4)
                        else if (c' =? 44)%N then
                          match skip_ws s4 with
                          | q :: s5 =>
                              if (q =? 34)%N then scan_pairs n s5 (<[key:=v]> acc)
                              else None
                          | [] => None
                          end
                        else None
                    | [] => None
                    end
                | None => None
                end
              else None
          | [] => None
          end
      | None => None
      end
  | O => None
  end
with scan_items (fuel : nat) (s : text) (acc : list json) : option (json * text) :=
  match fuel with
  | S n =>
      match scan_once n s with
      | Some (v, s1) =>
          match skip_ws s1 with
          | c :: s2 =>
              if (c =? 93)%N then Some (JArr (reverse (v :: acc)), s2)
              else if (c =? 44)%N then scan_items n (skip_ws s2) (v :: acc)
              else None
          | [] => None
          end
      | None => None
      end
  | O => None
  end.

(** [json.loads(s)]: [None] stands for [JSONDecodeError]. *)
Definition json_loads (s : text) : option json :=
  match s with
  | 65279%N :: _ => None
  | _ =>
      match scan_once (S (length s)) (skip_ws s) with
      | Some (v, rest) =>
          match skip_ws rest with
          | [] => Some v
          | _ :: _ => None
          end
      | None => None
      end
  end.

(** ** Action protocol codec ([GeminiService], [app/services/gemini_service.py]) *)

Module Codec.

Definition fence : text := Eval cbv in py "```".
Definition tag_action : text := Eval cbv in py "action".
Definition tag_json : text := Eval cbv in py "json".
Definition lbrace : text := Eval cbv in py "{".
Definition rbrace : text := Eval cbv in py "}".

(** The class [[\s\S]]. *)
Definition any_char (c : N) : bool := is_space c || negb (is_space c).

Definition tag_re : regex := RAlt (RLit tag_action) (RLit tag_json).

(** The pattern of [extract_action], with its group:
    fence, tag, [\s*], [(\{[\s\S]*?\})], [\s*], fence. *)
Definition action_re : regex :=
  RSeq (RLit fence)
    (RSeq tag_re
       (RSeq (RStar true is_space)
          (RSeq (RGroup (RSeq (RLit lbrace)
                           (RSeq (RStar false any_char) (RLit rbrace))))
             (RSeq (RStar true is_space) (RLit fence))))).

(** The pattern of [get_clean_response]: fence, tag, [[\s\S]*?], fence. *)
Definition block_re : regex :=
  RSeq (RLit fence) (RSeq tag_re (RSeq (RStar false any_char) (RLit fence))).

Definition FALLBACK : text :=
  Eval cbv in py "I'll help you with that. How can I assist?".

Section ExtractAction.
(** The decoder is a parameter of the extraction: [None] stands for any
    exception [json.loads] raises, all of which the method turns into
    its own [None]. *)
Variable loads : text → option json.

(** [GeminiService.extract_action]: the group of the first match,
    stripped and decoded; a failed decoding and the absence of a match
    both give [None]. *)
Definition extract_action (response : text) : option json :=
  match re_search action_re response with
  | Some (_, Some action_str) => loads (strip action_str)
  | _ => None
  end.
End ExtractAction.

(** The text left after the substitution and [strip()]: the local
    variable [clean]. *)
Definition clean_text (response : text) : text :=
  strip (re_sub block_re [] response).

(** [GeminiService.get_clean_response] *)
Definition get_clean_response (response : text) : text :=
  let clean := clean_text response in
  if bool_decide (clean = []) || bool_decide (length clean < 5)%nat
  then FALLBACK
  else clean.

(** *** Fenced blocks, stated without the matcher

    A block starts at the head of [s] when [s] is a fence, a tag, a body
    without fence, and a fence; [block_at] returns the body and the text
    after the block. *)

Definition after_tag (s : text) : option text :=
  match match_lit tag_action s with
  | Some s' => Some s'
  | None => match_lit tag_json s
  end.

Fixpoint split_at_fence (s : text) : option (text * text) :=
  match match_lit fence s with
  | Some rest => Some ([], rest)
  | None =>
      match s with
      | c :: s' =>
          match split_at_fence s' with
          | Some (b, a) => Some (c :: b, a)
          | None => None
          end
      | [] => None
      end
  end.

Definition block_at (s : text) : option (text * text) :=
  match match_lit fence s with
  | Some s1 =>
      match after_tag s1 with
      | Some s2 => split_at_fence s2
      | None => None
      end
  | None => None
  end.

(** The body of the first fenced block of a response. *)
Fixpoint first_block (s : text) : option text :=
  match block_at s with
  | Some (body, _) => Some body
  | None => match s with [] => None | _ :: s' => first_block s' end
  end.

(** [removes s out]: [out] is [s] without its fenced blocks, taken from
    left to right. *)
Inductive removes : text → text → Prop :=
| removes_nil : removes [] []
| removes_keep c s out :
    block_at (c :: s) = None → removes s out → removes (c :: s) (c :: out)
| removes_block s body rest out :
    block_at s = Some (body, rest) → removes rest out → removes s out.

(** A brace-delimited text: what the group of [action_re] can hold. *)
Definition braced (s : text) : Prop := ∃ inner, s = lbrace ++ inner ++ rbrace.

(** The tail of [action_re], read directly: a closing brace, white space
    and a fence; the result is the text after the brace. *)
Definition closes (s : text) : option text :=
  match match_lit rbrace s with
  | Some s' =>
      match match_lit fence (lstrip s') with
      | Some _ => Some s'
      | None => None
      end
  | None => None
  end.

(** [group(1)] of a match of [action_re] at the head of [s], read
    directly. *)
Definition action_at (s : text) : option text :=
  match match_lit fence s with
  | Some s1 =>
      match after_tag s1 with
      | Some s2 =>
          match match_lit lbrace (lstrip s2) with
          | Some s4 =>
              star_lazy any_char s4
                (λ s5, match closes s5 with
                       | Some s6 =>
                           Some (take (length (lstrip s2) - length s6) (lstrip s2))
                       | None => None
                       end)
          | None => None
          end
      | None => None
      end
  | None => None
  end.

End Codec.

(** ** Dates and times

    A naive UTC [datetime] is its number of microseconds since the epoch;
    a [timedelta] is a number of microseconds.  The calendar fields are
    computed from the day number (proleptic Gregorian calendar). *)

Abbreviation datetime := Z.

Definition timedelta_minutes (m : Z) : Z := m * 60 * 1000000.
Definition timedelta_seconds (s : Z) : Z := s * 1000000.

Definition civil_from_days (days : Z) : Z * Z * Z :=
  let z := days + 719468 in
  let era := z / 146097 in
  let doe := z - era * 146097 in
  let yoe := (doe - doe / 1460 + doe / 36524 - doe / 146096) / 365 in
  let doy := doe - (365 * yoe + yoe / 4 - yoe / 100) in
  let mp := (5 * doy + 2) / 153 in
  let d := doy - (153 * mp + 2) / 5 + 1 in
  let m := if mp <? 10 then mp + 3 else mp - 9 in
  let y := yoe + era * 400 in
  (if m <=? 2 then y + 1 else y, m, d).

(** [n] in decimal on [width] digits, zero-padded. *)
Fixpoint digits (width : nat) (n : Z) : text :=
  match width with
  | O => []
  | S w => digits w (n / 10) ++ [Z.to_N (48 + n mod 10)]
  end.

(** [strftime("%Y-%m-%d")] and [strftime("%Y-%m")] *)
Definition strftime_day (t : datetime) : text :=
  let '(y, m, d) := civil_from_days (t / 86400000000) in
  digits 4 y ++ py "-" ++ digits 2 m ++ py "-" ++ digits 2 d.

Definition strftime_month (t : datetime) : text :=
  let '(y, m, _) := civil_from_days (t / 86400000000) in
  digits 4 y ++ py "-" ++ digits 2 m.

(** [datetime.isoformat()]: the microseconds are printed when not zero. *)
Definition isoformat (t : datetime) : text :=
  let secs := (t mod 86400000000) / 1000000 in
  let micro := t mod 1000000 in
  strftime_day t ++ py "T" ++ digits 2 (secs / 3600) ++ py ":"
  ++ digits 2 (secs / 60 mod 60) ++ py ":" ++ digits 2 (secs mod 60)
  ++ (if micro =? 0 then [] else py "." ++ digits 6 micro).

(** ** Settings ([app/core/config.py]) *)

Record Settings := {
  SESSION_TIMEOUT_MINUTES : Z;
  FEEDBACK_DELAY_MINUTES : Z
}.

Definition default_settings : Settings :=
  {| SESSION_TIMEOUT_MINUTES := 60; FEEDBACK_DELAY_MINUTES := 30 |}.

(** ** The Redis server

    One keyspace.  A key holds a string or a hash and may carry an expiry
    time; an expired key is absent for every command.  The only strings
    the services store are [json.dumps] of a session dictionary, kept
    here decoded.  A hash keeps a text for every field; the increment
    commands read that text as a number and write the text of the sum.  A
    command sent to a key of the wrong type, or an increment the server
    refuses, is an error reply and writes nothing. *)

Inductive rvalue := RString (d : dict) | RHash (h : gmap text text).
Record rentry := { r_val : rvalue; r_expiry : option Z }.

Abbreviation redis := (gmap text rentry).

Definition live (R : redis) (now : Z) (key : text) : option rentry :=
  match R !! key with
  | Some e =>
      match r_expiry e with
      | Some deadline => if deadline <=? now then None else Some e
      | None => Some e
      end
  | None => None
  end.

(** GET: [Some None] is the nil reply, [None] an error reply. *)
Definition redis_get (R : redis) (now : Z) (key : text) : option (option dict) :=
  match live R now key with
  | Some e =>
      match r_val e with
      | RString d => Some (Some d)
      | RHash _ => None
      end
  | None => Some None
  end.

(** EXPIRE: a timeout that is not positive deletes the key. *)
Definition redis_expire (R : redis) (now : Z) (key : text) (secs : Z) : redis :=
  match live R now key with
  | Some e =>
      if 0 <? secs
      then <[key := {| r_val := r_val e;
                       r_expiry := Some (now + timedelta_seconds secs) |}]> R
      else delete key R
  | None => R
  end.

(** SETEX: the expiry must be positive. *)
Definition redis_setex (R : redis) (now : Z) (key : text) (secs : Z) (d : dict)
    : option redis :=
  if 0 <? secs
  then Some (<[key := {| r_val := RString d;
                         r_expiry := Some (now + timedelta_seconds secs) |}]> R)
  else None.

Definition redis_delete (R : redis) (key : text) : redis := delete key R.

Definition sf_finite (f : spec_float) : bool :=
  match f with
  | S754_zero _ | S754_finite _ _ _ => true
  | _ => false
  end.

(** The hash at [key] as a command that writes it sees it: empty and
    without expiry when the key is absent. *)
Definition hash_at (R : redis) (now : Z) (key : text)
    : option (gmap text text * option Z) :=
  match live R now key with
  | Some e =>
      match r_val e with
      | RHash h => Some (h, r_expiry e)
      | RString _ => None
      end
  | None => Some (∅, None)
  end.

(** [str(n)] on an [int]; the server writes an integer the same way. *)
Definition str_of_int (n : Z) : text := py (NilEmpty.string_of_int (Z.to_int n)).

(** The integers of the server are signed and 64 bits wide. *)
Definition int64 (z : Z) : bool := (- 2 ^ 63 <=? z) && (z <? 2 ^ 63).

(** The integer a text stands for in an integer command: the text must be
    the decimal form of a 64-bit integer and nothing more (no space, no
    plus sign, no leading zero). *)
Definition string2ll (t : text) : option Z :=
  let z := match t with
           | 45%N :: ds => - digits_val ds
           | _ => digits_val t
           end in
  if bool_decide (str_of_int z = t) && int64 z then Some z else None.

(** The integer in a field of a hash; a field that is absent counts as 0. *)
Definition field_int (h : gmap text text) (field : text) : option Z :=
  match h !! field with
  | Some t => string2ll t
  | None => Some 0
  end.

(** HINCRBY: the increment, the number in the field and their sum are
    64-bit integers, or the command is refused. *)
Definition redis_hincrby (R : redis) (now : Z) (key field : text) (n : Z)
    : option redis :=
  match hash_at R now key with
  | Some (h, ex) =>
      match field_int h field with
      | Some old =>
          if int64 n && int64 (old + n)
          then Some (<[key := {| r_val := RHash (<[field := str_of_int (old + n)]> h);
                                 r_expiry := ex |}]> R)
          else None
      | None => None
      end
  | None => None
  end.

(** HINCRBYFLOAT.  The server reads the field and the increment, which the
    client writes with [repr], as [long double] numbers, adds them and
    keeps the sum as a decimal text of at most 17 digits after the point.
    None of this arithmetic is code of the services; it is the parameter
    [incrbyfloat] here: [incrbyfloat old x] is the text the command leaves
    in a field that held [old] ([None] for no field) after the increment
    [x], and [None] when the server refuses, as it does for a field that
    is no number.  An increment that is NaN or infinite is always
    refused. *)
Definition redis_hincrbyfloat (incrbyfloat : option text → spec_float → option text)
    (R : redis) (now : Z) (key field : text) (x : spec_float) : option redis :=
  match hash_at R now key with
  | Some (h, ex) =>
      if sf_finite x then
        match incrbyfloat (h !! field) x with
        | Some total =>
            Some (<[key := {| r_val := RHash (<[field := total]> h);
                              r_expiry := ex |}]> R)
        | None => None
        end
      else None
  | None => None
  end.

(** ** The persistent store, reduced to the orders table *)

Inductive OrderType := DINE_IN | TAKEAWAY | DELIVERY.
Inductive OrderStatus := PENDING | PREPARING | READY | COMPLETED | CANCELLED.

Definition OrderType_value (t : OrderType) : text :=
  match t with
  | DINE_IN => py "dine_in"
  | TAKEAWAY => py "takeaway"
  | DELIVERY => py "delivery"
  end.

(** [OrderType(value)]: [None] stands for [ValueError]. *)
Definition OrderType_of (v : json) : option OrderType :=
  match v with
  | JStr s =>
      if bool_decide (s = py "dine_in") then Some DINE_IN
      else if bool_decide (s = py "takeaway") then Some TAKEAWAY
      else if bool_decide (s = py "delivery") then Some DELIVERY
      else None
  | _ => None
  end.

Record Customer := {
  customer_id : Z;
  customer_phone : text;
  customer_name : option text;
  customer_address : option text;
  customer_latitude : option spec_float;
  customer_longitude : option spec_float
}.

Record Order := {
  order_id : Z;
  order_customer_id : Z;
  order_type : OrderType;
  order_status : OrderStatus;
  order_items : json;
  order_total_price : json;
  order_delivery_address : json;
  order_delivery_latitude : json;
  order_delivery_longitude : json;
  order_estimated_completion_time : option datetime;
  order_completed_at : option datetime;
  order_feedback_requested : bool;
  order_feedback : option text;
  order_created_at : datetime;
  order_updated_at : datetime
}.

Record database := { orders : list Order; next_order_id : Z }.

Definition of_opt_str (o : option text) : json :=
  match o with Some s => JStr s | None => JNull end.
Definition of_opt_float (o : option spec_float) : json :=
  match o with Some f => JFloat f | None => JNull end.

(** ** State and exceptions

    A computation runs on the Redis server and the store, and either
    returns or raises; the effects made before an exception stay. *)

Record world := { w_redis : redis; w_db : database }.

Definition M (A : Type) : Type := world → option A * world.

Definition ret {A} (a : A) : M A := λ w, (Some a, w).
Definition raise {A} : M A := λ w, (None, w).
Definition bind {A B} (m : M A) (f : A → M B) : M B :=
  λ w, match m w with
       | (Some a, w') => f a w'
       | (None, w') => (None, w')
       end.
(** [try: m except Exception: h] *)
Definition try_except {A} (m : M A) (h : M A) : M A :=
  λ w, match m w with
       | (Some a, w') => (Some a, w')
       | (None, w') => h w'
       end.

#[global] Instance M_ret : MRet M := @ret.
#[global] Instance M_bind : MBind M := λ A B f m, bind m f.

Definition get_redis : M redis := λ w, (Some (w_redis w), w).
Definition put_redis (R : redis) : M unit :=
  λ w, (Some tt, {| w_redis := R; w_db := w_db w |}).
Definition get_db : M database := λ w, (Some (w_db w), w).
Definition put_db (d : database) : M unit :=
  λ w, (Some tt, {| w_redis := w_redis w; w_db := d |}).
Definition of_option {A} (o : option A) : M A :=
  match o with Some a => ret a | None => raise end.

(** ** Session store ([RedisService], [app/services/redis_service.py]) *)

Section Services.
Variable settings : Settings.
(** [db.commit()] of a new row succeeds or raises: the store decides. *)
Variable commit_ok : Order → bool.

Definition session_timeout : Z := SESSION_TIMEOUT_MINUTES settings * 60.

Definition _get_session_key (phone_number : text) : text :=
  py "session:" ++ phone_number.

(** [RedisService.get_session]: a hit refreshes the expiry; a miss and
    any error give [None]. *)
Definition get_session (now : datetime) (phone_number : text)
    : M (option dict) :=
  try_except
    (let key := _get_session_key phone_number in
     R ← get_redis;
     data ← of_option (redis_get R now key);
     match data with
     | Some session =>
         put_redis (redis_expire R now key session_timeout);;
         mret (Some session)
     | None => mret None
     end)
    (mret None).

(** [RedisService.set_session]: the dictionary is stamped, then stored
    with the session timeout. *)
Definition set_session (now : datetime) (phone_number : text)
    (session_data : dict) : M unit :=
  let key := _get_session_key phone_number in
  let session_data :=
    <[py "last_activity" := JStr (isoformat now)]> session_data in
  R ← get_redis;
  R' ← of_option (redis_setex R now key session_timeout session_data);
  put_redis R'.

(** [RedisService.update_session]: [session.update(updates)] on the
    session read, or on the empty one. *)
Definition update_session (now : datetime) (phone_number : text)
    (updates : dict) : M unit :=
  session ← get_session now phone_number;
  let session := default ∅ session in
  set_session now phone_number (updates ∪ session).

Definition delete_session (phone_number : text) : M unit :=
  R ← get_redis;
  put_redis (redis_delete R (_get_session_key phone_number)).

Definition conversation_entry (now : datetime) (role message : text) : json :=
  JObj (<[py "role" := JStr role]>
        (<[py "message" := JStr message]>
         (<[py "timestamp" := JStr (isoformat now)]> ∅))).

(** [RedisService.add_to_conversation]: [append] raises on a
    [conversation] that is not a list. *)
Definition add_to_conversation (now : datetime) (phone_number role message : text)
    : M unit :=
  session ← get_session now phone_number;
  let session := default ∅ session in
  conversation ←
    match session !! py "conversation" with
    | None => mret []
    | Some (JArr l) => mret l
    | Some _ => raise
    end;
  let conversation := conversation ++ [conversation_entry now role message] in
  let conversation :=
    if bool_decide (20 < length conversation)%nat
    then drop (length conversation - 20) conversation
    else conversation in
  set_session now phone_number (<[py "conversation" := JArr conversation]> session).

Definition get_conversation_history (now : datetime) (phone_number : text)
    : M json :=
  session ← get_session now phone_number;
  match session with
  | Some session =>
      if truthy (JObj session)
      then mret (default (JArr []) (session !! py "conversation"))
      else mret (JArr [])
  | None => mret (JArr [])
  end.

(** ** Orders ([OrderService], [app/services/order_service.py]) *)

Definition minutes_map (order_type : OrderType) : Z :=
  match order_type with
  | DINE_IN => 20
  | TAKEAWAY => 15
  | DELIVERY => 45
  end.

(** [OrderService.create_order]: [now] is the reading of the clock in the
    method, [stamp] the one of the row's [default_factory] fields. *)
Definition create_order (now stamp : datetime) (customer : Z)
    (order_type : OrderType) (items total_price : json)
    (delivery_address delivery_latitude delivery_longitude : json)
    : M Order :=
  let estimated_time := now + timedelta_minutes (minutes_map order_type) in
  db ← get_db;
  let order :=
    {| order_id := next_order_id db;
       order_customer_id := customer;
       order_type := order_type;
       order_status := PENDING;
       order_items := items;
       order_total_price := total_price;
       order_delivery_address := delivery_address;
       order_delivery_latitude := delivery_latitude;
       order_delivery_longitude := delivery_longitude;
       order_estimated_completion_time := Some estimated_time;
       order_completed_at := None;
       order_feedback_requested := false;
       order_feedback := None;
       order_created_at := stamp;
       order_updated_at := stamp |} in
  if commit_ok order then
    put_db {| orders := orders db ++ [order];
              next_order_id := next_order_id db + 1 |};;
    mret order
  else raise.

(** [OrderService.should_request_feedback] *)
Definition should_request_feedback (now : datetime) (order : Order) : bool :=
  if order_feedback_requested order
     || truthy (of_opt_str (order_feedback order))
  then false
  else
    match order_completed_at order with
    | None => false
    | Some completed_at =>
        let time_since_completion := now - completed_at in
        let threshold := timedelta_minutes (FEEDBACK_DELAY_MINUTES settings) in
        threshold <=? time_since_completion
    end.

Definition set_feedback (feedback : text) (o : Order) : Order :=
  {| order_id := order_id o;
     order_customer_id := order_customer_id o;
     order_type := order_type o;
     order_status := order_status o;
     order_items := order_items o;
     order_total_price := order_total_price o;
     order_delivery_address := order_delivery_address o;
     order_delivery_latitude := order_delivery_latitude o;
     order_delivery_longitude := order_delivery_longitude o;
     order_estimated_completion_time := order_estimated_completion_time o;
     order_completed_at := order_completed_at o;
     order_feedback_requested := order_feedback_requested o;
     order_feedback := Some feedback;
     order_created_at := order_created_at o;
     order_updated_at := order_updated_at o |}.

(** [Result.scalar_one_or_none()]: no row, the row, or
    [MultipleResultsFound]. *)
Definition scalar_one_or_none {A} (rows : list A) : option (option A) :=
  match rows with
  | [] => Some None
  | [row] => Some (Some row)
  | _ :: _ :: _ => None
  end.

(** [select(Order).where(Order.id == order_id)] *)
Definition select_order (order_id' : Z) : M (option Order) :=
  db ← get_db;
  of_option (scalar_one_or_none (filter (λ o, order_id o = order_id') (orders db))).

(** The commit of the one row the session changed: the row with its
    identifier is replaced, or the commit raises and nothing is kept. *)
Definition commit_row (order : Order) : M unit :=
  if commit_ok order then
    db ← get_db;
    put_db {| orders :=
                (λ o, if bool_decide (order_id o = order_id order) then order else o)
                  <$> orders db;
              next_order_id := next_order_id db |}
  else raise.

(** [OrderService.save_feedback]: the row is selected, changed and
    committed; any error (more than one row, a commit that fails, an
    identifier or a feedback of a type the columns do not take) is logged
    and dropped after the rollback, so that nothing is stored. *)
Definition save_feedback (id feedback : json) : M unit :=
  try_except
    (match id, feedback with
     | JInt z, JStr f =>
         row ← select_order z;
         match row with
         | Some order => commit_row (set_feedback f order)
         | None => mret tt
         end
     | _, _ => raise
     end)
    (mret tt).

(** ** Action dispatcher ([handle_action], [app/routes/webhook.py]) *)

Record clock := {
  at_order : datetime;     (* [utcnow()] in [create_order] *)
  at_insert : datetime;    (* the defaults of the new row *)
  at_session : datetime    (* the session write *)
}.

(** [x.get(...)] on a value that must be a dictionary. *)
Definition as_dict (v : json) : M dict :=
  match v with
  | JObj d => mret d
  | _ => raise
  end.

(** The whole body runs under [try], and the handler only logs. *)
Definition handle_action (clk : clock) (action : dict) (customer : Customer)
    (phone_number : text) (session : dict) : M unit :=
  try_except
    (let action_type := dict_get action (py "type") in
     let data := dict_get_or action (py "data") (JObj ∅) in
     if str_eq action_type (py "create_order") then
       data ← as_dict data;
       order_type ←
         of_option (OrderType_of (dict_get_or data (py "order_type")
                                    (JStr (py "dine_in"))));
       let items := dict_get_or data (py "items") (JArr []) in
       let total_price := dict_get_or data (py "total_price") (JInt 0) in
       '(delivery_address, delivery_lat, delivery_lon) ←
         match order_type with
         | DELIVERY =>
             let delivery_address :=
               py_or (dict_get data (py "address"))
                     (of_opt_str (customer_address customer)) in
             location ← as_dict (dict_get_or session (py "location") (JObj ∅));
             let delivery_lat :=
               py_or (dict_get location (py "latitude"))
                     (of_opt_float (customer_latitude customer)) in
             let delivery_lon :=
               py_or (dict_get location (py "longitude"))
                     (of_opt_float (customer_longitude customer)) in
             mret (delivery_address, delivery_lat, delivery_lon)
         | _ => mret (JNull, JNull, JNull)
         end;
       order ← create_order (at_order clk) (at_insert clk)
                  (customer_id customer) order_type items total_price
                  delivery_address delivery_lat delivery_lon;
       update_session (at_session clk) phone_number
         (<[py "current_order" := JNull]>
          (<[py "last_order" :=
               JObj (<[py "id" := JInt (order_id order)]>
                     (<[py "items" := items]>
                      (<[py "total" := total_price]>
                       (<[py "type" := JStr (OrderType_value order_type)]>
                        (<[py "created_at" :=
                             JStr (isoformat (order_created_at order))]> ∅)))))]> ∅))
     else if str_eq action_type (py "save_feedback") then
       data ← as_dict data;
       let id := dict_get data (py "order_id") in
       let feedback := dict_get data (py "feedback") in
       if truthy id && truthy feedback then
         save_feedback id feedback;;
         update_session (at_session clk) phone_number
           (<[py "should_request_feedback" := JBool false]> ∅)
       else mret tt
     else
       (* create_complaint, create_reservation and update_customer_info
          write tables outside [database]; any other tag does nothing *)
       mret tt)
    (mret tt).
End Services.

(** ** Usage accounting ([CostTrackingService], [app/services/cost_tracking_service.py]) *)

Definition fmul : spec_float → spec_float → spec_float := SFmul 53 1024.
Definition fadd : spec_float → spec_float → spec_float := SFadd 53 1024.

(** The quotient of [n] by a million, rounded once. *)
Definition per_million (n : Z) : spec_float :=
  match n with
  | Z0 => S754_zero false
  | Zpos p => SFdiv 53 1024 (S754_finite false p 0) (S754_finite false 1000000 0)
  | Zneg p => SFdiv 53 1024 (S754_finite true p 0) (S754_finite false 1000000 0)
  end.

(** [n / 1_000_000] on an [int]: [OverflowError] when the quotient is too
    large for a float. *)
Definition div_million (n : Z) : option spec_float :=
  let q := per_million n in
  if sf_finite q then Some q else None.

(** The literals [0.075] and [0.30] as binary64 numbers. *)
Definition INPUT_COST_PER_1M : spec_float :=
  Eval vm_compute in float_of_decimal false 75 (-3).
Definition OUTPUT_COST_PER_1M : spec_float :=
  Eval vm_compute in float_of_decimal false 30 (-2).
Definition USD_TO_PKR : Z := 280.

Definition hincrby (now : datetime) (key field : text) (n : Z) : M unit :=
  R ← get_redis;
  R' ← of_option (redis_hincrby R now key field n);
  put_redis R'.

Definition hincrbyfloat (incrbyfloat : option text → spec_float → option text)
    (now : datetime) (key field : text) (x : spec_float) : M unit :=
  R ← get_redis;
  R' ← of_option (redis_hincrbyfloat incrbyfloat R now key field x);
  put_redis R'.

Definition expire (now : datetime) (key : text) (secs : Z) : M unit :=
  R ← get_redis;
  put_redis (redis_expire R now key secs).

Definition daily_key (now : datetime) : text :=
  py "cost:daily:" ++ strftime_day now.
Definition monthly_key (now : datetime) : text :=
  py "cost:monthly:" ++ strftime_month now.
Definition user_key (now : datetime) (phone_number : text) : text :=
  py "cost:user:" ++ phone_number ++ py ":" ++ strftime_day now.

Definition total_cost_usd (input_tokens output_tokens : Z) : spec_float :=
  let input_cost_usd := fmul (per_million input_tokens) INPUT_COST_PER_1M in
  let output_cost_usd := fmul (per_million output_tokens) OUTPUT_COST_PER_1M in
  fadd input_cost_usd output_cost_usd.

Definition total_cost_pkr (input_tokens output_tokens : Z) : spec_float :=
  fmul (total_cost_usd input_tokens output_tokens) (binary64_of_Z USD_TO_PKR).

Section UsageAccounting.
(** The float increment of the server (see [redis_hincrbyfloat]). *)
Variable incrbyfloat : option text → spec_float → option text.

(** [CostTrackingService.track_usage]; [connected] tells whether
    [self.redis] was set by [connect].  Any exception gives the empty
    dictionary, and what the commands before it wrote stays written. *)
Definition track_usage (connected : bool) (now : datetime)
    (input_tokens output_tokens : Z) (phone_number : text) : M dict :=
  try_except
    (input_millions ← of_option (div_million input_tokens);
     let input_cost_usd := fmul input_millions INPUT_COST_PER_1M in
     output_millions ← of_option (div_million output_tokens);
     let output_cost_usd := fmul output_millions OUTPUT_COST_PER_1M in
     let total_cost_usd := fadd input_cost_usd output_cost_usd in
     let total_cost_pkr := fmul total_cost_usd (binary64_of_Z USD_TO_PKR) in
     let daily_key := daily_key now in
     let monthly_key := monthly_key now in
     let user_key := user_key now phone_number in
     (if connected then
        hincrby now daily_key (py "input_tokens") input_tokens;;
        hincrby now daily_key (py "output_tokens") output_tokens;;
        hincrbyfloat incrbyfloat now daily_key (py "cost_usd") total_cost_usd;;
        hincrbyfloat incrbyfloat now daily_key (py "cost_pkr") total_cost_pkr;;
        hincrby now daily_key (py "requests") 1;;
        expire now daily_key (86400 * 90);;
        hincrby now monthly_key (py "input_tokens") input_tokens;;
        hincrby now monthly_key (py "output_tokens") output_tokens;;
        hincrbyfloat incrbyfloat now monthly_key (py "cost_usd") total_cost_usd;;
        hincrbyfloat incrbyfloat now monthly_key (py "cost_pkr") total_cost_pkr;;
        hincrby now monthly_key (py "requests") 1;;
        expire now monthly_key (86400 * 365);;
        hincrby now user_key (py "input_tokens") input_tokens;;
        hincrby now user_key (py "output_tokens") output_tokens;;
        hincrbyfloat incrbyfloat now user_key (py "cost_pkr") total_cost_pkr;;
        expire now user_key (86400 * 30)
      else mret tt);;
     mret (<[py "input_tokens" := JInt input_tokens]>
           (<[py "output_tokens" := JInt output_tokens]>
            (<[py "total_tokens" := JInt (input_tokens + output_tokens)]>
             (<[py "input_cost_usd" := JFloat input_cost_usd]>
              (<[py "output_cost_usd" := JFloat output_cost_usd]>
               (<[py "total_cost_usd" := JFloat total_cost_usd]>
                (<[py "total_cost_pkr" := JFloat total_cost_pkr]> ∅))))))))
    (mret ∅).

End UsageAccounting.

(** One field of a usage window, as [hgetall] would show it. *)
Definition window_field (R : redis) (now : datetime) (key field : text)
    : option text :=
  match live R now key with
  | Some {| r_val := RHash h |} => h !! field
  | _ => None
  end.

Definition window_expiry (R : redis) (now : datetime) (key : text) : option Z :=
  match live R now key with
  | Some e => r_expiry e
  | None => None
  end.


(** ** Observations and sample data used by the statements *)

(** The session a read at [now] finds. *)
Definition session_at (R : redis) (now : datetime) (phone_number : text)
    : option dict :=
  match live R now (_get_session_key phone_number) with
  | Some {| r_val := RString d |} => Some d
  | _ => None
  end.

(** The session the server holds, expired or not. *)
Definition stored_session (R : redis) (phone_number : text) : option dict :=
  match R !! _get_session_key phone_number with
  | Some {| r_val := RString d |} => Some d
  | _ => None
  end.

(** The server after the read of [get_session], which refreshes the expiry
    of a session it finds. *)
Definition refreshed (settings : Settings) (R : redis) (now : datetime)
    (phone_number : text) : redis :=
  match session_at R now phone_number with
  | Some _ => redis_expire R now (_get_session_key phone_number)
                (session_timeout settings)
  | None => R
  end.

(** What [set_session] writes. *)
Definition session_entry (settings : Settings) (now : datetime) (d : dict)
    : rentry :=
  {| r_val := RString (<[py "last_activity" := JStr (isoformat now)]> d);
     r_expiry := Some (now + timedelta_seconds (session_timeout settings)) |}.

(** The transcript of a session dictionary, when it has the shape
    [add_to_conversation] can extend. *)
Definition transcript (d : dict) : option (list json) :=
  match d !! py "conversation" with
  | None => Some []
  | Some (JArr l) => Some l
  | Some _ => None
  end.

(** [l[-20:]] *)
Definition last20 (l : list json) : list json := drop (length l - 20) l.

(** A run of appends, each with the time it is made at. *)
Fixpoint add_all (settings : Settings) (phone_number : text)
    (es : list (datetime * text * text)) : M unit :=
  match es with
  | [] => mret tt
  | (t, role, message) :: es' =>
      add_to_conversation settings t phone_number role message;;
      add_all settings phone_number es'
  end.

(** Each append is made before the session written at [t] expires. *)
Fixpoint in_time (settings : Settings) (t : datetime)
    (es : list (datetime * text * text)) : Prop :=
  match es with
  | [] => True
  | (t', _, _) :: es' =>
      t' < t + timedelta_seconds (session_timeout settings) ∧
      in_time settings t' es'
  end.

Definition entry_of (e : datetime * text * text) : json :=
  let '(t, role, message) := e in conversation_entry t role message.

(** The [last_order] value [handle_action] sends to the session. *)
Definition order_snapshot (o : Order) : json :=
  JObj (<[py "id" := JInt (order_id o)]>
        (<[py "items" := order_items o]>
         (<[py "total" := order_total_price o]>
          (<[py "type" := JStr (OrderType_value (order_type o))]>
           (<[py "created_at" := JStr (isoformat (order_created_at o))]> ∅))))).

(** The fallback chain as the specification words it: the command first,
    then the session, then the profile. *)
Definition claimed_chain (explicit session_value profile : json) : json :=
  py_or explicit (py_or session_value profile).

Definition expiry_live (now : datetime) (ex : option Z) : Prop :=
  match ex with Some deadline => now < deadline | None => True end.

Section WindowCounters.
Variable incrbyfloat : option text → spec_float → option text.

(** The integer a field of a window counts as, and the text the float
    increment leaves in a field. *)
Definition int_field (h : gmap text text) (f : text) : Z :=
  default 0 (field_int h f).

Definition float_text (h : gmap text text) (f : text) (x : spec_float) : text :=
  default [] (incrbyfloat (h !! f) x).

Definition incr_int (h : gmap text text) (f : text) (n : Z) : gmap text text :=
  <[f := str_of_int (int_field h f + n)]> h.

Definition incr_float (h : gmap text text) (f : text) (x : spec_float)
    : gmap text text :=
  <[f := float_text h f x]> h.

(** The increments the server accepts on a hash: an integer increment of
    a field that holds a 64-bit integer, or is absent, when the increment
    and the sum are in the 64-bit range; a finite float increment that
    the server does not refuse. *)
Definition int_ok (h : gmap text text) (f : text) (n : Z) : Prop :=
  match field_int h f with
  | Some old => int64 n && int64 (old + n) = true
  | None => False
  end.

Definition float_ok (h : gmap text text) (f : text) (x : spec_float) : Prop :=
  sf_finite x = true ∧ is_Some (incrbyfloat (h !! f) x).

(** The five counters of a daily or monthly window after one record, and
    the three counters of a per-identity window. *)
Definition bump_full (input_tokens output_tokens : Z) (usd pkr : spec_float)
    (h : gmap text text) : gmap text text :=
  <[py "requests" := str_of_int (int_field h (py "requests") + 1)]>
    (<[py "cost_pkr" := float_text h (py "cost_pkr") pkr]>
       (<[py "cost_usd" := float_text h (py "cost_usd") usd]>
          (<[py "output_tokens" :=
               str_of_int (int_field h (py "output_tokens") + output_tokens)]>
             (<[py "input_tokens" :=
                  str_of_int (int_field h (py "input_tokens") + input_tokens)]> h)))).

Definition bump_user (input_tokens output_tokens : Z) (pkr : spec_float)
    (h : gmap text text) : gmap text text :=
  <[py "cost_pkr" := float_text h (py "cost_pkr") pkr]>
    (<[py "output_tokens" :=
         str_of_int (int_field h (py "output_tokens") + output_tokens)]>
       (<[py "input_tokens" :=
            str_of_int (int_field h (py "input_tokens") + input_tokens)]> h)).

Definition full_ok (h : gmap text text) (input_tokens output_tokens : Z)
    (usd pkr : spec_float) : Prop :=
  int_ok h (py "input_tokens") input_tokens ∧
  int_ok h (py "output_tokens") output_tokens ∧
  float_ok h (py "cost_usd") usd ∧ float_ok h (py "cost_pkr") pkr ∧
  int_ok h (py "requests") 1.

Definition user_ok (h : gmap text text) (input_tokens output_tokens : Z)
    (pkr : spec_float) : Prop :=
  int_ok h (py "input_tokens") input_tokens ∧
  int_ok h (py "output_tokens") output_tokens ∧
  float_ok h (py "cost_pkr") pkr.

End WindowCounters.

(** *** Sample data *)

Definition sample_now : datetime := 1793750400000000.

Definition sample_customer : Customer :=
  {| customer_id := 1; customer_phone := py "923001234567";
     customer_name := None; customer_address := Some (py "12 Canal Road");
     customer_latitude := None; customer_longitude := None |}.

Definition sample_world : world :=
  {| w_redis := ∅; w_db := {| orders := []; next_order_id := 1 |} |}.

Definition sample_clock : clock :=
  {| at_order := 1793750400000000; at_insert := 1793750400000500;
     at_session := 1793750400002000 |}.

Definition complaint_response : text :=
  pyq "Noted, sorry about that. ```action {'type':'create_complaint','data':{'description':'cold food'}} ``` We will fix it.".

Definition complaint_action : json :=
  JObj (<[py "type" := JStr (py "create_complaint")]>
        (<[py "data" := JObj (<[py "description" := JStr (py "cold food")]> ∅)]> ∅)).

Definition chatty_response : text :=
  pyq "```json hello ``` ```json {'type':'create_complaint','data':{'description':'cold food'}} ```".

Definition malformed_response : text :=
  pyq "Sure. ```json {'type': ``` Your order is noted. ```action {} ```".

Definition takeaway_data : dict :=
  <[py "order_type" := JStr (py "takeaway")]>
    (<[py "items" := JArr [JStr (py "Quarter Broast")]]>
       (<[py "total_price" := JInt 650]> ∅)).

Definition takeaway_action : dict :=
  <[py "type" := JStr (py "create_order")]>
    (<[py "data" := JObj takeaway_data]> ∅).

Definition delivery_data : dict :=
  <[py "order_type" := JStr (py "delivery")]>
    (<[py "items" := JArr [JStr (py "Quarter Broast")]]>
       (<[py "total_price" := JInt 650]> ∅)).

Definition delivery_action : dict :=
  <[py "type" := JStr (py "create_order")]>
    (<[py "data" := JObj delivery_data]> ∅).

(** Twenty-one messages, one second apart. *)
Definition sample_messages : list (datetime * text * text) :=
  (λ i, (sample_now + Z.of_nat i * 1000000, py "user", digits 2 (Z.of_nat i)))
    <$> seq 0 21.

(** Twenty-one messages: ten, one second apart, then a pause of sixty-one
    minutes, then eleven more. *)
Definition paused_messages : list (datetime * text * text) :=
  (λ i, (sample_now + Z.of_nat i * 1000000
           + (if (i <? 10)%nat then 0 else timedelta_minutes 61),
         py "user", digits 2 (Z.of_nat i)))
    <$> seq 0 21.

(** * The rest of the services *)

(** The commands of a session service leave every key but one alone. *)
Definition only_touches (key : text) (R R' : redis) : Prop :=
  ∀ k, k ≠ key → R' !! k = R !! k.

(** ** Order queries ([OrderService], continued) *)

Definition with_status (status : OrderStatus) (updated_at : datetime)
    (completed_at : option datetime) (o : Order) : Order :=
  {| order_id := order_id o;
     order_customer_id := order_customer_id o;
     order_type := order_type o;
     order_status := status;
     order_items := order_items o;
     order_total_price := order_total_price o;
     order_delivery_address := order_delivery_address o;
     order_delivery_latitude := order_delivery_latitude o;
     order_delivery_longitude := order_delivery_longitude o;
     order_estimated_completion_time := order_estimated_completion_time o;
     order_completed_at := completed_at;
     order_feedback_requested := order_feedback_requested o;
     order_feedback := order_feedback o;
     order_created_at := order_created_at o;
     order_updated_at := updated_at |}.

Definition with_feedback_requested (o : Order) : Order :=
  {| order_id := order_id o;
     order_customer_id := order_customer_id o;
     order_type := order_type o;
     order_status := order_status o;
     order_items := order_items o;
     order_total_price := order_total_price o;
     order_delivery_address := order_delivery_address o;
     order_delivery_latitude := order_delivery_latitude o;
     order_delivery_longitude := order_delivery_longitude o;
     order_estimated_completion_time := order_estimated_completion_time o;
     order_completed_at := order_completed_at o;
     order_feedback_requested := true;
     order_feedback := order_feedback o;
     order_created_at := order_created_at o;
     order_updated_at := order_updated_at o |}.

Section OrderQueries.
(** [db.commit()] of a changed row succeeds or raises. *)
Variable commit_ok : Order → bool.

(** [OrderService.get_order]: any error gives [None]. *)
Definition get_order (order_id' : Z) : M (option Order) :=
  try_except (select_order order_id') (mret None).

(** [OrderService.update_order_status]: [now] is the reading of the clock
    for [updated_at], [now'] the one for [completed_at]; an error rolls the
    session back and is raised again. *)
Definition update_order_status (now now' : datetime) (order_id' : Z)
    (status : OrderStatus) : M (option Order) :=
  row ← select_order order_id';
  match row with
  | None => mret None
  | Some order =>
      let order :=
        with_status status now
          (match status with
           | COMPLETED => Some now'
           | _ => order_completed_at order
           end) order in
      commit_row commit_ok order;;
      mret (Some order)
  end.

(** [OrderService.mark_feedback_requested]: errors are logged and
    dropped. *)
Definition mark_feedback_requested (order_id' : Z) : M unit :=
  try_except
    (row ← select_order order_id';
     match row with
     | Some order => commit_row commit_ok (with_feedback_requested order)
     | None => mret tt
     end)
    (mret tt).

End OrderQueries.

(** The orders table as the database keeps it: identifiers are unique and
    below the next one to be given. *)
Definition db_ok (db : database) : Prop :=
  NoDup (order_id <$> orders db) ∧
  Forall (λ o, order_id o < next_order_id db) (orders db).

(** ** Usage reports ([CostTrackingService], continued) *)

(** HGETALL: the empty hash for an absent key, an error reply for a key
    that holds a string. *)
Definition redis_hgetall (R : redis) (now : Z) (key : text)
    : option (gmap text text) :=
  match live R now key with
  | Some e =>
      match r_val e with
      | RHash h => Some h
      | RString _ => None
      end
  | None => Some ∅
  end.

(** The conversion of an [int] operand of a float division:
    [OverflowError] when the integer rounds to no finite float. *)
Definition float_of_int (z : Z) : option spec_float :=
  let f := binary64_of_Z z in
  if sf_finite f then Some f else None.

Definition fdiv : spec_float → spec_float → spec_float := SFdiv 53 1024.

(** [date] when the caller gave one, today otherwise ([if not date]). *)
Definition date_or_today (today : text) (date : option text) : text :=
  match date with
  | Some (c :: s) => c :: s
  | _ => today
  end.

Section Reports.
(** [int(s)] and [float(s)] on the text of a field, with [None] for
    [ValueError].  On the decimal form of a 64-bit integer, [int] gives
    that integer; what it gives on any other text is [int_of_text].  What
    [float] gives is [float_of_text]. *)
Variable int_of_text : text → option Z.
Variable float_of_text : text → option spec_float.

Definition py_int (s : text) : option Z :=
  match string2ll s with
  | Some z => Some z
  | None => int_of_text s
  end.

(** [int(stats.get(field, dflt))] *)
Definition stats_int (stats : gmap text text) (field : text) (dflt : Z)
    : M Z :=
  match stats !! field with
  | None => mret dflt
  | Some s => of_option (py_int s)
  end.

(** [float(stats.get(field, 0))] *)
Definition stats_float (stats : gmap text text) (field : text)
    : M spec_float :=
  match stats !! field with
  | None => mret (S754_zero false)
  | Some s => of_option (float_of_text s)
  end.

(** [CostTrackingService.get_daily_stats] *)
Definition get_daily_stats (connected : bool) (now : datetime)
    (date : option text) : M dict :=
  try_except
    (let date := date_or_today (strftime_day now) date in
     let key := py "cost:daily:" ++ date in
     if connected then
       R ← get_redis;
       stats ← of_option (redis_hgetall R now key);
       if bool_decide (stats = ∅) then mret ∅
       else
         input_tokens ← stats_int stats (py "input_tokens") 0;
         output_tokens ← stats_int stats (py "output_tokens") 0;
         cost_usd ← stats_float stats (py "cost_usd");
         cost_pkr ← stats_float stats (py "cost_pkr");
         requests ← stats_int stats (py "requests") 0;
         mret (<[py "date" := JStr date]>
               (<[py "input_tokens" := JInt input_tokens]>
                (<[py "output_tokens" := JInt output_tokens]>
                 (<[py "total_tokens" := JInt (input_tokens + output_tokens)]>
                  (<[py "cost_usd" := JFloat cost_usd]>
                   (<[py "cost_pkr" := JFloat cost_pkr]>
                    (<[py "requests" := JInt requests]> ∅)))))))
     else mret ∅)
    (mret ∅).

(** [CostTrackingService.get_monthly_stats] *)
Definition get_monthly_stats (connected : bool) (now : datetime)
    (month : option text) : M dict :=
  try_except
    (let month := date_or_today (strftime_month now) month in
     let key := py "cost:monthly:" ++ month in
     if connected then
       R ← get_redis;
       stats ← of_option (redis_hgetall R now key);
       if bool_decide (stats = ∅) then mret ∅
       else
         input_tokens ← stats_int stats (py "input_tokens") 0;
         output_tokens ← stats_int stats (py "output_tokens") 0;
         cost_usd ← stats_float stats (py "cost_usd");
         cost_pkr ← stats_float stats (py "cost_pkr");
         requests ← stats_int stats (py "requests") 0;
         divisor ← stats_int stats (py "requests") 1;
         divisor ← of_option (float_of_int (Z.max divisor 1));
         mret (<[py "month" := JStr month]>
               (<[py "input_tokens" := JInt input_tokens]>
                (<[py "output_tokens" := JInt output_tokens]>
                 (<[py "total_tokens" := JInt (input_tokens + output_tokens)]>
                  (<[py "cost_usd" := JFloat cost_usd]>
                   (<[py "cost_pkr" := JFloat cost_pkr]>
                    (<[py "requests" := JInt requests]>
                     (<[py "avg_cost_per_request_pkr" :=
                          JFloat (fdiv cost_pkr divisor)]>
                        ∅))))))))
     else mret ∅)
    (mret ∅).

End Reports.

(** The server after one record on windows that take the increments. *)
Definition recorded (incrbyfloat : option text → spec_float → option text)
    (R : redis) (now : datetime) (phone_number : text)
    (input_tokens output_tokens : Z) (hd hm hu : gmap text text) : redis :=
  let usd := total_cost_usd input_tokens output_tokens in
  let pkr := total_cost_pkr input_tokens output_tokens in
  <[user_key now phone_number :=
      {| r_val := RHash (bump_user incrbyfloat input_tokens output_tokens pkr hu);
         r_expiry := Some (now + timedelta_seconds (86400 * 30)) |}]>
    (<[monthly_key now :=
         {| r_val := RHash (bump_full incrbyfloat input_tokens output_tokens usd pkr hm);
            r_expiry := Some (now + timedelta_seconds (86400 * 365)) |}]>
       (<[daily_key now :=
            {| r_val := RHash (bump_full incrbyfloat input_tokens output_tokens usd pkr hd);
               r_expiry := Some (now + timedelta_seconds (86400 * 90)) |}]> R)).

(** *** A sample server

    The replies of a Redis server on x86-64 Linux, where [long double] has
    a precision of 64 bits, to the float increments of the samples (two
    records, of 100 and 50 tokens and then of 200 and 100, and one record
    of 850 and 120 tokens, on windows that start empty), and what
    [float] reads from these replies.  The samples send no other float
    increment. *)
Definition sf_eqb (x y : spec_float) : bool :=
  match x, y with
  | S754_zero s, S754_zero s' => Bool.eqb s s'
  | S754_finite s m e, S754_finite s' m' e' =>
      Bool.eqb s s' && (m =? m')%positive && (e =? e')
  | _, _ => false
  end.

Definition sample_incrbyfloat (old : option text) (x : spec_float)
    : option text :=
  match old with
  | None =>
      if sf_eqb x (total_cost_usd 100 50) then Some (py "0.0000225")
      else if sf_eqb x (total_cost_pkr 100 50) then Some (py "0.0063")
      else if sf_eqb x (total_cost_usd 850 120) then Some (py "0.00009975")
      else if sf_eqb x (total_cost_pkr 850 120) then Some (py "0.02793")
      else None
  | Some t =>
      if bool_decide (t = py "0.0000225") && sf_eqb x (total_cost_usd 200 100)
      then Some (py "0.0000675")
      else if bool_decide (t = py "0.0063") && sf_eqb x (total_cost_pkr 200 100)
      then Some (py "0.0189")
      else None
  end.

(** [float(s)] on a text of the form [0.d...d]. *)
Definition sample_float_of_text (s : text) : option spec_float :=
  match s with
  | 48%N :: 46%N :: d :: ds =>
      if forallb is_digit (d :: ds)
      then Some (float_of_decimal false (digits_val (d :: ds))
                   (- Z.of_nat (length (d :: ds))))
      else None
  | _ => None
  end.

(** A window without report: no live entry at the key, or a string. *)
Definition no_window (R : redis) (now : datetime) (key : text) : Prop :=
  live R now key = None ∨ ∃ e d, live R now key = Some e ∧ r_val e = RString d.

(** A computation that changes nothing. *)
Definition reads {A} (m : M A) : Prop := ∀ w, (m w).2 = w.

(** ** The reply of [process_message] ([app/routes/webhook.py]) *)

Definition TROUBLE : text :=
  Eval cbv in py "I'm having trouble responding right now. Please try again.".

(** The reply sent to the customer: the clean response, checked once
    more by the caller. *)
Definition clean_response (ai_response : text) : text :=
  let clean_response := Codec.get_clean_response ai_response in
  if bool_decide (clean_response = [])
     || bool_decide (length (strip clean_response) < 5)%nat
  then TROUBLE
  else clean_response.

(** ** Prompt construction ([GeminiService], continued) *)

Definition nl : text := [10%N].

(** [sep.join(parts)] *)
Fixpoint str_join (sep : text) (parts : list text) : text :=
  match parts with
  | [] => []
  | [p] => p
  | p :: ps => p ++ sep ++ str_join sep ps
  end.

Definition SORRY : text :=
  Eval cbv in py "Sorry, something went wrong. Try again?".

Section Generation.
(** [self.system_prompt], the call of the model ([None] when the call or
    the access to its text raises), [json.dumps], and the text an
    f-string gives for a value that is not a [str]. *)
Variable system_prompt : text.
Variable generate_content : text → option text.
Variable dumps : json → text.
Variable format_value : json → text.

(** [f"{v}"] *)
Definition format_json (v : json) : text :=
  match v with
  | JStr s => s
  | _ => format_value v
  end.

(** [GeminiService._build_context_string] *)
Definition _build_context_string (context : dict) (menu_items : option text)
    : text :=
  let context_parts :=
    (match menu_items with
     | Some (c :: m) =>
         [replicate 50 61%N;
          py "RESTAURANT MENU (USE THIS TO ANSWER QUESTIONS)";
          replicate 50 61%N;
          c :: m;
          replicate 50 61%N;
          []]
     | _ => []
     end)
    ++ (if truthy (dict_get context (py "customer_name"))
        then [py "Customer Name: "
              ++ format_json (dict_get context (py "customer_name"))]
        else [])
    ++ (if truthy (dict_get context (py "current_order"))
        then [py "Current Order in Progress: "
              ++ dumps (dict_get context (py "current_order"))]
        else [])
    ++ (if truthy (dict_get context (py "last_order"))
        then [py "Last Order: " ++ dumps (dict_get context (py "last_order"))]
        else [])
    ++ (if truthy (dict_get context (py "pending_address"))
        then [py "Waiting for: Customer address for delivery order"]
        else [])
    ++ (if truthy (dict_get context (py "pending_location"))
        then [py "Waiting for: Customer location coordinates"]
        else []) in
  match context_parts with
  | [] => py "No additional context"
  | _ => str_join nl context_parts
  end.

(** One line of the history: [msg["role"]] and [msg['message']] raise on
    a value that is not a dictionary and on a missing key. *)
Definition history_line (msg : json) : option text :=
  match msg with
  | JObj m =>
      match m !! py "role", m !! py "message" with
      | Some role, Some message =>
          Some ((if str_eq role (py "user") then py "Customer" else py "Assistant")
                ++ py ": " ++ format_json message ++ nl)
      | _, _ => None
      end
  | _ => None
  end.

(** The local [full_prompt] before the call of the model. *)
Definition full_prompt (user_message : text) (conversation_history : list json)
    (context : dict) (menu_items : option text) : option text :=
  let context_str := _build_context_string context menu_items in
  lines ← mapM history_line
             (drop (length conversation_history - 10) conversation_history);
  Some (system_prompt ++ nl ++ nl ++ py "**CONTEXT INFORMATION**:" ++ nl
        ++ context_str ++ nl ++ nl ++ py "**CONVERSATION HISTORY**:" ++ nl
        ++ concat lines
        ++ nl ++ py "Customer: " ++ user_message ++ nl ++ py "Assistant:").

(** [GeminiService.generate_response]: the text, the two token
    estimates and the prompt; any exception gives the fixed apology. *)
Definition generate_response (user_message : text)
    (conversation_history : list json) (context : dict)
    (menu_items : option text) : text * Z * Z * text :=
  match full_prompt user_message conversation_history context menu_items with
  | Some prompt =>
      let input_tokens := Z.of_nat (length prompt) / 4 in
      match generate_content prompt with
      | Some response_text =>
          let output_tokens := Z.of_nat (length response_text) / 4 in
          (response_text, input_tokens, output_tokens, prompt)
      | None => (SORRY, 0, 0, [])
      end
  | None => (SORRY, 0, 0, [])
  end.

End Generation.

(** ** The menu text ([OrderService.format_menu_for_ai]) *)

Record MenuItem := {
  menu_item_id : Z;
  category : text;
  item_name : text;
  price : spec_float;
  price_with_tax : spec_float;
  description : option text;
  options : option text;
  synonyms : option text;
  serving : spec_float
}.

(** [int(x)] on a float: the truncation, [None] for the [ValueError] of a
    NaN and the [OverflowError] of an infinity. *)
Definition int_of_float (f : spec_float) : option Z :=
  match f with
  | S754_zero _ => Some 0
  | S754_finite s m e =>
      let magnitude := if 0 <=? e then Zpos m * 2 ^ e else Zpos m / 2 ^ (- e) in
      Some (if s then - magnitude else magnitude)
  | S754_infinity _ | S754_nan => None
  end.

(** The first characters of an item line, as the source file has them. *)
Definition BULLET : text := [226%N; 8364%N; 162%N].

(** [categories[item.category].append(item)], with a new key put after
    the others: a [dict] keeps the order of insertion. *)
Fixpoint add_to_category (item : MenuItem)
    (categories : list (text * list MenuItem)) : list (text * list MenuItem) :=
  match categories with
  | [] => [(category item, [item])]
  | (c, items) :: rest =>
      if bool_decide (c = category item)
      then (c, items ++ [item]) :: rest
      else (c, items) :: add_to_category item rest
  end.

Definition optional_line (label : text) (value : option text) : text :=
  match value with
  | Some (c :: v) => nl ++ label ++ c :: v
  | _ => []
  end.

(** The text of one item. *)
Definition item_text (item : MenuItem) : option text :=
  rupees ← int_of_float (price_with_tax item);
  Some (BULLET ++ py " " ++ item_name item ++ py ": Rs. " ++ str_of_int rupees
        ++ optional_line (py "  Description: ") (description item)
        ++ optional_line (py "  Options: ") (options item)
        ++ optional_line (py "  Also known as: ") (synonyms item)
        ++ nl ++ nl).

Section Menu.
(** [str.upper] *)
Variable upper : text → text.

(** The second loop: one section for each category. *)
Definition category_text (entry : text * list MenuItem) : option text :=
  let '(name, items) := entry in
  lines ← mapM item_text items;
  Some (nl ++ py "**" ++ upper name ++ py "**" ++ nl
        ++ replicate 40 45%N ++ nl ++ concat lines).

Definition menu_text (categories : list (text * list MenuItem)) : option text :=
  sections ← mapM category_text categories;
  Some (concat sections).

(** [OrderService.format_menu_for_ai]: [None] when [int] raises. *)
Definition format_menu_for_ai (menu_items : list MenuItem) : option text :=
  match menu_items with
  | [] => Some (py "Menu not available")
  | _ :: _ =>
      let categories :=
        fold_left (λ categories item, add_to_category item categories)
          menu_items [] in
      menu_text categories
  end.

End Menu.

(** The grouping, stated directly: the categories in the order they first
    appear, each with its items in the order of the menu. *)
Fixpoint first_seen (l : list text) : list text :=
  match l with
  | [] => []
  | c :: l' => c :: filter (λ x, x ≠ c) (first_seen l')
  end.

Definition by_category (menu_items : list MenuItem) : list (text * list MenuItem) :=
  (λ c, (c, filter (λ item, category item = c) menu_items))
    <$> first_seen (category <$> menu_items).

(** ** Customers ([CustomerService], [app/services/customer_service.py]) *)

(** A row of the customers table: the profile and its two timestamps. *)
Record customer_row := {
  profile : Customer;
  customer_created_at : datetime;
  customer_updated_at : datetime
}.

Record customers := {
  customer_rows : list customer_row;
  next_customer_id : Z
}.

(** [Result.scalar_one()]: the row, [NoResultFound] or
    [MultipleResultsFound]. *)
Definition scalar_one {A} (rows : list A) : option A :=
  match rows with
  | [row] => Some row
  | _ => None
  end.

Section Customers.
(** [db.commit()] succeeds or raises; the method rolls back and raises
    again, which leaves the table as it was. *)
Variable commit_ok : Customer → bool.

(** [CustomerService.get_or_create_customer]: [now] and [now'] are the
    two readings of the clock for the defaults of a new row. *)
Definition get_or_create_customer (now now' : datetime) (phone_number : text)
    (db : customers) : option Customer * customers :=
  match scalar_one_or_none
          (filter (λ r, customer_phone (profile r) = phone_number)
             (customer_rows db)) with
  | Some (Some r) => (Some (profile r), db)
  | Some None =>
      let customer :=
        {| customer_id := next_customer_id db;
           customer_phone := phone_number;
           customer_name := None;
           customer_address := None;
           customer_latitude := None;
           customer_longitude := None |} in
      if commit_ok customer then
        (Some customer,
         {| customer_rows :=
              customer_rows db
              ++ [{| profile := customer;
                     customer_created_at := now;
                     customer_updated_at := now' |}];
            next_customer_id := next_customer_id db + 1 |})
      else (None, db)
  | None => (None, db)
  end.

(** [if value: customer.field = value] *)
Definition updated_str (value old : option text) : option text :=
  if truthy (of_opt_str value) then value else old.

Definition updated_float (value old : option spec_float) : option spec_float :=
  if truthy (of_opt_float value) then value else old.

(** [CustomerService.update_customer_info] *)
Definition update_customer_info (now : datetime) (customer_id' : Z)
    (name address : option text) (latitude longitude : option spec_float)
    (db : customers) : option Customer * customers :=
  match scalar_one
          (filter (λ r, customer_id (profile r) = customer_id') (customer_rows db)) with
  | Some r =>
      let customer :=
        {| customer_id := customer_id (profile r);
           customer_phone := customer_phone (profile r);
           customer_name := updated_str name (customer_name (profile r));
           customer_address := updated_str address (customer_address (profile r));
           customer_latitude :=
             updated_float latitude (customer_latitude (profile r));
           customer_longitude :=
             updated_float longitude (customer_longitude (profile r)) |} in
      if commit_ok customer then
        (Some customer,
         {| customer_rows :=
              (λ x, if bool_decide (customer_id (profile x) = customer_id')
                    then {| profile := customer;
                            customer_created_at := customer_created_at x;
                            customer_updated_at := now |}
                    else x) <$> customer_rows db;
            next_customer_id := next_customer_id db |})
      else (None, db)
  | None => (None, db)
  end.

End Customers.

(** The customers table as the database keeps it: one row for a phone
    number, one row for an identifier, identifiers below the next one. *)
Definition customers_ok (db : customers) : Prop :=
  NoDup ((λ r, customer_phone (profile r)) <$> customer_rows db) ∧
  NoDup ((λ r, customer_id (profile r)) <$> customer_rows db) ∧
  Forall (λ r, customer_id (profile r) < next_customer_id db) (customer_rows db).

(** The session update [process_message] makes for a location message. *)
Definition location_update (latitude longitude : json) : dict :=
  <[py "pending_location" := JBool false]>
    (<[py "location" :=
         JObj (<[py "latitude" := latitude]>
               (<[py "longitude" := longitude]> ∅))]> ∅).

(** ** Tactics *)

(** Unfolds the monad, to run a service by computation. *)
Ltac run :=
  unfold mbind, M_bind, mret, M_ret, bind, ret, raise, try_except,
    get_redis, put_redis, get_db, put_db, of_option in *; cbn in *.

(** Two different literal keys. *)
Ltac key_ne := let H := fresh in intros H; vm_compute in H; discriminate H.

(** A lookup of a literal key in a dictionary built by inserts of literal
    keys. *)
Ltac lookup_literal :=
  repeat (rewrite lookup_insert_ne by key_ne); by rewrite lookup_insert_eq.

(** The increments of a sample are accepted: by evaluation. *)
Ltac accepted :=
  repeat split; vm_compute; first [reflexivity | eexists; reflexivity].

(** A derivation of [removes] on a closed text, by evaluating [block_at]. *)
Ltac removes_by_evaluation :=
  repeat first
    [ apply Codec.removes_nil
    | eapply Codec.removes_block; [reflexivity|]
    | apply Codec.removes_keep; [reflexivity|] ].


(** * Properties *)

Import Codec.

(** ** Strings and the matcher *)

Lemma match_lit_Some l s rest : match_lit l s = Some rest ↔ s = l ++ rest.
Proof.
  revert s. induction l as [|a l IH]; intros s; simpl.
  - split; [by intros [= ->] | by intros ->].
  - destruct s as [|c s]; [by split|].
    destruct (N.eqb_spec a c) as [->|Hne].
    + rewrite IH. split; [by intros -> | by intros [= ->]].
    + split; [done | intros [= ? _]; done].
Qed.

Lemma match_lit_app l rest : match_lit l (l ++ rest) = Some rest.
Proof. by apply match_lit_Some. Qed.

Lemma match_lit_head_ne a l c s :
  (a =? c)%N = false → match_lit (a :: l) (c :: s) = None.
Proof. simpl. by intros ->. Qed.

Lemma any_char_true c : any_char c = true.
Proof. unfold any_char. by destruct (is_space c). Qed.

Lemma lstrip_split s : ∃ ws, s = ws ++ lstrip s ∧ Forall (λ c, is_space c = true) ws.
Proof.
  induction s as [|c s (ws & Hs & Hws)]; simpl.
  - by exists [].
  - destruct (is_space c) eqn:Hc.
    + exists (c :: ws). split; [simpl; by rewrite <- Hs | by constructor].
    + by exists [].
Qed.

Lemma lstrip_app_spaces ws s :
  Forall (λ c, is_space c = true) ws → lstrip (ws ++ s) = lstrip s.
Proof. induction 1 as [|c ws Hc _ IH]; simpl; [done | by rewrite Hc]. Qed.

Lemma lstrip_head c s : is_space c = false → lstrip (c :: s) = c :: s.
Proof. simpl. by intros ->. Qed.

Lemma strip_split s :
  ∃ ws1 ws2, s = ws1 ++ strip s ++ ws2 ∧
    Forall (λ c, is_space c = true) ws1 ∧ Forall (λ c, is_space c = true) ws2.
Proof.
  destruct (lstrip_split s) as (ws1 & Hs & H1).
  destruct (lstrip_split (reverse (lstrip s))) as (w & Hr & H2).
  exists ws1, (reverse w). split; [|split; [done | by apply Forall_reverse]].
  unfold strip, rstrip. rewrite <- reverse_app, <- Hr, reverse_involutive.
  exact Hs.
Qed.

Lemma strip_braced s : braced s → strip s = s.
Proof.
  intros [inner ->]. unfold strip, rstrip, lbrace, rbrace.
  change ([123%N] ++ inner ++ [125%N]) with (123%N :: inner ++ [125%N]).
  rewrite lstrip_head by done.
  rewrite reverse_cons, reverse_app. simpl app.
  change (reverse [125%N]) with [125%N]. simpl app.
  rewrite lstrip_head by done.
  rewrite reverse_cons, reverse_app, !reverse_involutive. by simplify_list_eq.
Qed.

(** The greedy [\s*] in front of a continuation that rejects a leading
    white space gives back nothing: it stops at the end of the run. *)
Lemma star_greedy_space {A} (k : text → option A) s :
  (∀ c s', is_space c = true → k (c :: s') = None) →
  star_greedy is_space s k = k (lstrip s).
Proof.
  intros Hk. induction s as [|c s IH]; simpl; [done|].
  destruct (is_space c) eqn:Hc; [|done].
  rewrite IH. destruct (k (lstrip s)) eqn:E; [done|]. by apply Hk.
Qed.

Lemma star_lazy_ext {A} p (k1 k2 : text → option A) s :
  (∀ x, k1 x = k2 x) → star_lazy p s k1 = star_lazy p s k2.
Proof.
  intros Hk. induction s as [|c s IH]; simpl; rewrite Hk; [done|].
  by rewrite IH.
Qed.

Lemma star_lazy_fmap {A B} (f : A → B) p (k : text → option A) s :
  f <$> star_lazy p s k = star_lazy p s (λ x, f <$> k x).
Proof.
  induction s as [|c s IH]; cbn [star_lazy].
  - by destruct (k []).
  - destruct (k (c :: s)); [done|]. cbn. destruct (p c); [apply IH | done].
Qed.

Lemma star_lazy_Some {A} p (k : text → option A) s a :
  star_lazy p s k = Some a → ∃ pre rest, s = pre ++ rest ∧ k rest = Some a.
Proof.
  induction s as [|c s IH]; simpl.
  - destruct (k []) eqn:E; [|done]. intros [= ->]. by exists [], [].
  - destruct (k (c :: s)) eqn:E.
    + intros [= ->]. by exists [], (c :: s).
    + destruct (p c); [|done]. intros (pre & rest & -> & Hk)%IH.
      by exists (c :: pre), rest.
Qed.

Lemma star_lazy_first {A} (k : text → option A) pre rest a :
  (∀ u v, pre = u ++ v → v ≠ [] → k (v ++ rest) = None) →
  k rest = Some a →
  star_lazy any_char (pre ++ rest) k = Some a.
Proof.
  intros Hpre Hk. induction pre as [|c pre IH]; simpl.
  - destruct rest; simpl; by rewrite Hk.
  - assert (E : k (c :: pre ++ rest) = None) by (by apply (Hpre [] (c :: pre))).
    rewrite E, any_char_true. apply IH.
    intros u v -> Hv. by apply (Hpre (c :: u) v).
Qed.

Lemma not_space_lbrace c : is_space c = true → (123 =? c)%N = false.
Proof. intros Hc. destruct (N.eqb_spec 123 c) as [<-|]; [discriminate | done]. Qed.

Lemma not_space_backtick c : is_space c = true → (96 =? c)%N = false.
Proof. intros Hc. destruct (N.eqb_spec 96 c) as [<-|]; [discriminate | done]. Qed.

(** ** Fenced blocks and the two patterns *)

Lemma rmatch_tag {A} s g (k : text → option text → option A) :
  rmatch tag_re s g k =
  match after_tag s with Some s' => k s' g | None => None end.
Proof.
  unfold tag_re, after_tag. cbn [rmatch].
  destruct (match_lit tag_action s) as [s'|] eqn:E; [|done].
  destruct (k s' g); [done|].
  apply match_lit_Some in E as ->. reflexivity.
Qed.

Lemma after_tag_Some s s' :
  after_tag s = Some s' ↔ s = tag_action ++ s' ∨ s = tag_json ++ s'.
Proof.
  unfold after_tag. destruct (match_lit tag_action s) as [t|] eqn:E.
  - apply match_lit_Some in E as ->. split.
    + intros [= ->]. by left.
    + intros [H|H]; [by simplify_list_eq | discriminate].
  - rewrite match_lit_Some. split; [by right|].
    intros [->|H]; [|done]. by rewrite match_lit_app in E.
Qed.

Lemma after_tag_app tag x :
  tag = tag_action ∨ tag = tag_json → after_tag (tag ++ x) = Some x.
Proof. intros H. apply after_tag_Some. destruct H as [-> | ->]; auto. Qed.

Lemma split_at_fence_Some s b a :
  split_at_fence s = Some (b, a) →
  s = b ++ fence ++ a ∧ ∀ u v, s = u ++ fence ++ v → (length b ≤ length u)%nat.
Proof.
  revert b a. induction s as [|c s IH]; intros b a.
  - cbn. done.
  - cbn [split_at_fence].
    destruct (match_lit fence (c :: s)) as [rest|] eqn:E.
    + intros [= <- <-]. apply match_lit_Some in E. split; [done|].
      intros; simpl; lia.
    + destruct (split_at_fence s) as [[b' a']|]; [|done].
      intros [= <- <-]. destruct (IH b' a' eq_refl) as [-> Hmin]. split; [done|].
      intros [|c' u] v Huv.
      * rewrite Huv in E. change ([] ++ fence ++ v) with (fence ++ v) in E.
        by rewrite match_lit_app in E.
      * injection Huv as -> Huv. simpl. apply Hmin in Huv. lia.
Qed.

Lemma split_at_fence_app u v : is_Some (split_at_fence (u ++ fence ++ v)).
Proof.
  induction u as [|c u [[b a] IH]].
  - by exists ([], v).
  - change ((c :: u) ++ fence ++ v) with (c :: (u ++ fence ++ v)).
    remember (u ++ fence ++ v) as w. cbn [split_at_fence]. rewrite IH.
    destruct (match_lit fence (c :: w)); eauto.
Qed.

Lemma star_lazy_fence {A} (K : text → A) s :
  star_lazy any_char s
    (λ s', match match_lit fence s' with Some s'' => Some (K s'') | None => None end)
  = match split_at_fence s with Some (_, a) => Some (K a) | None => None end.
Proof.
  induction s as [|c s IH].
  - reflexivity.
  - cbn [star_lazy split_at_fence].
    destruct (match_lit fence (c :: s)); [done|].
    rewrite any_char_true, IH. by destruct (split_at_fence s) as [[??]|].
Qed.

Lemma match_at_block s :
  match_at block_re s =
  match block_at s with
  | Some (_, rest) => Some ((length s - length rest)%nat, None)
  | None => None
  end.
Proof.
  unfold match_at, block_re, block_at. cbn [rmatch].
  destruct (match_lit fence s) as [s1|]; [|done].
  rewrite rmatch_tag. destruct (after_tag s1) as [s2|]; [|done].
  cbn [rmatch].
  apply (star_lazy_fence (λ s', ((length s - length s')%nat, @None text))).
Qed.

Lemma block_at_Some s body rest :
  block_at s = Some (body, rest) →
  ∃ tag, (tag = tag_action ∨ tag = tag_json) ∧
    s = fence ++ tag ++ body ++ fence ++ rest ∧
    ∀ u v, body ++ fence ++ rest = u ++ fence ++ v → (length body ≤ length u)%nat.
Proof.
  unfold block_at.
  destruct (match_lit fence s) as [s1|] eqn:E1; [|done].
  destruct (after_tag s1) as [s2|] eqn:E2; [|done].
  intros [-> Hmin]%split_at_fence_Some.
  apply match_lit_Some in E1 as ->.
  apply after_tag_Some in E2 as [->| ->]; eauto 6.
Qed.

Lemma block_at_length s body rest :
  block_at s = Some (body, rest) → (length rest + 6 < length s)%nat.
Proof.
  intros (tag & Htag & -> & _)%block_at_Some.
  rewrite !length_app. destruct Htag as [-> | ->]; simpl; lia.
Qed.

Lemma block_at_suffix s body rest :
  block_at s = Some (body, rest) →
  drop (length s - length rest) s = rest.
Proof.
  intros (tag & _ & -> & _)%block_at_Some.
  rewrite !app_assoc. rewrite (length_app _ rest).
  replace (_ + _ - _)%nat with (length (((fence ++ tag) ++ body) ++ fence)) by lia.
  by rewrite drop_app_length.
Qed.

Lemma match_at_action s :
  snd <$> match_at action_re s = Some <$> action_at s.
Proof.
  unfold match_at, action_re, action_at. cbn [rmatch].
  destruct (match_lit fence s) as [s1|]; [|done].
  rewrite rmatch_tag. destruct (after_tag s1) as [s2|]; [|done].
  cbn [rmatch]. rewrite star_greedy_space.
  2:{ intros c s' Hc. unfold lbrace.
      rewrite match_lit_head_ne; [done | by apply not_space_lbrace]. }
  destruct (match_lit lbrace (lstrip s2)) as [s4|]; [|done].
  rewrite !star_lazy_fmap. apply star_lazy_ext. intros s5.
  unfold closes. destruct (match_lit rbrace s5) as [s6|]; [|done].
  rewrite star_greedy_space.
  2:{ intros c s' Hc. unfold fence.
      rewrite match_lit_head_ne; [done | by apply not_space_backtick]. }
  by destruct (match_lit fence (lstrip s6)).
Qed.

(** A block whose trimmed body is brace-delimited is matched by
    [action_re] at the same place, with the trimmed body as its group. *)
Lemma action_at_block s body rest :
  block_at s = Some (body, rest) → braced (strip body) →
  action_at s = Some (strip body).
Proof.
  intros (tag & Htag & -> & Hmin)%block_at_Some Hbr.
  destruct (strip_split body) as (ws1 & ws2 & Hbody & Hws1 & Hws2).
  destruct Hbr as [inner Hinner]. rewrite Hinner in *. clear Hinner.
  unfold action_at. rewrite match_lit_app, (after_tag_app _ _ Htag).
  assert (Hl : lstrip (body ++ fence ++ rest)
               = lbrace ++ inner ++ rbrace ++ ws2 ++ fence ++ rest).
  { rewrite Hbody at 1. rewrite <- !app_assoc.
    by rewrite lstrip_app_spaces. }
  rewrite Hl, match_lit_app.
  apply star_lazy_first.
  - intros u v -> Hv. unfold closes.
    remember (rbrace ++ ws2 ++ fence ++ rest) as T eqn:HT.
    destruct (match_lit rbrace (v ++ T)) as [s6|] eqn:E6; [|done].
    destruct (match_lit fence (lstrip s6)) as [s8|] eqn:E8; [|done].
    exfalso. apply match_lit_Some in E6, E8.
    destruct v as [|x v']; [done|]. injection E6 as -> E6.
    destruct (lstrip_split s6) as (w & Hs6 & Hw). rewrite E8 in Hs6.
    assert (Hlen : (length v' < length w)%nat).
    { assert (Hsplit : body ++ fence ++ rest
        = (ws1 ++ lbrace ++ u ++ [125%N] ++ w) ++ fence ++ s8).
      { rewrite Hbody, <- !app_assoc. do 3 f_equal.
        rewrite <- HT.
        change ((125%N :: v') ++ T) with ([125%N] ++ v' ++ T).
        by rewrite E6, Hs6. }
      apply Hmin in Hsplit. rewrite Hbody in Hsplit.
      rewrite !length_app in Hsplit. simpl in Hsplit. lia. }
    assert (Hx : s6 !! length v' = Some 125%N).
    { rewrite <- E6, HT.
      by apply (list_lookup_middle v' (ws2 ++ fence ++ rest) 125%N). }
    rewrite Hs6, lookup_app_l in Hx by done.
    by apply (Forall_lookup_1 _ _ _ _ Hw) in Hx.
  - unfold closes. rewrite match_lit_app.
    rewrite lstrip_app_spaces by done.
    change (lstrip (fence ++ rest)) with (fence ++ rest).
    rewrite match_lit_app. f_equal.
    rewrite (app_assoc lbrace), (app_assoc _ rbrace).
    rewrite length_app.
    replace (_ + _ - _)%nat with (length ((lbrace ++ inner) ++ rbrace)) by lia.
    by rewrite take_app_length.
Qed.

(** Where no block starts, [action_re] does not match. *)
Lemma action_at_no_block s : block_at s = None → action_at s = None.
Proof.
  unfold block_at, action_at.
  destruct (match_lit fence s) as [s1|]; [|done].
  destruct (after_tag s1) as [s2|]; [|done].
  intros Hnone.
  destruct (match_lit lbrace (lstrip s2)) as [s4|] eqn:E4; [|done].
  destruct (star_lazy _ _ _) as [g|] eqn:E; [|done]. exfalso.
  apply star_lazy_Some in E as (pre & x & -> & Hk).
  unfold closes in Hk.
  destruct (match_lit rbrace x) as [s6|] eqn:E6; [|done].
  destruct (match_lit fence (lstrip s6)) as [s8|] eqn:E8; [|done].
  apply match_lit_Some in E4, E6, E8. subst x.
  destruct (lstrip_split s2) as (w2 & Hs2 & _).
  destruct (lstrip_split s6) as (w6 & Hs6 & _).
  rewrite E8 in Hs6. rewrite E4, Hs6 in Hs2.
  destruct (split_at_fence_app (w2 ++ lbrace ++ pre ++ rbrace ++ w6) s8) as [r Hr].
  rewrite <- !app_assoc in Hr. rewrite <- Hs2 in Hr. congruence.
Qed.

Section ExtractFacts.
Variable loads : text → option json.

Lemma extract_action_first_block r body :
  first_block r = Some body → braced (strip body) →
  extract_action loads r = loads (strip body).
Proof.
  intros Hfirst Hbr. unfold extract_action.
  induction r as [|c r IH].
  - discriminate.
  - cbn [first_block re_search] in *.
    pose proof (match_at_action (c :: r)) as Hm.
    destruct (block_at (c :: r)) as [[b rest]|] eqn:Hb.
    + injection Hfirst as ->.
      rewrite (action_at_block _ _ _ Hb Hbr) in Hm.
      destruct (match_at action_re (c :: r)) as [[n g]|]; [|done].
      injection Hm as ->. by rewrite (strip_braced _ Hbr).
    + rewrite (action_at_no_block _ Hb) in Hm.
      destruct (match_at action_re (c :: r)); [done|]. by apply IH.
Qed.

Lemma extract_action_no_block r :
  first_block r = None → extract_action loads r = None.
Proof.
  unfold extract_action. induction r as [|c r IH]; [done|].
  cbn [first_block re_search].
  pose proof (match_at_action (c :: r)) as Hm.
  destruct (block_at (c :: r)) as [[b rest]|] eqn:Hb; [done|].
  rewrite (action_at_no_block _ Hb) in Hm.
  destruct (match_at action_re (c :: r)); [done|]. exact IH.
Qed.
End ExtractFacts.

(** ** The substitution of [get_clean_response] *)

Lemma re_sub_from_skip r repl n s :
  (n ≤ length s)%nat → re_sub_from r repl n s = re_sub_from r repl 0 (drop n s).
Proof.
  revert s. induction n as [|n IH]; intros s Hn; [done|].
  destruct s as [|c s]; simpl in Hn; [lia|].
  cbn [re_sub_from drop]. apply IH. lia.
Qed.

Lemma re_sub_block s :
  re_sub block_re [] s =
  match block_at s with
  | Some (_, rest) => re_sub block_re [] rest
  | None => match s with [] => [] | c :: s' => c :: re_sub block_re [] s' end
  end.
Proof.
  unfold re_sub. destruct s as [|c s].
  - reflexivity.
  - cbn [re_sub_from]. rewrite match_at_block.
    destruct (block_at (c :: s)) as [[body rest]|] eqn:Hb; [|done].
    pose proof (block_at_length _ _ _ Hb) as Hlen.
    pose proof (block_at_suffix _ _ _ Hb) as Hdrop.
    destruct (length (c :: s) - length rest)%nat as [|n] eqn:En; [lia|].
    cbn [app]. rewrite re_sub_from_skip by (simpl in *; lia).
    by rewrite <- Hdrop.
Qed.

Lemma removes_re_sub s out : removes s out → re_sub block_re [] s = out.
Proof.
  induction 1 as [|c s out Hb _ IH|s body rest out Hb _ IH];
    rewrite re_sub_block; [done| |].
  - by rewrite Hb, IH.
  - by rewrite Hb.
Qed.

Lemma re_sub_removes s : removes s (re_sub block_re [] s).
Proof.
  remember (length s) as n eqn:Hn. revert s Hn.
  induction n as [n IH] using lt_wf_ind. intros s ->.
  rewrite re_sub_block. destruct (block_at s) as [[body rest]|] eqn:Hb.
  - eapply removes_block; [done|].
    apply (IH (length rest)); [|done].
    apply block_at_length in Hb. lia.
  - destruct s as [|c s]; [constructor|].
    apply removes_keep; [done|]. apply (IH (length s)); [simpl; lia | done].
Qed.

Lemma removes_no_block s : first_block s = None → removes s s.
Proof.
  induction s as [|c s IH]; [constructor|].
  cbn [first_block]. destruct (block_at (c :: s)) as [[??]|] eqn:Hb; [done|].
  intros H. apply removes_keep; auto.
Qed.

Lemma get_clean_response_long r :
  (5 ≤ length (clean_text r))%nat → get_clean_response r = clean_text r.
Proof.
  intros H. unfold get_clean_response.
  rewrite !bool_decide_eq_false_2; [done | lia |].
  intros E. rewrite E in H. simpl in H. lia.
Qed.

Lemma get_clean_response_short r :
  (length (clean_text r) < 5)%nat → get_clean_response r = FALLBACK.
Proof.
  intros H. unfold get_clean_response.
  rewrite (bool_decide_eq_true_2 (_ < _)%nat) by done.
  by rewrite orb_true_r.
Qed.

Lemma get_clean_response_length r : (5 ≤ length (get_clean_response r))%nat.
Proof.
  destruct (decide (length (clean_text r) < 5)%nat) as [H|H].
  - rewrite get_clean_response_short by done. simpl. lia.
  - rewrite get_clean_response_long by lia. lia.
Qed.

(** ** The codec claims *)

(** C1, as the code has it.  When the trimmed body of the first fenced
    block tagged [action] or [json] is brace-delimited, [extract_action]
    returns what the decoder makes of that trimmed body: the decoded object,
    or nothing when the decoder fails.  When the response holds no such
    fenced block it returns nothing.  The decoder is arbitrary: whatever it
    raises becomes the absent result. *)
Theorem extract_action_first_braced_block loads r :
  (∀ body, first_block r = Some body → braced (strip body) →
     extract_action loads r = loads (strip body)) ∧
  (first_block r = None → extract_action loads r = None).
Proof.
  split.
  - intros body. apply extract_action_first_block.
  - apply extract_action_no_block.
Qed.

Lemma extract_action_first_braced_block_witness :
  extract_action json_loads complaint_response = Some complaint_action.
Proof.
  pose proof (proj1 (extract_action_first_braced_block json_loads complaint_response)
                (pyq " {'type':'create_complaint','data':{'description':'cold food'}} "))
    as H.
  rewrite H.
  - vm_compute. reflexivity.
  - vm_compute. reflexivity.
  - exists (pyq "'type':'create_complaint','data':{'description':'cold food'}").
    vm_compute. reflexivity.
Defined.

(** C1 as stated fails: the first fenced block of [chatty_response] holds
    [hello], which does not decode, yet the action of the second block is
    returned. *)
Lemma extract_action_skips_unbraced_block :
  first_block chatty_response = Some (py " hello ") ∧
  json_loads (strip (py " hello ")) = None ∧
  extract_action json_loads chatty_response = Some complaint_action.
Proof. vm_compute. repeat split. Qed.

(** C2, as the code has it.  Every response splits into kept characters and
    fenced blocks; when the text left after dropping the blocks and trimming
    has at least five characters, [get_clean_response] returns it, whatever
    the blocks held; so a response without fenced block whose trimmed text
    has at least five characters is returned trimmed. *)
Theorem get_clean_response_strips_blocks r :
  (∃ out, removes r out) ∧
  (∀ out, removes r out → (5 ≤ length (strip out))%nat →
     get_clean_response r = strip out) ∧
  (first_block r = None → (5 ≤ length (strip r))%nat →
     get_clean_response r = strip r).
Proof.
  assert (Hout : ∀ out, removes r out → (5 ≤ length (strip out))%nat →
                  get_clean_response r = strip out).
  { intros out Hrm Hlen. rewrite get_clean_response_long; unfold clean_text;
      by rewrite (removes_re_sub _ _ Hrm). }
  split; [eexists; apply re_sub_removes|]. split; [exact Hout|].
  intros Hnone. apply Hout. by apply removes_no_block.
Qed.

Lemma get_clean_response_strips_blocks_witness :
  get_clean_response malformed_response = py "Sure.  Your order is noted.".
Proof.
  pose proof (proj1 (proj2 (get_clean_response_strips_blocks malformed_response))
                (py "Sure.  Your order is noted. ")) as H.
  rewrite H.
  - vm_compute. reflexivity.
  - unfold malformed_response. vm_compute (pyq _). vm_compute (py _).
    removes_by_evaluation.
  - vm_compute. lia.
Defined.

(** C2 as stated fails on a short reply: [ok] holds no fenced block and is
    not returned. *)
Lemma get_clean_response_short_text :
  first_block (py "ok") = None ∧
  strip (py "ok") = py "ok" ∧
  get_clean_response (py "ok") = FALLBACK ∧
  get_clean_response (py "ok") ≠ strip (py "ok").
Proof. vm_compute. repeat split. discriminate. Qed.

(** C3.  When the text left after dropping the fenced blocks and trimming
    has fewer than five characters, [get_clean_response] returns the fixed
    acknowledgment; what it returns is never empty. *)
Theorem get_clean_response_fallback r :
  (∀ out, removes r out → (length (strip out) < 5)%nat →
     get_clean_response r = FALLBACK) ∧
  ((length (clean_text r) < 5)%nat → get_clean_response r = FALLBACK) ∧
  get_clean_response r ≠ [] ∧
  (5 ≤ length (get_clean_response r))%nat.
Proof.
  split; [|split; [apply get_clean_response_short|]].
  - intros out Hrm Hlen. apply get_clean_response_short. unfold clean_text.
    by rewrite (removes_re_sub _ _ Hrm).
  - pose proof (get_clean_response_length r) as H. split; [|exact H].
    intros E. rewrite E in H. simpl in H. lia.
Qed.

Lemma get_clean_response_fallback_witness :
  get_clean_response (pyq "```action {'type':'save_feedback'} ``` ok") = FALLBACK.
Proof.
  apply (proj1 (get_clean_response_fallback _) (py " ok")).
  - vm_compute (pyq _). vm_compute (py _). removes_by_evaluation.
  - vm_compute. lia.
Defined.

(** The extraction sample of the specification: the command is decoded and
    the reply is the text around the block. *)
Example complaint_is_extracted :
  extract_action json_loads complaint_response = Some complaint_action ∧
  get_clean_response complaint_response
    = py "Noted, sorry about that.  We will fix it.".
Proof. vm_compute. split; reflexivity. Qed.

(** ** Running the services *)

Lemma bind_run {A B} (m : M A) (f : A → M B) w a w1 :
  m w = (Some a, w1) → (m ≫= f) w = f a w1.
Proof. unfold mbind, M_bind, bind. by intros ->. Qed.

Lemma try_except_run {A} (m h : M A) w a w1 :
  m w = (Some a, w1) → try_except m h w = (Some a, w1).
Proof. unfold try_except. by intros ->. Qed.

Lemma bind_mret {A B} (a : A) (f : A → M B) : (mret a ≫= f) = f a.
Proof. reflexivity. Qed.

Lemma union_lookup_pref (u p : dict) k :
  (u ∪ p) !! k = match u !! k with Some v => Some v | None => p !! k end.
Proof.
  destruct (u !! k) as [v|] eqn:E.
  - by apply lookup_union_Some_l.
  - by rewrite lookup_union_r.
Qed.

Lemma last20_length l : (length (last20 l) ≤ 20)%nat.
Proof. unfold last20. rewrite length_drop. lia. Qed.

Lemma last20_app x y : last20 (last20 x ++ y) = last20 (x ++ y).
Proof.
  unfold last20. rewrite !length_app, length_drop.
  destruct (decide (length x ≤ 20)%nat) as [H|H].
  - replace (length x - 20)%nat with 0%nat by lia. rewrite drop_0.
    f_equal. lia.
  - replace (length x - (length x - 20) + length y - 20)%nat with (length y) by lia.
    replace (length x + length y - 20)%nat
      with ((length x - 20) + length y)%nat by lia.
    rewrite <- drop_drop. f_equal. rewrite drop_app_le by lia. done.
Qed.

Lemma last20_app_ge (x y : list json) :
  (20 ≤ length y)%nat → last20 (x ++ y) = drop (length y - 20) y.
Proof.
  intros H. unfold last20. rewrite length_app.
  replace (length x + length y - 20)%nat with (length x + (length y - 20))%nat by lia.
  by rewrite drop_app_add.
Qed.

Section SessionFacts.
Variable settings : Settings.
Hypothesis timeout_pos : 0 < SESSION_TIMEOUT_MINUTES settings.

Lemma session_timeout_pos : 0 < session_timeout settings.
Proof. unfold session_timeout. lia. Qed.

Lemma get_session_run now phone w :
  get_session settings now phone w =
  (Some (session_at (w_redis w) now phone),
   {| w_redis := refreshed settings (w_redis w) now phone; w_db := w_db w |}).
Proof.
  unfold get_session, refreshed, session_at, redis_get.
  destruct w as [R db]. run.
  destruct (live R now (_get_session_key phone)) as [[[d|h] ex]|]; reflexivity.
Qed.

Lemma set_session_run now phone d w :
  set_session settings now phone d w =
  (Some tt,
   {| w_redis := <[_get_session_key phone := session_entry settings now d]> (w_redis w);
      w_db := w_db w |}).
Proof.
  unfold set_session, redis_setex. destruct w as [R db]. run.
  pose proof session_timeout_pos as H. apply Z.ltb_lt in H. by rewrite H.
Qed.

Lemma update_session_run now phone updates w :
  update_session settings now phone updates w =
  (Some tt,
   {| w_redis :=
        <[_get_session_key phone :=
            session_entry settings now
              (updates ∪ default ∅ (session_at (w_redis w) now phone))]>
          (refreshed settings (w_redis w) now phone);
      w_db := w_db w |}).
Proof.
  unfold update_session. unfold mbind, M_bind, bind.
  rewrite get_session_run. by rewrite set_session_run.
Qed.

Lemma session_at_insert R now now' phone d :
  now' < now + timedelta_seconds (session_timeout settings) →
  session_at (<[_get_session_key phone := session_entry settings now d]> R) now' phone
  = Some (<[py "last_activity" := JStr (isoformat now)]> d).
Proof.
  intros H. unfold session_at, live. rewrite lookup_insert_eq. cbn.
  destruct (Z.leb_spec (now + timedelta_seconds (session_timeout settings)) now'); [lia|done].
Qed.
End SessionFacts.

Section TranscriptFacts.
Variable settings : Settings.
Hypothesis timeout_pos : 0 < SESSION_TIMEOUT_MINUTES settings.

Lemma add_to_conversation_run now phone role message w conv :
  transcript (default ∅ (session_at (w_redis w) now phone)) = Some conv →
  add_to_conversation settings now phone role message w =
  (Some tt,
   {| w_redis :=
        <[_get_session_key phone :=
            session_entry settings now
              (<[py "conversation" :=
                   JArr (last20 (conv ++ [conversation_entry now role message]))]>
                 (default ∅ (session_at (w_redis w) now phone)))]>
          (refreshed settings (w_redis w) now phone);
      w_db := w_db w |}).
Proof.
  intros Hconv. unfold add_to_conversation. unfold mbind at 1, M_bind, bind.
  rewrite get_session_run.
  set (prior := default ∅ (session_at (w_redis w) now phone)) in *.
  unfold transcript in Hconv. unfold mbind, M_bind, bind.
  assert (Hcap : ∀ l : list json,
    (if bool_decide (20 < length l)%nat then drop (length l - 20) l else l)
    = last20 l).
  { intros l. unfold last20. case_bool_decide; [done|].
    replace (length l - 20)%nat with 0%nat by lia. by rewrite drop_0. }
  destruct (prior !! py "conversation") as [[]|]; try discriminate;
    injection Hconv as <-; unfold mret, M_ret, ret; cbv beta zeta;
    rewrite Hcap; by rewrite (set_session_run settings timeout_pos).
Qed.

Lemma transcript_insert_conversation (l : list json) (d : dict) now :
  transcript (<[py "last_activity" := JStr (isoformat now)]>
                (<[py "conversation" := JArr l]> d)) = Some l.
Proof.
  unfold transcript. rewrite lookup_insert_ne by key_ne.
  by rewrite lookup_insert_eq.
Qed.

Lemma add_all_run phone e es w conv :
  transcript (default ∅ (session_at (w_redis w) (e.1.1) phone)) = Some conv →
  in_time settings (e.1.1) es →
  ∃ w' stored t,
    add_all settings phone (e :: es) w = (Some tt, w') ∧
    w_redis w' !! _get_session_key phone = Some (session_entry settings t stored) ∧
    transcript (<[py "last_activity" := JStr (isoformat t)]> stored)
      = Some (last20 (conv ++ (entry_of <$> e :: es))).
Proof.
  revert e w conv. induction es as [|e' es IH]; intros [[t role] msg] w conv Hc Ht;
    cbn [fst snd] in *; cbn [add_all];
    rewrite (bind_run _ _ _ _ _ (add_to_conversation_run _ _ _ _ _ _ Hc));
    cbv beta.
  - unfold mret, M_ret, ret.
    eexists _, _, t. split; [reflexivity|]. cbn [w_redis].
    split; [by rewrite lookup_insert_eq|].
    apply transcript_insert_conversation.
  - destruct e' as [[t' role'] msg']. destruct Ht as [Hlt Ht].
    match goal with
    | |- context [{| w_redis := ?r; w_db := ?d |}] =>
        set (w1' := {| w_redis := r; w_db := d |})
    end.
    assert (Hc1 : transcript (default ∅ (session_at (w_redis w1') t' phone))
                  = Some (last20 (conv ++ [conversation_entry t role msg]))).
    { subst w1'. cbn [w_redis].
      rewrite (session_at_insert settings) by exact Hlt.
      cbn [default]. apply transcript_insert_conversation. }
    destruct (IH (t', role', msg') w1' _ Hc1 Ht)
      as (w' & stored & tl & Hrun & Hst & Htr).
    exists w', stored, tl. split; [exact Hrun|]. split; [exact Hst|].
    rewrite Htr, last20_app, <- app_assoc. reflexivity.
Qed.
End TranscriptFacts.

(** ** The session store claims *)

(** C4, as the code has it.  A run of appends to a session whose
    transcript is a list, each made before the session written by the one
    before expires, leaves the last twenty entries of the old transcript
    followed by the appended entries, oldest first: at most twenty entries
    after every append, and exactly the twenty most recent appended
    entries once twenty or more were appended. *)
Theorem transcript_capped_at_20 settings phone t role message es w conv :
  0 < SESSION_TIMEOUT_MINUTES settings →
  transcript (default ∅ (session_at (w_redis w) t phone)) = Some conv →
  in_time settings t es →
  let appended := entry_of <$> (t, role, message) :: es in
  ∃ w' stored l,
    add_all settings phone ((t, role, message) :: es) w = (Some tt, w') ∧
    stored_session (w_redis w') phone = Some stored ∧
    transcript stored = Some l ∧
    l = last20 (conv ++ appended) ∧
    (length l ≤ 20)%nat ∧
    ((20 ≤ length appended)%nat → l = drop (length appended - 20) appended).
Proof.
  intros Hpos Hconv Htime appended.
  destruct (add_all_run settings Hpos phone (t, role, message) es w conv Hconv Htime)
    as (w' & stored & tl & Hrun & Hst & Htr).
  exists w', (<[py "last_activity" := JStr (isoformat tl)]> stored),
    (last20 (conv ++ appended)).
  split; [exact Hrun|]. split; [unfold stored_session; by rewrite Hst|].
  split; [exact Htr|]. split; [done|]. split; [apply last20_length|].
  apply last20_app_ge.
Qed.

Lemma transcript_capped_at_20_witness :
  let phone := py "923001234567" in
  let first := (sample_now, py "user", py "00") in
  let es := tail sample_messages in
  let appended := entry_of <$> first :: es in
  ∃ w' stored l,
    add_all default_settings phone (first :: es) sample_world = (Some tt, w') ∧
    stored_session (w_redis w') phone = Some stored ∧
    transcript stored = Some l ∧
    length appended = 21%nat ∧
    length l = 20%nat ∧
    l = drop 1 appended.
Proof.
  intros phone first es appended.
  destruct (transcript_capped_at_20 default_settings phone sample_now
              (py "user") (py "00") es sample_world [])
    as (w' & stored & l & Hrun & Hst & Htr & Hl & _ & Hcap).
  - reflexivity.
  - reflexivity.
  - vm_compute. repeat split.
  - exists w', stored, l. split; [exact Hrun|]. split; [exact Hst|].
    split; [exact Htr|]. split; [reflexivity|].
    assert (E : l = drop 1 appended).
    { apply Hcap. vm_compute. lia. }
    split; [|exact E]. rewrite E. reflexivity.
Defined.

(** C4 as stated fails.  Of twenty-one appends, with a pause longer than
    the session timeout after the tenth, every one succeeds and eleven
    entries are left, the eleventh message first: the session had expired
    and the transcript started again, so the older ones were not dropped
    by the cap. *)
Lemma transcript_restarts_after_expiry :
  let phone := py "923001234567" in
  let run := add_all default_settings phone paused_messages sample_world in
  let l := stored_session (w_redis run.2) phone ≫= transcript in
  length paused_messages = 21%nat ∧
  run.1 = Some tt ∧
  length <$> l = Some 11%nat ∧
  l ≫= head
    = Some (conversation_entry (sample_now + 10 * 1000000 + timedelta_minutes 61)
              (py "user") (py "10")) ∧
  length (drop 1 (entry_of <$> paused_messages)) = 20%nat.
Proof. vm_compute. repeat split. Qed.

(** Twenty-one appends leave twenty entries, the second message first. *)
Example twenty_one_appends :
  let w' := (add_all default_settings (py "923001234567") sample_messages
               sample_world).2 in
  let l := stored_session (w_redis w') (py "923001234567") ≫= transcript in
  length <$> l = Some 20%nat ∧
  l ≫= head
    = Some (conversation_entry (sample_now + 1000000) (py "user") (py "01")).
Proof. vm_compute. split; reflexivity. Qed.

(** C7.  [update_session] reads the current session, or starts from the
    empty one, and stores it with the keys of the update written over it:
    every key but [last_activity] holds the value of the update when the
    update has the key, the prior value otherwise.  Updating with [a:1] and
    then with [b:2] gives a session where [a] is 1 and [b] is 2; updating
    with [a:1] and then with [a:3] gives one where [a] is 3. *)
Theorem update_session_shallow_merge settings now phone updates w :
  0 < SESSION_TIMEOUT_MINUTES settings →
  let prior := default ∅ (session_at (w_redis w) now phone) in
  (∃ w' stored,
     update_session settings now phone updates w = (Some tt, w') ∧
     w_db w' = w_db w ∧
     session_at (w_redis w') now phone = Some stored ∧
     ∀ k, k ≠ py "last_activity" →
       stored !! k = match updates !! k with Some v => Some v | None => prior !! k end)
  ∧ (∀ later second w1 w2,
       later < now + timedelta_seconds (session_timeout settings) →
       update_session settings now phone updates w = (Some tt, w1) →
       update_session settings later phone second w1 = (Some tt, w2) →
       ∃ stored, session_at (w_redis w2) later phone = Some stored ∧
         (updates = {[py "a" := JInt 1]} → second = {[py "b" := JInt 2]} →
          stored !! py "a" = Some (JInt 1) ∧ stored !! py "b" = Some (JInt 2)) ∧
         (updates = {[py "a" := JInt 1]} → second = {[py "a" := JInt 3]} →
          stored !! py "a" = Some (JInt 3))).
Proof.
  intros Hpos prior. split.
  - eexists _, _. rewrite (update_session_run settings Hpos). split; [reflexivity|].
    cbn [w_redis w_db]. split; [done|].
    pose proof (session_timeout_pos settings Hpos).
    rewrite (session_at_insert settings) by (unfold timedelta_seconds; lia).
    split; [reflexivity|]. intros k Hk.
    rewrite lookup_insert_ne by done. apply union_lookup_pref.
  - intros later second w1 w2 Hlater H1 H2.
    rewrite (update_session_run settings Hpos) in H1, H2.
    injection H1 as <-. injection H2 as <-. cbn [w_redis].
    pose proof (session_timeout_pos settings Hpos).
    rewrite (session_at_insert settings _ later later)
      by (unfold timedelta_seconds; lia).
    eexists. split; [reflexivity|].
    rewrite (session_at_insert settings _ now later) by exact Hlater.
    change (default ∅ (Some ?d)) with d.
    split; intros -> ->.
    + split.
      * rewrite lookup_insert_ne by key_ne. rewrite union_lookup_pref.
        rewrite lookup_singleton_ne by key_ne.
        rewrite lookup_insert_ne by key_ne. rewrite union_lookup_pref.
        by rewrite lookup_singleton_eq.
      * rewrite lookup_insert_ne by key_ne. rewrite union_lookup_pref.
        by rewrite lookup_singleton_eq.
    + rewrite lookup_insert_ne by key_ne. rewrite union_lookup_pref.
      by rewrite lookup_singleton_eq.
Qed.

Lemma update_session_shallow_merge_witness :
  let settings := default_settings in
  let now := 1793750400000000 in
  let phone := py "923001234567" in
  let updates : dict := {[py "a" := JInt 1]} in
  let w := {| w_redis := ∅; w_db := {| orders := []; next_order_id := 1 |} |} in
  let prior := default ∅ (session_at (w_redis w) now phone) in
  (∃ w' stored,
     update_session settings now phone updates w = (Some tt, w') ∧
     w_db w' = w_db w ∧
     session_at (w_redis w') now phone = Some stored ∧
     ∀ k, k ≠ py "last_activity" →
       stored !! k = match updates !! k with Some v => Some v | None => prior !! k end)
  ∧ (∀ later second w1 w2,
       later < now + timedelta_seconds (session_timeout settings) →
       update_session settings now phone updates w = (Some tt, w1) →
       update_session settings later phone second w1 = (Some tt, w2) →
       ∃ stored, session_at (w_redis w2) later phone = Some stored ∧
         (updates = {[py "a" := JInt 1]} → second = {[py "b" := JInt 2]} →
          stored !! py "a" = Some (JInt 1) ∧ stored !! py "b" = Some (JInt 2)) ∧
         (updates = {[py "a" := JInt 1]} → second = {[py "a" := JInt 3]} →
          stored !! py "a" = Some (JInt 3))).
Proof.
  intros settings now phone updates w.
  apply (update_session_shallow_merge settings now phone updates w).
  reflexivity.
Defined.

(** The merge samples of the specification, run from the empty store. *)
Example update_then_update :
  let phone := py "923001234567" in
  let w1 := (update_session default_settings sample_now phone
               {[py "a" := JInt 1]} sample_world).2 in
  let w2 := (update_session default_settings (sample_now + 1000000) phone
               {[py "b" := JInt 2]} w1).2 in
  let w3 := (update_session default_settings (sample_now + 2000000) phone
               {[py "a" := JInt 3]} w2).2 in
  (stored_session (w_redis w2) phone ≫= (.!! py "a")) = Some (JInt 1) ∧
  (stored_session (w_redis w2) phone ≫= (.!! py "b")) = Some (JInt 2) ∧
  (stored_session (w_redis w3) phone ≫= (.!! py "a")) = Some (JInt 3) ∧
  (stored_session (w_redis w3) phone ≫= (.!! py "b")) = Some (JInt 2).
Proof. vm_compute. repeat split. Qed.

(** C10.  Every session write stamps [last_activity] with the time of the
    write, over any value the caller gave for that key: [set_session]
    stores its argument with the stamp, [update_session] stores the merge
    of the update over the prior session with the stamp, and the session
    [add_to_conversation] stores carries the stamp. *)
Theorem session_writes_stamp_last_activity settings now phone w :
  0 < SESSION_TIMEOUT_MINUTES settings →
  let stamp := JStr (isoformat now) in
  let prior := default ∅ (session_at (w_redis w) now phone) in
  (∀ session_data, ∃ w',
     set_session settings now phone session_data w = (Some tt, w') ∧
     stored_session (w_redis w') phone
       = Some (<[py "last_activity" := stamp]> session_data)) ∧
  (∀ updates, ∃ w',
     update_session settings now phone updates w = (Some tt, w') ∧
     stored_session (w_redis w') phone
       = Some (<[py "last_activity" := stamp]> (updates ∪ prior))) ∧
  (∀ role message w',
     add_to_conversation settings now phone role message w = (Some tt, w') →
     ∃ stored, stored_session (w_redis w') phone = Some stored ∧
       stored !! py "last_activity" = Some stamp) ∧
  (∀ session_data : dict,
     (<[py "last_activity" := stamp]> session_data) !! py "last_activity"
       = Some stamp).
Proof.
  intros Hpos stamp prior. repeat split.
  - intros d. eexists. rewrite (set_session_run settings Hpos).
    split; [reflexivity|]. unfold stored_session. cbn [w_redis].
    by rewrite lookup_insert_eq.
  - intros u. eexists. rewrite (update_session_run settings Hpos).
    split; [reflexivity|]. unfold stored_session. cbn [w_redis].
    by rewrite lookup_insert_eq.
  - intros role message w' Hrun.
    destruct (transcript prior) as [conv|] eqn:Hconv.
    + rewrite (add_to_conversation_run settings Hpos _ _ _ _ _ _ Hconv) in Hrun.
      injection Hrun as <-. eexists. unfold stored_session. cbn [w_redis].
      rewrite lookup_insert_eq. split; [reflexivity|].
      apply lookup_insert_eq.
    + exfalso. unfold add_to_conversation in Hrun.
      rewrite (bind_run _ _ _ _ _ (get_session_run settings now phone w)) in Hrun.
      fold prior in Hrun. unfold transcript in Hconv.
      destruct (prior !! py "conversation") as [[]|]; try discriminate Hconv;
        by run.
  - intros d. apply lookup_insert_eq.
Qed.

Lemma session_writes_stamp_last_activity_witness :
  let settings := default_settings in
  let now := 1793750400000000 in
  let phone := py "923001234567" in
  let w := {| w_redis := ∅; w_db := {| orders := []; next_order_id := 1 |} |} in
  ∃ w',
    set_session settings now phone {[py "last_activity" := JStr (py "caller")]} w
      = (Some tt, w') ∧
    stored_session (w_redis w') phone
      = Some (<[py "last_activity" := JStr (isoformat now)]>
                {[py "last_activity" := JStr (py "caller")]}).
Proof.
  intros settings now phone w.
  apply (session_writes_stamp_last_activity settings now phone w).
  reflexivity.
Defined.

(** ** The feedback policy *)

(** C6.  [should_request_feedback] holds exactly when feedback was not
    requested, no feedback text is stored, the order has a completion time,
    and the time since completion is at least the configured delay; the
    default delay is 30 minutes, and an order completed 31 minutes ago
    without feedback is eligible exactly when feedback was not requested. *)
Theorem should_request_feedback_iff settings now order :
  (should_request_feedback settings now order = true ↔
     order_feedback_requested order = false ∧
     (order_feedback order = None ∨ order_feedback order = Some []) ∧
     ∃ completed_at,
       order_completed_at order = Some completed_at ∧
       timedelta_minutes (FEEDBACK_DELAY_MINUTES settings) ≤ now - completed_at)
  ∧ (FEEDBACK_DELAY_MINUTES default_settings = 30)
  ∧ (∀ completed_at,
       order_completed_at order = Some completed_at →
       now - completed_at = timedelta_minutes 31 →
       order_feedback order = None →
       should_request_feedback default_settings now order
         = negb (order_feedback_requested order)).
Proof.
  split; [|split; [reflexivity|]].
  - unfold should_request_feedback.
    destruct (order_feedback_requested order); cbn [orb].
    { split; [done | by intros [? _]]. }
    destruct (order_feedback order) as [[|c f]|]; cbn [of_opt_str truthy].
    + destruct (order_completed_at order) as [t|].
      * rewrite Z.leb_le. split; [eauto 6|]. by intros (_ & _ & t' & [= <-] & H).
      * split; [done | by intros (_ & _ & t' & ? & _)].
    + split; [done|]. by intros (_ & [?|?] & _).
    + destruct (order_completed_at order) as [t|].
      * rewrite Z.leb_le. split; [eauto 6|]. by intros (_ & _ & t' & [= <-] & H).
      * split; [done | by intros (_ & _ & t' & ? & _)].
  - intros t Ht Hd Hf. unfold should_request_feedback. rewrite Ht, Hf, Hd.
    by destruct (order_feedback_requested order).
Qed.

Lemma should_request_feedback_iff_witness :
  let completed := 1793750400000000 in
  let now := completed + timedelta_minutes 31 in
  let order :=
    {| order_id := 7; order_customer_id := 1; order_type := TAKEAWAY;
       order_status := COMPLETED; order_items := JArr [];
       order_total_price := JInt 650; order_delivery_address := JNull;
       order_delivery_latitude := JNull; order_delivery_longitude := JNull;
       order_estimated_completion_time := None;
       order_completed_at := Some completed;
       order_feedback_requested := false; order_feedback := None;
       order_created_at := completed; order_updated_at := completed |} in
  should_request_feedback default_settings now order = true.
Proof.
  intros completed now order.
  apply (proj2 (proj2 (should_request_feedback_iff default_settings now order))
           completed); reflexivity.
Defined.

(** ** The dispatcher *)

Section DispatchFacts.
Variable settings : Settings.
Variable commit_ok : Order → bool.
Hypothesis timeout_pos : 0 < SESSION_TIMEOUT_MINUTES settings.
Hypothesis commits : ∀ o, commit_ok o = true.

Lemma create_order_run now stamp cid ot items total addr lat lon w :
  create_order commit_ok now stamp cid ot items total addr lat lon w =
  let o := {| order_id := next_order_id (w_db w);
              order_customer_id := cid;
              order_type := ot;
              order_status := PENDING;
              order_items := items;
              order_total_price := total;
              order_delivery_address := addr;
              order_delivery_latitude := lat;
              order_delivery_longitude := lon;
              order_estimated_completion_time :=
                Some (now + timedelta_minutes (minutes_map ot));
              order_completed_at := None;
              order_feedback_requested := false;
              order_feedback := None;
              order_created_at := stamp;
              order_updated_at := stamp |} in
  (Some o, {| w_redis := w_redis w;
              w_db := {| orders := orders (w_db w) ++ [o];
                         next_order_id := next_order_id (w_db w) + 1 |} |}).
Proof.
  unfold create_order. unfold mbind, M_bind, bind, get_db.
  rewrite commits. reflexivity.
Qed.

Lemma handle_action_create_order clk action customer phone session w data ot :
  dict_get action (py "type") = JStr (py "create_order") →
  dict_get_or action (py "data") (JObj ∅) = JObj data →
  OrderType_of (dict_get_or data (py "order_type") (JStr (py "dine_in"))) = Some ot →
  (ot = DELIVERY →
   ∃ location, dict_get_or session (py "location") (JObj ∅) = JObj location) →
  ∃ o w',
    handle_action settings commit_ok clk action customer phone session w
      = (Some tt, w') ∧
    w_db w' = {| orders := orders (w_db w) ++ [o];
                 next_order_id := next_order_id (w_db w) + 1 |} ∧
    stored_session (w_redis w') phone
      = Some (<[py "last_activity" := JStr (isoformat (at_session clk))]>
                (<[py "current_order" := JNull]>
                   (<[py "last_order" := order_snapshot o]> ∅)
                 ∪ default ∅ (session_at (w_redis w) (at_session clk) phone))) ∧
    order_id o = next_order_id (w_db w) ∧
    order_customer_id o = customer_id customer ∧
    order_type o = ot ∧
    order_status o = PENDING ∧
    order_items o = dict_get_or data (py "items") (JArr []) ∧
    order_total_price o = dict_get_or data (py "total_price") (JInt 0) ∧
    order_estimated_completion_time o
      = Some (at_order clk + timedelta_minutes (minutes_map ot)) ∧
    order_created_at o = at_insert clk ∧
    (order_delivery_address o, order_delivery_latitude o, order_delivery_longitude o)
      = match ot with
        | DELIVERY =>
            let location :=
              match dict_get_or session (py "location") (JObj ∅) with
              | JObj l => l
              | _ => ∅
              end in
            (py_or (dict_get data (py "address"))
                   (of_opt_str (customer_address customer)),
             py_or (dict_get location (py "latitude"))
                   (of_opt_float (customer_latitude customer)),
             py_or (dict_get location (py "longitude"))
                   (of_opt_float (customer_longitude customer)))
        | _ => (JNull, JNull, JNull)
        end.
Proof.
  intros Htype Hdata Hot Hloc.
  unfold handle_action. cbv zeta. rewrite Htype, Hdata.
  change (str_eq (JStr (py "create_order")) (py "create_order")) with true.
  cbv iota. cbn [as_dict]. rewrite bind_mret, Hot.
  cbn [of_option]. change (@ret OrderType ot) with (@mret M _ _ ot).
  rewrite bind_mret.
  destruct ot.
  - rewrite bind_mret. cbv iota beta.
    eexists _, _. split.
    { apply try_except_run.
      erewrite bind_run by apply create_order_run.
      cbv zeta. apply update_session_run. exact timeout_pos. }
    cbn [w_db w_redis]. split; [reflexivity|].
    split; [unfold stored_session; by rewrite lookup_insert_eq|].
    repeat split.
  - rewrite bind_mret. cbv iota beta.
    eexists _, _. split.
    { apply try_except_run.
      erewrite bind_run by apply create_order_run.
      cbv zeta. apply update_session_run. exact timeout_pos. }
    cbn [w_db w_redis]. split; [reflexivity|].
    split; [unfold stored_session; by rewrite lookup_insert_eq|].
    repeat split.
  - destruct (Hloc eq_refl) as [location Hl]. rewrite Hl.
    cbn [as_dict]. rewrite !bind_mret. cbv iota beta.
    eexists _, _. split.
    { apply try_except_run.
      erewrite bind_run by apply create_order_run.
      cbv zeta. apply update_session_run. exact timeout_pos. }
    cbn [w_db w_redis]. split; [reflexivity|].
    split; [unfold stored_session; by rewrite lookup_insert_eq|].
    repeat split.
Qed.
End DispatchFacts.

Section DispatchClaims.
Variable settings : Settings.
Variable commit_ok : Order → bool.

(** C9.  A dispatched [create_order] command appends an order whose
    estimated completion is the reading of the clock plus 20 minutes for
    dine-in, 15 for takeaway and 45 for delivery, and stores a session
    whose [current_order] is [None] and whose [last_order] is the snapshot
    of the new order. *)
Theorem create_order_estimate_and_session clk action customer phone session w
    data ot :
  0 < SESSION_TIMEOUT_MINUTES settings →
  (∀ o, commit_ok o = true) →
  dict_get action (py "type") = JStr (py "create_order") →
  dict_get_or action (py "data") (JObj ∅) = JObj data →
  OrderType_of (dict_get_or data (py "order_type") (JStr (py "dine_in"))) = Some ot →
  (ot = DELIVERY →
   ∃ location, dict_get_or session (py "location") (JObj ∅) = JObj location) →
  ∃ o w' stored,
    handle_action settings commit_ok clk action customer phone session w
      = (Some tt, w') ∧
    orders (w_db w') = orders (w_db w) ++ [o] ∧
    order_type o = ot ∧
    order_estimated_completion_time o
      = Some (at_order clk
              + timedelta_minutes
                  match ot with DINE_IN => 20 | TAKEAWAY => 15 | DELIVERY => 45 end) ∧
    stored_session (w_redis w') phone = Some stored ∧
    stored !! py "current_order" = Some JNull ∧
    stored !! py "last_order" = Some (order_snapshot o).
Proof.
  intros Hpos Hcommit Htype Hdata Hot Hloc.
  destruct (handle_action_create_order settings commit_ok Hpos Hcommit clk action
              customer phone session w data ot Htype Hdata Hot Hloc)
    as (o & w' & Hrun & Hdb & Hst & _ & _ & Hty & _ & _ & _ & Hest & _).
  eexists o, w', _. split; [exact Hrun|]. rewrite Hdb. split; [done|].
  split; [done|]. split; [by destruct ot|]. split; [exact Hst|].
  split.
  - rewrite lookup_insert_ne by key_ne. rewrite union_lookup_pref.
    by rewrite lookup_insert_eq.
  - rewrite lookup_insert_ne by key_ne. rewrite union_lookup_pref.
    rewrite lookup_insert_ne by key_ne. by rewrite lookup_insert_eq.
Qed.

(** C5, as the code has it.  For a delivery order the address is the one of
    the command when it has one, else the one of the customer profile; each
    coordinate is the one of the session's location when it has one, else
    the one of the customer profile.  When the command has no address and
    the session no location, the order carries the profile address. *)
Theorem delivery_fields_fallback clk action customer phone session w data :
  0 < SESSION_TIMEOUT_MINUTES settings →
  (∀ o, commit_ok o = true) →
  dict_get action (py "type") = JStr (py "create_order") →
  dict_get_or action (py "data") (JObj ∅) = JObj data →
  dict_get data (py "order_type") = JStr (py "delivery") →
  ∀ location, dict_get_or session (py "location") (JObj ∅) = JObj location →
  ∃ o w',
    handle_action settings commit_ok clk action customer phone session w
      = (Some tt, w') ∧
    orders (w_db w') = orders (w_db w) ++ [o] ∧
    order_delivery_address o
      = py_or (dict_get data (py "address"))
              (of_opt_str (customer_address customer)) ∧
    order_delivery_latitude o
      = py_or (dict_get location (py "latitude"))
              (of_opt_float (customer_latitude customer)) ∧
    order_delivery_longitude o
      = py_or (dict_get location (py "longitude"))
              (of_opt_float (customer_longitude customer)) ∧
    (∀ address,
       data !! py "address" = None → session !! py "location" = None →
       customer_address customer = Some address →
       order_delivery_address o = JStr address).
Proof.
  intros Hpos Hcommit Htype Hdata Hot location Hloc.
  assert (Hot' : OrderType_of (dict_get_or data (py "order_type") (JStr (py "dine_in")))
                 = Some DELIVERY).
  { unfold dict_get, dict_get_or in *.
    destruct (data !! py "order_type") as [v|]; cbn [default] in *;
      [by rewrite Hot | discriminate Hot]. }
  destruct (handle_action_create_order settings commit_ok Hpos Hcommit clk action
              customer phone session w data DELIVERY Htype Hdata Hot')
    as (o & w' & Hrun & Hdb & _ & _ & _ & _ & _ & _ & _ & _ & _ & Hdel); [eauto|].
  rewrite Hloc in Hdel. cbv zeta in Hdel. injection Hdel as Ha Hlat Hlon.
  exists o, w'. split; [exact Hrun|]. rewrite Hdb. split; [done|].
  split; [done|]. split; [done|]. split; [done|].
  intros address Hnone _ Hc. rewrite Ha. unfold dict_get. rewrite Hnone, Hc.
  reflexivity.
Qed.
End DispatchClaims.

Lemma create_order_estimate_and_session_witness :
  ∃ o w' stored,
    handle_action default_settings (λ _, true) sample_clock takeaway_action
      sample_customer (py "923001234567") ∅ sample_world = (Some tt, w') ∧
    orders (w_db w') = orders (w_db sample_world) ++ [o] ∧
    order_type o = TAKEAWAY ∧
    order_estimated_completion_time o
      = Some (at_order sample_clock + timedelta_minutes 15) ∧
    stored_session (w_redis w') (py "923001234567") = Some stored ∧
    stored !! py "current_order" = Some JNull ∧
    stored !! py "last_order" = Some (order_snapshot o).
Proof.
  apply (create_order_estimate_and_session default_settings (λ _, true)
           sample_clock takeaway_action sample_customer (py "923001234567") ∅
           sample_world takeaway_data TAKEAWAY).
  - reflexivity.
  - reflexivity.
  - vm_compute. reflexivity.
  - vm_compute. reflexivity.
  - vm_compute. reflexivity.
  - discriminate.
Defined.

Lemma delivery_fields_fallback_witness :
  ∃ o w',
    handle_action default_settings (λ _, true) sample_clock delivery_action
      sample_customer (py "923001234567") ∅ sample_world = (Some tt, w') ∧
    orders (w_db w') = [o] ∧
    order_delivery_address o = JStr (py "12 Canal Road").
Proof.
  destruct (delivery_fields_fallback default_settings (λ _, true) sample_clock
              delivery_action sample_customer (py "923001234567") ∅ sample_world
              delivery_data)
    with (location := (∅ : dict))
    as (o & w' & Hrun & Hdb & _ & _ & _ & Haddr).
  - reflexivity.
  - reflexivity.
  - vm_compute. reflexivity.
  - vm_compute. reflexivity.
  - vm_compute. reflexivity.
  - vm_compute. reflexivity.
  - exists o, w'. split; [exact Hrun|]. split; [exact Hdb|].
    apply Haddr; reflexivity.
Defined.

(** C5 as stated fails: a command that carries coordinates does not get
    them, the order takes those of the session; and an address kept in the
    session is not looked at, the order takes the one of the profile. *)
Lemma delivery_coordinates_ignore_command :
  let data : dict :=
    <[py "order_type" := JStr (py "delivery")]>
      (<[py "latitude" := JInt 1]> (<[py "longitude" := JInt 2]> ∅)) in
  let action : dict :=
    <[py "type" := JStr (py "create_order")]> (<[py "data" := JObj data]> ∅) in
  let location : dict :=
    <[py "latitude" := JInt 3]> (<[py "longitude" := JInt 4]> ∅) in
  let session : dict :=
    <[py "location" := JObj location]>
      (<[py "address" := JStr (py "9 Mall Road")]> ∅) in
  ∃ o w',
    handle_action default_settings (λ _, true) sample_clock action sample_customer
      (py "923001234567") session sample_world = (Some tt, w') ∧
    orders (w_db w') = [o] ∧
    claimed_chain (dict_get data (py "latitude")) (dict_get location (py "latitude"))
      (of_opt_float (customer_latitude sample_customer)) = JInt 1 ∧
    order_delivery_latitude o = JInt 3 ∧
    claimed_chain (dict_get data (py "longitude")) (dict_get location (py "longitude"))
      (of_opt_float (customer_longitude sample_customer)) = JInt 2 ∧
    order_delivery_longitude o = JInt 4 ∧
    claimed_chain (dict_get data (py "address")) (dict_get session (py "address"))
      (of_opt_str (customer_address sample_customer)) = JStr (py "9 Mall Road") ∧
    order_delivery_address o = JStr (py "12 Canal Road").
Proof.
  intros data action location session.
  eexists _, _. split; [vm_compute; reflexivity|].
  repeat split.
Qed.

(** ** Usage accounting *)

Lemma hash_at_live R now key h ex :
  hash_at R now key = Some (h, ex) → expiry_live now ex.
Proof.
  unfold hash_at, live. destruct (R !! key) as [[v [dl|]]|]; cbn.
  - destruct (Z.leb_spec dl now); cbn.
    + by intros [= <- <-].
    + destruct v; [done|]. by intros [= <- <-].
  - destruct v; [done|]. by intros [= <- <-].
  - by intros [= <- <-].
Qed.

Lemma hash_at_insert R now key h ex :
  expiry_live now ex →
  hash_at (<[key := {| r_val := RHash h; r_expiry := ex |}]> R) now key = Some (h, ex).
Proof.
  intros Hex. unfold hash_at, live. rewrite lookup_insert_eq. cbn.
  destruct ex as [dl|]; [|done]. cbn in Hex.
  destruct (Z.leb_spec dl now); [lia | done].
Qed.

Lemma hash_at_insert_ne R now key key' e :
  key ≠ key' → hash_at (<[key := e]> R) now key' = hash_at R now key'.
Proof. intros H. unfold hash_at, live. by rewrite lookup_insert_ne. Qed.

(** *** Decimal forms *)

Lemma py_cons c s : py (String c s) = N_of_ascii c :: py s.
Proof. reflexivity. Qed.

Lemma digits_val_acc d acc :
  fold_left (λ a c, 10 * a + (Z.of_N c - 48)) (py (NilEmpty.string_of_uint d))
    (Zpos acc)
  = Zpos (Pos.of_uint_acc d acc).
Proof.
  revert acc.
  induction d as [|d IH|d IH|d IH|d IH|d IH|d IH|d IH|d IH|d IH|d IH];
    intros acc; cbn [NilEmpty.string_of_uint Pos.of_uint_acc];
    [reflexivity|..];
    rewrite py_cons; cbn [fold_left]; rewrite <- IH; f_equal;
    cbn [N_of_ascii N_of_digits]; lia.
Qed.

Lemma digits_val_of_uint d :
  digits_val (py (NilEmpty.string_of_uint d)) = Z.of_uint d.
Proof.
  unfold digits_val, Z.of_uint.
  induction d as [|d IH|d IH|d IH|d IH|d IH|d IH|d IH|d IH|d IH|d IH];
    cbn [NilEmpty.string_of_uint Pos.of_uint];
    [reflexivity|rewrite py_cons; cbn [fold_left]; exact IH|..];
    rewrite py_cons; cbn [fold_left Z.of_N];
    rewrite <- digits_val_acc; reflexivity.
Qed.

(** The server reads back the integers it writes. *)
Lemma string2ll_str_of_int z : int64 z = true → string2ll (str_of_int z) = Some z.
Proof.
  intros Hz. unfold string2ll.
  assert (E : match str_of_int z with
              | 45%N :: ds => - digits_val ds
              | _ => digits_val (str_of_int z)
              end = z).
  { pose proof (DecimalZ.of_to z) as Hz'. unfold str_of_int.
    destruct (Z.to_int z) as [d|d]; cbn [NilEmpty.string_of_int Z.of_int] in *.
    - rewrite <- Hz', <- digits_val_of_uint. destruct d; reflexivity.
    - rewrite py_cons. change (N_of_ascii "-") with 45%N. cbv iota.
      by rewrite digits_val_of_uint, Hz'. }
  rewrite E, bool_decide_eq_true_2 by done. by rewrite Hz.
Qed.

Lemma string2ll_Some t z : string2ll t = Some z → t = str_of_int z ∧ int64 z = true.
Proof.
  unfold string2ll. set (v := match t with 45%N :: ds => _ | _ => _ end).
  case_bool_decide as E; cbn [andb]; [|done].
  destruct (int64 v) eqn:Hv; [|done]. by intros [= <-].
Qed.

(** *** The increments of a window *)

Lemma field_int_insert_ne (h : gmap text text) f g v :
  f ≠ g → field_int (<[f := v]> h) g = field_int h g.
Proof. intros. unfold field_int. by rewrite lookup_insert_ne. Qed.

Lemma int_field_insert_ne (h : gmap text text) f g v :
  f ≠ g → int_field (<[f := v]> h) g = int_field h g.
Proof. intros. unfold int_field. by rewrite field_int_insert_ne. Qed.

Lemma int_ok_insert_ne (h : gmap text text) f g v n :
  f ≠ g → int_ok h g n → int_ok (<[f := v]> h) g n.
Proof. intros Hne H. unfold int_ok. by rewrite field_int_insert_ne. Qed.

(** A field the server has written as an integer reads back as that
    integer. *)
Lemma int_field_written (h : gmap text text) f z :
  int64 z = true → int_field (<[f := str_of_int z]> h) f = z.
Proof.
  intros Hz. unfold int_field, field_int. rewrite lookup_insert_eq.
  by rewrite string2ll_str_of_int.
Qed.

Lemma int_ok_sum (h : gmap text text) f n :
  int_ok h f n → int64 (int_field h f + n) = true.
Proof.
  unfold int_ok, int_field. destruct (field_int h f) as [old|]; [|done].
  cbn [default]. by intros [_ H]%andb_true_iff.
Qed.

Section WindowCommands.
Context {A : Type} (k : unit → M A).
Variable incrbyfloat : option text → spec_float → option text.

Lemma float_text_insert_ne (h : gmap text text) f g v x :
  f ≠ g → float_text incrbyfloat (<[f := v]> h) g x = float_text incrbyfloat h g x.
Proof. intros. unfold float_text. by rewrite lookup_insert_ne. Qed.

Lemma float_ok_insert_ne (h : gmap text text) f g v x :
  f ≠ g → float_ok incrbyfloat h g x → float_ok incrbyfloat (<[f := v]> h) g x.
Proof. intros Hne H. unfold float_ok. by rewrite lookup_insert_ne. Qed.

Lemma hincrby_k now key f n w h ex :
  hash_at (w_redis w) now key = Some (h, ex) → int_ok h f n →
  (hincrby now key f n ≫= k) w =
  k tt {| w_redis := <[key := {| r_val := RHash (incr_int h f n); r_expiry := ex |}]> (w_redis w);
          w_db := w_db w |}.
Proof.
  intros Hh Hok. unfold hincrby, redis_hincrby, incr_int, int_field.
  unfold mbind, M_bind, bind, get_redis, put_redis. rewrite Hh.
  unfold int_ok in Hok. destruct (field_int h f) as [old|]; [|done].
  by rewrite Hok.
Qed.

Lemma hincrbyfloat_k now key f x w h ex :
  hash_at (w_redis w) now key = Some (h, ex) → float_ok incrbyfloat h f x →
  (hincrbyfloat incrbyfloat now key f x ≫= k) w =
  k tt {| w_redis := <[key := {| r_val := RHash (incr_float incrbyfloat h f x);
                                 r_expiry := ex |}]> (w_redis w);
          w_db := w_db w |}.
Proof.
  intros Hh [Hfin [total Ht]].
  unfold hincrbyfloat, redis_hincrbyfloat, incr_float, float_text.
  unfold mbind, M_bind, bind, get_redis, put_redis.
  by rewrite Hh, Hfin, Ht.
Qed.

Lemma expire_k now key secs w h ex R :
  w_redis w = <[key := {| r_val := RHash h; r_expiry := ex |}]> R →
  expiry_live now ex → 0 < secs →
  (expire now key secs ≫= k) w =
  k tt {| w_redis := <[key := {| r_val := RHash h;
                                 r_expiry := Some (now + timedelta_seconds secs) |}]> R;
          w_db := w_db w |}.
Proof.
  intros HR Hex Hsecs. unfold expire, redis_expire, live.
  unfold mbind, M_bind, bind, get_redis, put_redis. rewrite HR.
  rewrite lookup_insert_eq. cbn [r_expiry r_val].
  assert (Hlive : match ex with
                  | Some deadline =>
                      if deadline <=? now then None
                      else Some {| r_val := RHash h; r_expiry := ex |}
                  | None => Some {| r_val := RHash h; r_expiry := ex |}
                  end = Some {| r_val := RHash h; r_expiry := ex |}).
  { destruct ex as [dl|]; [|done]. cbn in Hex.
    destruct (Z.leb_spec dl now); [lia | done]. }
  rewrite Hlive. apply Z.ltb_lt in Hsecs. rewrite Hsecs.
  by rewrite insert_insert_eq.
Qed.

End WindowCommands.

Section WindowCommandsOnWritten.
Context {A : Type} (k : unit → M A).
Variable incrbyfloat : option text → spec_float → option text.

Lemma hincrby_written now key f n R db h ex :
  expiry_live now ex → int_ok h f n →
  (hincrby now key f n ≫= k)
    {| w_redis := <[key := {| r_val := RHash h; r_expiry := ex |}]> R; w_db := db |} =
  k tt {| w_redis := <[key := {| r_val := RHash (incr_int h f n); r_expiry := ex |}]> R;
          w_db := db |}.
Proof.
  intros Hex Hok. erewrite hincrby_k; [|by apply hash_at_insert|done].
  cbn [w_redis w_db]. by rewrite insert_insert_eq.
Qed.

Lemma hincrbyfloat_written now key f x R db h ex :
  expiry_live now ex → float_ok incrbyfloat h f x →
  (hincrbyfloat incrbyfloat now key f x ≫= k)
    {| w_redis := <[key := {| r_val := RHash h; r_expiry := ex |}]> R; w_db := db |} =
  k tt {| w_redis := <[key := {| r_val := RHash (incr_float incrbyfloat h f x);
                                 r_expiry := ex |}]> R;
          w_db := db |}.
Proof.
  intros Hex Hok. erewrite hincrbyfloat_k; [|by apply hash_at_insert|done].
  cbn [w_redis w_db]. by rewrite insert_insert_eq.
Qed.

End WindowCommandsOnWritten.

Section Windows.
Context {A : Type} (k : unit → M A).
Variable incrbyfloat : option text → spec_float → option text.

Lemma full_window_k now key secs i o usd pkr w h ex :
  hash_at (w_redis w) now key = Some (h, ex) →
  full_ok incrbyfloat h i o usd pkr → 0 < secs →
  (hincrby now key (py "input_tokens") i;;
   hincrby now key (py "output_tokens") o;;
   hincrbyfloat incrbyfloat now key (py "cost_usd") usd;;
   hincrbyfloat incrbyfloat now key (py "cost_pkr") pkr;;
   hincrby now key (py "requests") 1;;
   expire now key secs ≫= k) w =
  k tt {| w_redis := <[key := {| r_val := RHash (bump_full incrbyfloat i o usd pkr h);
                                 r_expiry := Some (now + timedelta_seconds secs) |}]>
                       (w_redis w);
          w_db := w_db w |}.
Proof.
  intros Hh (H1 & H2 & H3 & H4 & H5) Hsecs.
  pose proof (hash_at_live _ _ _ _ _ Hh) as Hex.
  rewrite (hincrby_k _ _ _ _ _ _ _ _ Hh H1).
  rewrite hincrby_written;
    [|done|by apply int_ok_insert_ne; [key_ne|]].
  rewrite hincrbyfloat_written;
    [|done|by do 2 (apply float_ok_insert_ne; [key_ne|])].
  rewrite hincrbyfloat_written;
    [|done|by do 3 (apply float_ok_insert_ne; [key_ne|])].
  rewrite hincrby_written;
    [|done|by do 4 (apply int_ok_insert_ne; [key_ne|])].
  erewrite expire_k; [|reflexivity|done|done].
  cbn [w_db]. do 3 f_equal.
  unfold bump_full, incr_int, incr_float.
  rewrite !int_field_insert_ne, !float_text_insert_ne by key_ne.
  reflexivity.
Qed.

Lemma user_window_k now key secs i o pkr w h ex :
  hash_at (w_redis w) now key = Some (h, ex) →
  user_ok incrbyfloat h i o pkr → 0 < secs →
  (hincrby now key (py "input_tokens") i;;
   hincrby now key (py "output_tokens") o;;
   hincrbyfloat incrbyfloat now key (py "cost_pkr") pkr;;
   expire now key secs ≫= k) w =
  k tt {| w_redis := <[key := {| r_val := RHash (bump_user incrbyfloat i o pkr h);
                                 r_expiry := Some (now + timedelta_seconds secs) |}]>
                       (w_redis w);
          w_db := w_db w |}.
Proof.
  intros Hh (H1 & H2 & H3) Hsecs.
  pose proof (hash_at_live _ _ _ _ _ Hh) as Hex.
  rewrite (hincrby_k _ _ _ _ _ _ _ _ Hh H1).
  rewrite hincrby_written;
    [|done|by apply int_ok_insert_ne; [key_ne|]].
  rewrite hincrbyfloat_written;
    [|done|by do 2 (apply float_ok_insert_ne; [key_ne|])].
  erewrite expire_k; [|reflexivity|done|done].
  cbn [w_db]. do 3 f_equal.
  unfold bump_user, incr_int, incr_float.
  rewrite !int_field_insert_ne, !float_text_insert_ne by key_ne.
  reflexivity.
Qed.
End Windows.

Lemma cost_keys_distinct now phone :
  daily_key now ≠ monthly_key now ∧
  daily_key now ≠ user_key now phone ∧
  monthly_key now ≠ user_key now phone.
Proof.
  unfold daily_key, monthly_key, user_key.
  repeat split; intros H; apply (f_equal (take 6)) in H;
    cbv -[strftime_day strftime_month] in H; discriminate H.
Qed.

(** A total that is finite is made of finite quotients: no division
    raised. *)
Lemma cost_finite a b :
  sf_finite (fadd (fmul a INPUT_COST_PER_1M) (fmul b OUTPUT_COST_PER_1M)) = true →
  sf_finite a = true ∧ sf_finite b = true.
Proof.
  intros H. split.
  - destruct a as [s|s| |s m e]; try reflexivity; exfalso; revert H;
      generalize (fmul b OUTPUT_COST_PER_1M); intros y;
      unfold fadd, fmul; cbn [SFmul INPUT_COST_PER_1M];
      destruct y as [sy|sy| |sy my ey]; cbn; try discriminate;
      destruct s, sy; cbn; discriminate.
  - destruct b as [s|s| |s m e]; try reflexivity; exfalso; revert H;
      generalize (fmul a INPUT_COST_PER_1M); intros y;
      unfold fadd, fmul; cbn [SFmul OUTPUT_COST_PER_1M];
      destruct y as [sy|sy| |sy my ey]; cbn; try discriminate;
      destruct s, sy; cbn; discriminate.
Qed.

Lemma div_million_finite n :
  sf_finite (per_million n) = true → div_million n = Some (per_million n).
Proof. intros H. unfold div_million. cbv zeta. by rewrite H. Qed.

Lemma track_usage_run incrbyfloat now input_tokens output_tokens phone w
    hd exd hm exm hu exu :
  let usd := total_cost_usd input_tokens output_tokens in
  let pkr := total_cost_pkr input_tokens output_tokens in
  hash_at (w_redis w) now (daily_key now) = Some (hd, exd) →
  hash_at (w_redis w) now (monthly_key now) = Some (hm, exm) →
  hash_at (w_redis w) now (user_key now phone) = Some (hu, exu) →
  full_ok incrbyfloat hd input_tokens output_tokens usd pkr →
  full_ok incrbyfloat hm input_tokens output_tokens usd pkr →
  user_ok incrbyfloat hu input_tokens output_tokens pkr →
  ∃ result,
    track_usage incrbyfloat true now input_tokens output_tokens phone w =
    (Some result,
     {| w_redis := recorded incrbyfloat (w_redis w) now phone
                     input_tokens output_tokens hd hm hu;
        w_db := w_db w |}) ∧
    result !! py "total_cost_usd" = Some (JFloat usd) ∧
    result !! py "total_cost_pkr" = Some (JFloat pkr).
Proof.
  intros usd pkr Hd Hm Hu Hdok Hmok Huok.
  destruct (cost_keys_distinct now phone) as (Hdm & Hdu & Hmu).
  assert (Hfin : sf_finite usd = true) by apply Hdok.
  apply cost_finite in Hfin as [Hi Ho].
  eexists. split.
  { unfold track_usage. apply try_except_run.
    rewrite (div_million_finite _ Hi), (div_million_finite _ Ho).
    cbn [of_option]. change (@ret spec_float ?x) with (@mret M _ _ x).
    rewrite !bind_mret. cbv zeta.
    erewrite bind_run; [reflexivity|]. cbv iota.
    rewrite (full_window_k _ _ _ _ _ _ _ _ _ _ _ _ Hd Hdok) by done.
    rewrite (full_window_k _ _ _ _ _ _ _ _ _ _ hm exm);
      [|by cbn [w_redis]; rewrite hash_at_insert_ne|exact Hmok|done].
    change (expire now (user_key now phone) (86400 * 30))
      with (expire now (user_key now phone) (86400 * 30) ≫= mret).
    rewrite (user_window_k _ _ _ _ _ _ _ _ _ hu exu);
      [|by cbn [w_redis]; rewrite !hash_at_insert_ne|exact Huok|done].
    reflexivity. }
  split; lookup_literal.
Qed.

(** C8, as the code has it.  [track_usage] computes the cost in the base
    currency as input tokens per million times the input price plus output
    tokens per million times the output price, and the display total as
    that cost times 280.  On windows that take the increments, the daily
    and the monthly window accumulate input tokens, output tokens, both
    totals and the request count, and expire after 90 and 365 days; the
    per-identity window accumulates input tokens, output tokens and the
    display total only, and expires after 30 days.  The counters are kept
    as the server keeps them: an integer in its decimal form, a total as
    the text its float increment leaves. *)
Theorem track_usage_windows incrbyfloat now input_tokens output_tokens phone w
    hd exd hm exm hu exu :
  let usd := total_cost_usd input_tokens output_tokens in
  let pkr := total_cost_pkr input_tokens output_tokens in
  hash_at (w_redis w) now (daily_key now) = Some (hd, exd) →
  hash_at (w_redis w) now (monthly_key now) = Some (hm, exm) →
  hash_at (w_redis w) now (user_key now phone) = Some (hu, exu) →
  full_ok incrbyfloat hd input_tokens output_tokens usd pkr →
  full_ok incrbyfloat hm input_tokens output_tokens usd pkr →
  user_ok incrbyfloat hu input_tokens output_tokens pkr →
  ∃ result w',
    track_usage incrbyfloat true now input_tokens output_tokens phone w
      = (Some result, w') ∧
    usd = fadd (fmul (per_million input_tokens) INPUT_COST_PER_1M)
               (fmul (per_million output_tokens) OUTPUT_COST_PER_1M) ∧
    pkr = fmul usd (binary64_of_Z 280) ∧
    result !! py "total_cost_usd" = Some (JFloat usd) ∧
    result !! py "total_cost_pkr" = Some (JFloat pkr) ∧
    hash_at (w_redis w') now (daily_key now)
      = Some (bump_full incrbyfloat input_tokens output_tokens usd pkr hd,
              Some (now + timedelta_seconds (86400 * 90))) ∧
    hash_at (w_redis w') now (monthly_key now)
      = Some (bump_full incrbyfloat input_tokens output_tokens usd pkr hm,
              Some (now + timedelta_seconds (86400 * 365))) ∧
    hash_at (w_redis w') now (user_key now phone)
      = Some (bump_user incrbyfloat input_tokens output_tokens pkr hu,
              Some (now + timedelta_seconds (86400 * 30))) ∧
    bump_user incrbyfloat input_tokens output_tokens pkr hu !! py "requests"
      = hu !! py "requests" ∧
    bump_user incrbyfloat input_tokens output_tokens pkr hu !! py "cost_usd"
      = hu !! py "cost_usd".
Proof.
  intros usd pkr Hd Hm Hu Hdok Hmok Huok.
  destruct (cost_keys_distinct now phone) as (Hdm & Hdu & Hmu).
  destruct (track_usage_run incrbyfloat now input_tokens output_tokens phone w
              hd exd hm exm hu exu Hd Hm Hu Hdok Hmok Huok)
    as (result & Hrun & Husd & Hpkr).
  eexists result, _. split; [exact Hrun|].
  cbn [w_redis w_db]. unfold recorded. cbv zeta.
  split; [reflexivity|]. split; [reflexivity|].
  split; [exact Husd|]. split; [exact Hpkr|].
  split.
  { rewrite !hash_at_insert_ne by done. apply hash_at_insert.
    cbn. unfold timedelta_seconds. lia. }
  split.
  { rewrite hash_at_insert_ne by done. apply hash_at_insert.
    cbn. unfold timedelta_seconds. lia. }
  split.
  { apply hash_at_insert. cbn. unfold timedelta_seconds. lia. }
  unfold bump_user. split; by rewrite !lookup_insert_ne by key_ne.
Qed.

Lemma track_usage_windows_witness :
  let phone := py "923001234567" in
  let usd := total_cost_usd 100 50 in
  let pkr := total_cost_pkr 100 50 in
  ∃ result w',
    track_usage sample_incrbyfloat true sample_now 100 50 phone sample_world
      = (Some result, w') ∧
    hash_at (w_redis w') sample_now (daily_key sample_now)
      = Some (bump_full sample_incrbyfloat 100 50 usd pkr ∅,
              Some (sample_now + timedelta_seconds (86400 * 90))) ∧
    hash_at (w_redis w') sample_now (user_key sample_now phone)
      = Some (bump_user sample_incrbyfloat 100 50 pkr ∅,
              Some (sample_now + timedelta_seconds (86400 * 30))) ∧
    bump_full sample_incrbyfloat 100 50 usd pkr ∅ !! py "input_tokens"
      = Some (py "100") ∧
    bump_full sample_incrbyfloat 100 50 usd pkr ∅ !! py "cost_usd"
      = Some (py "0.0000225").
Proof.
  intros phone usd pkr.
  destruct (track_usage_windows sample_incrbyfloat sample_now 100 50 phone
              sample_world ∅ None ∅ None ∅ None)
    as (result & w' & Hrun & _ & _ & _ & _ & Hd & _ & Hu & _);
    [reflexivity | reflexivity | reflexivity | accepted | accepted | accepted |].
  exists result, w'. split; [exact Hrun|]. split; [exact Hd|].
  split; [exact Hu|]. split; vm_compute; reflexivity.
Defined.

(** Two records, of (100, 50) and of (200, 100) tokens, leave 300 input
    tokens, 150 output tokens, 2 requests and the two totals of the sample
    server in the daily window. *)
Example two_records_add_up :
  let phone := py "923001234567" in
  let w1 := (track_usage sample_incrbyfloat true sample_now 100 50 phone
               sample_world).2 in
  let w2 := (track_usage sample_incrbyfloat true (sample_now + 1000000) 200 100
               phone w1).2 in
  let field := window_field (w_redis w2) (sample_now + 2000000)
                 (daily_key sample_now) in
  field (py "input_tokens") = Some (py "300") ∧
  field (py "output_tokens") = Some (py "150") ∧
  field (py "requests") = Some (py "2") ∧
  field (py "cost_usd") = Some (py "0.0000675") ∧
  field (py "cost_pkr") = Some (py "0.0189").
Proof. vm_compute. repeat split. Qed.

(** The total the server keeps is a decimal text, and the float read from
    it need not be the float that was added: after one record of 850 and
    120 tokens the daily window of the sample server holds 0.00009975,
    which reads as the float next above the cost of the record. *)
Example stored_total_is_decimal :
  let phone := py "923001234567" in
  let w' := (track_usage sample_incrbyfloat true sample_now 850 120 phone
               sample_world).2 in
  let field := window_field (w_redis w') sample_now (daily_key sample_now) in
  field (py "cost_usd") = Some (py "0.00009975") ∧
  field (py "cost_pkr") = Some (py "0.02793") ∧
  total_cost_usd 850 120 = S754_finite false 7360250885410110 (-66) ∧
  sample_float_of_text (py "0.00009975")
    = Some (S754_finite false 7360250885410111 (-66)).
Proof. vm_compute. repeat split. Qed.

(** An increment outside the 64-bit range is refused before anything is
    written. *)
Example huge_count_is_refused :
  track_usage sample_incrbyfloat true sample_now (2 ^ 63) 50 (py "923001234567")
    sample_world
  = (Some ∅, sample_world).
Proof. vm_compute. reflexivity. Qed.

(** C8 as stated fails: after one record the per-identity window has
    neither a request count nor a total in the base currency. *)
Lemma user_window_lacks_requests_and_usd :
  let phone := py "923001234567" in
  let w' := (track_usage sample_incrbyfloat true sample_now 100 50 phone
               sample_world).2 in
  window_field (w_redis w') sample_now (daily_key sample_now) (py "requests")
    = Some (py "1") ∧
  window_field (w_redis w') sample_now (daily_key sample_now) (py "cost_usd")
    = Some (py "0.0000225") ∧
  window_field (w_redis w') sample_now (user_key sample_now phone) (py "input_tokens")
    = Some (py "100") ∧
  window_field (w_redis w') sample_now (user_key sample_now phone) (py "requests")
    = None ∧
  window_field (w_redis w') sample_now (user_key sample_now phone) (py "cost_usd")
    = None.
Proof. vm_compute. repeat split. Qed.

(** * Further properties *)

(** ** More on the session store *)

Lemma only_touches_refl key R : only_touches key R R.
Proof. by intros k _. Qed.

Lemma only_touches_trans key R1 R2 R3 :
  only_touches key R1 R2 → only_touches key R2 R3 → only_touches key R1 R3.
Proof. intros H1 H2 k Hk. by rewrite H2, H1. Qed.

Lemma only_touches_insert key e R : only_touches key R (<[key := e]> R).
Proof. intros k Hk. by rewrite lookup_insert_ne. Qed.

Lemma only_touches_delete key R : only_touches key R (delete key R).
Proof. intros k Hk. by rewrite lookup_delete_ne. Qed.

Lemma only_touches_expire key R now secs :
  only_touches key R (redis_expire R now key secs).
Proof.
  unfold redis_expire. destruct (live R now key); [|apply only_touches_refl].
  destruct (0 <? secs); [apply only_touches_insert | apply only_touches_delete].
Qed.

Lemma _get_session_key_inj a b : _get_session_key a = _get_session_key b → a = b.
Proof. unfold _get_session_key. apply app_inv_head. Qed.

Lemma session_at_only_touches key R R' t other :
  only_touches key R R' → _get_session_key other ≠ key →
  session_at R' t other = session_at R t other.
Proof. intros H Hk. unfold session_at, live. by rewrite (H _ Hk). Qed.

Section SessionMore.
Variable settings : Settings.

Lemma refreshed_only_touches R now phone :
  only_touches (_get_session_key phone) R (refreshed settings R now phone).
Proof.
  unfold refreshed. destruct (session_at R now phone);
    [apply only_touches_expire | apply only_touches_refl].
Qed.

(** The server after [get_session] found [d]. *)
Lemma refreshed_hit R now phone d :
  0 < SESSION_TIMEOUT_MINUTES settings →
  session_at R now phone = Some d →
  ∃ ex, refreshed settings R now phone
        = <[_get_session_key phone :=
              {| r_val := RString d;
                 r_expiry := Some (now + timedelta_seconds (session_timeout settings)) |}]> R
        ∧ R !! _get_session_key phone = Some {| r_val := RString d; r_expiry := ex |}.
Proof.
  intros Hpos Hs. unfold refreshed. rewrite Hs.
  unfold session_at in Hs. unfold redis_expire.
  destruct (live R now (_get_session_key phone)) as [[[d'|h] ex]|] eqn:Hl;
    try discriminate Hs.
  injection Hs as ->. cbn [r_val].
  pose proof (session_timeout_pos settings Hpos) as Ht.
  apply Z.ltb_lt in Ht. rewrite Ht. exists ex. split; [reflexivity|].
  unfold live in Hl. destruct (R !! _get_session_key phone) as [e|]; [|done].
  destruct (r_expiry e) as [dl|] eqn:He.
  - destruct (dl <=? now); [done|]. by injection Hl as ->.
  - by injection Hl as ->.
Qed.

Lemma get_session_total now phone w :
  ∃ r w', get_session settings now phone w = (Some r, w').
Proof. rewrite get_session_run. eauto. Qed.

Lemma get_session_none now phone w :
  session_at (w_redis w) now phone = None →
  get_session settings now phone w = (Some None, w).
Proof.
  intros Hs. rewrite get_session_run. unfold refreshed. rewrite Hs.
  by destruct w.
Qed.

Lemma set_session_only_touches now phone d w :
  only_touches (_get_session_key phone) (w_redis w)
    (w_redis (set_session settings now phone d w).2).
Proof.
  unfold set_session, redis_setex. destruct w as [R db]. run.
  destruct (0 <? session_timeout settings); cbn;
    [apply only_touches_insert | apply only_touches_refl].
Qed.

Lemma get_session_only_touches now phone w :
  only_touches (_get_session_key phone) (w_redis w)
    (w_redis (get_session settings now phone w).2).
Proof. rewrite get_session_run. cbn. apply refreshed_only_touches. Qed.

Lemma update_session_only_touches now phone u w :
  only_touches (_get_session_key phone) (w_redis w)
    (w_redis (update_session settings now phone u w).2).
Proof.
  unfold update_session.
  rewrite (bind_run _ _ _ _ _ (get_session_run settings now phone w)).
  eapply only_touches_trans; [|apply set_session_only_touches].
  cbn [w_redis]. apply refreshed_only_touches.
Qed.

Lemma add_to_conversation_only_touches now phone role message w :
  only_touches (_get_session_key phone) (w_redis w)
    (w_redis (add_to_conversation settings now phone role message w).2).
Proof.
  unfold add_to_conversation.
  rewrite (bind_run _ _ _ _ _ (get_session_run settings now phone w)).
  set (prior := default ∅ (session_at (w_redis w) now phone)).
  destruct (prior !! py "conversation") as [[]|];
    try (unfold mbind, M_bind, bind, raise; cbn [snd w_redis];
         apply refreshed_only_touches).
  - rewrite bind_mret.
    eapply only_touches_trans; [|apply set_session_only_touches].
    cbn [w_redis]. apply refreshed_only_touches.
  - rewrite bind_mret.
    eapply only_touches_trans; [|apply set_session_only_touches].
    cbn [w_redis]. apply refreshed_only_touches.
Qed.

End SessionMore.

(** X1.  A read that finds a session returns it as stored, leaves the store
    of orders alone and restarts the expiry: the session is then found,
    unchanged, at every time before the time of the read plus the session
    timeout, whatever its expiry was before. *)
Theorem get_session_restarts_expiry settings now phone w d :
  0 < SESSION_TIMEOUT_MINUTES settings →
  session_at (w_redis w) now phone = Some d →
  ∃ w', get_session settings now phone w = (Some (Some d), w') ∧
    w_db w' = w_db w ∧
    stored_session (w_redis w') phone = Some d ∧
    ∀ later, later < now + timedelta_seconds (session_timeout settings) →
      session_at (w_redis w') later phone = Some d.
Proof.
  intros Hpos Hs. rewrite get_session_run, Hs.
  eexists. split; [reflexivity|]. cbn [w_db w_redis]. split; [done|].
  destruct (refreshed_hit settings _ _ _ _ Hpos Hs) as (ex & -> & _).
  split.
  - unfold stored_session. by rewrite lookup_insert_eq.
  - intros later Hl. unfold session_at, live. rewrite lookup_insert_eq.
    cbn [r_expiry r_val].
    destruct (Z.leb_spec (now + timedelta_seconds (session_timeout settings)) later);
      [lia | done].
Qed.

Lemma get_session_restarts_expiry_witness :
  let phone := py "923001234567" in
  let d : dict := {[py "customer_name" := JStr (py "Ali")]} in
  let w := {| w_redis :=
                {[_get_session_key phone :=
                    {| r_val := RString d; r_expiry := Some (sample_now + 1) |}]};
              w_db := {| orders := []; next_order_id := 1 |} |} in
  ∃ w', get_session default_settings sample_now phone w = (Some (Some d), w') ∧
    w_db w' = w_db w ∧
    stored_session (w_redis w') phone = Some d ∧
    ∀ later, later < sample_now + timedelta_seconds (session_timeout default_settings) →
      session_at (w_redis w') later phone = Some d.
Proof.
  intros phone d w.
  apply (get_session_restarts_expiry default_settings sample_now phone w d).
  - reflexivity.
  - vm_compute. reflexivity.
Defined.

(** X2.  [get_session] never raises.  When the key is absent, expired or
    holds a value that is not a session, it returns [None] and changes
    nothing. *)
Theorem get_session_miss settings now phone w :
  (∃ r w', get_session settings now phone w = (Some r, w')) ∧
  (session_at (w_redis w) now phone = None →
   get_session settings now phone w = (Some None, w)) ∧
  (w_redis w !! _get_session_key phone = None →
   get_session settings now phone w = (Some None, w)) ∧
  (∀ d deadline,
     w_redis w !! _get_session_key phone
       = Some {| r_val := RString d; r_expiry := Some deadline |} →
     deadline ≤ now →
     get_session settings now phone w = (Some None, w)) ∧
  (∀ h ex,
     w_redis w !! _get_session_key phone
       = Some {| r_val := RHash h; r_expiry := ex |} →
     get_session settings now phone w = (Some None, w)).
Proof.
  pose proof (get_session_none settings now phone w) as Hmiss.
  split; [apply get_session_total|]. split; [exact Hmiss|].
  split; [|split].
  - intros H. apply Hmiss. unfold session_at, live. by rewrite H.
  - intros d dl H Hdl. apply Hmiss. unfold session_at, live. rewrite H.
    cbn [r_expiry]. destruct (Z.leb_spec dl now); [done | lia].
  - intros h ex H. apply Hmiss. unfold session_at, live. rewrite H.
    cbn [r_expiry]. destruct ex as [dl|]; [destruct (dl <=? now)|]; done.
Qed.

Lemma get_session_miss_witness :
  let phone := py "923001234567" in
  let w := {| w_redis :=
                {[_get_session_key phone :=
                    {| r_val := RString ∅; r_expiry := Some sample_now |}]};
              w_db := {| orders := []; next_order_id := 1 |} |} in
  get_session default_settings sample_now phone w = (Some None, w).
Proof.
  intros phone w.
  apply (proj1 (proj2 (proj2 (proj2
           (get_session_miss default_settings sample_now phone w)))) ∅ sample_now).
  - vm_compute. reflexivity.
  - lia.
Defined.

(** X3.  What [set_session] stores is read back, with the stamp of the
    write, by a [get_session] made before the time of the write plus the
    session timeout; made at or after that time on the session as it was
    written, the read finds nothing and changes nothing. *)
Theorem set_session_then_get_session settings t t' phone d w :
  0 < SESSION_TIMEOUT_MINUTES settings →
  ∃ w1, set_session settings t phone d w = (Some tt, w1) ∧
    (t' < t + timedelta_seconds (session_timeout settings) →
     (get_session settings t' phone w1).1
       = Some (Some (<[py "last_activity" := JStr (isoformat t)]> d))) ∧
    (t + timedelta_seconds (session_timeout settings) ≤ t' →
     get_session settings t' phone w1 = (Some None, w1)).
Proof.
  intros Hpos. rewrite (set_session_run settings Hpos). eexists.
  split; [reflexivity|]. split.
  - intros Hlt. rewrite get_session_run. cbn [fst w_redis].
    by rewrite (session_at_insert settings) by exact Hlt.
  - intros Hge. apply get_session_none. cbn [w_redis].
    unfold session_at, live. rewrite lookup_insert_eq.
    cbn [session_entry r_expiry r_val].
    destruct (Z.leb_spec (t + timedelta_seconds (session_timeout settings)) t');
      [done | lia].
Qed.

Lemma set_session_then_get_session_witness :
  let phone := py "923001234567" in
  let d : dict := {[py "pending_address" := JBool true]} in
  ∃ w1, set_session default_settings sample_now phone d sample_world = (Some tt, w1) ∧
    (get_session default_settings (sample_now + timedelta_minutes 59) phone w1).1
      = Some (Some (<[py "last_activity" := JStr (isoformat sample_now)]> d)) ∧
    get_session default_settings (sample_now + timedelta_minutes 60) phone w1
      = (Some None, w1).
Proof.
  intros phone d.
  destruct (set_session_then_get_session default_settings sample_now
              (sample_now + timedelta_minutes 59) phone d sample_world)
    as (w1 & Hrun & Hhit & _); [reflexivity|].
  destruct (set_session_then_get_session default_settings sample_now
              (sample_now + timedelta_minutes 60) phone d sample_world)
    as (w1' & Hrun' & _ & Hmiss); [reflexivity|].
  rewrite Hrun in Hrun'. injection Hrun' as <-.
  exists w1. split; [exact Hrun|]. split.
  - apply Hhit. vm_compute. reflexivity.
  - apply Hmiss. vm_compute. intros H; discriminate H.
Defined.

Lemma delete_session_run phone w :
  delete_session phone w =
  (Some tt, {| w_redis := delete (_get_session_key phone) (w_redis w);
               w_db := w_db w |}).
Proof. reflexivity. Qed.

Lemma get_conversation_history_run settings now phone w :
  get_conversation_history settings now phone w =
  (Some (match session_at (w_redis w) now phone with
         | Some session =>
             if truthy (JObj session)
             then default (JArr []) (session !! py "conversation")
             else JArr []
         | None => JArr []
         end),
   {| w_redis := refreshed settings (w_redis w) now phone; w_db := w_db w |}).
Proof.
  unfold get_conversation_history.
  rewrite (bind_run _ _ _ _ _ (get_session_run settings now phone w)).
  destruct (session_at (w_redis w) now phone) as [d|]; [|done].
  by destruct (truthy (JObj d)).
Qed.

Lemma truthy_insert (k : text) (v : json) (d : dict) :
  truthy (JObj (<[k := v]> d)) = true.
Proof.
  cbn [truthy]. apply negb_true_iff, bool_decide_eq_false, insert_non_empty.
Qed.

(** X4.  After [delete_session] no read finds the session, at any time; the
    orders and the sessions of the other phone numbers are as before. *)
Theorem delete_session_forgets settings phone w :
  ∃ w', delete_session phone w = (Some tt, w') ∧
    w_db w' = w_db w ∧
    (∀ now, get_session settings now phone w' = (Some None, w')) ∧
    (∀ now, (get_conversation_history settings now phone w').1 = Some (JArr [])) ∧
    (∀ other now, other ≠ phone →
       session_at (w_redis w') now other = session_at (w_redis w) now other).
Proof.
  rewrite delete_session_run. eexists. split; [reflexivity|].
  cbn [w_db w_redis]. split; [done|].
  assert (Hgone : ∀ now,
    session_at (delete (_get_session_key phone) (w_redis w)) now phone = None).
  { intros now. unfold session_at, live. by rewrite lookup_delete_eq. }
  split; [|split].
  - intros now. apply get_session_none. apply Hgone.
  - intros now. rewrite get_conversation_history_run. cbn [fst w_redis].
    by rewrite Hgone.
  - intros other now Hne. apply (session_at_only_touches (_get_session_key phone)).
    + apply only_touches_delete.
    + intros H. by apply Hne, _get_session_key_inj.
Qed.

(** X5.  The commands of the session store on one phone number leave the
    session of every other phone number as it is, whether they succeed or
    raise. *)
Theorem session_commands_are_per_phone settings now phone other w t :
  other ≠ phone →
  session_at (w_redis (get_session settings now phone w).2) t other
    = session_at (w_redis w) t other ∧
  (∀ d, session_at (w_redis (set_session settings now phone d w).2) t other
        = session_at (w_redis w) t other) ∧
  (∀ u, session_at (w_redis (update_session settings now phone u w).2) t other
        = session_at (w_redis w) t other) ∧
  (∀ role message,
     session_at (w_redis (add_to_conversation settings now phone role message w).2) t other
       = session_at (w_redis w) t other) ∧
  session_at (w_redis (delete_session phone w).2) t other
    = session_at (w_redis w) t other.
Proof.
  intros Hne.
  assert (Hk : _get_session_key other ≠ _get_session_key phone).
  { intros H. by apply Hne, _get_session_key_inj. }
  repeat split; intros;
    apply (session_at_only_touches (_get_session_key phone)); try exact Hk.
  - apply get_session_only_touches.
  - apply set_session_only_touches.
  - apply update_session_only_touches.
  - apply add_to_conversation_only_touches.
  - apply only_touches_delete.
Qed.

Lemma session_commands_are_per_phone_witness :
  let phone := py "923001234567" in
  let other := py "923007654321" in
  let w1 := (update_session default_settings sample_now other
               {[py "customer_name" := JStr (py "Sara")]} sample_world).2 in
  session_at
    (w_redis (add_to_conversation default_settings (sample_now + 5) phone
                (py "user") (py "hi") w1).2) (sample_now + 9) other
  = session_at (w_redis w1) (sample_now + 9) other.
Proof.
  intros phone other w1.
  apply (session_commands_are_per_phone default_settings (sample_now + 5)
           phone other w1 (sample_now + 9)).
  vm_compute. intros H; discriminate H.
Defined.

(** X6.  A message appended to a session whose transcript is a list is the
    last entry of the history read back before the session expires, after
    the last entries of the old transcript; the history read back has at
    most twenty entries. *)
Theorem history_after_append settings t t' phone role message w conv :
  0 < SESSION_TIMEOUT_MINUTES settings →
  transcript (default ∅ (session_at (w_redis w) t phone)) = Some conv →
  t' < t + timedelta_seconds (session_timeout settings) →
  ∃ w1 l,
    add_to_conversation settings t phone role message w = (Some tt, w1) ∧
    (get_conversation_history settings t' phone w1).1 = Some (JArr l) ∧
    l = last20 (conv ++ [conversation_entry t role message]) ∧
    last l = Some (conversation_entry t role message) ∧
    (length l ≤ 20)%nat.
Proof.
  intros Hpos Hconv Hlt.
  rewrite (add_to_conversation_run settings Hpos _ _ _ _ _ _ Hconv).
  eexists _, _. split; [reflexivity|].
  rewrite get_conversation_history_run. cbn [fst w_redis].
  rewrite (session_at_insert settings) by exact Hlt.
  rewrite truthy_insert.
  rewrite lookup_insert_ne by key_ne. rewrite lookup_insert_eq. cbn [default].
  split; [reflexivity|]. split; [reflexivity|]. split; [|apply last20_length].
  unfold last20. rewrite length_app. cbn [length].
  rewrite drop_app_le by lia. apply last_snoc.
Qed.

Lemma history_after_append_witness :
  let phone := py "923001234567" in
  ∃ w1 l,
    add_to_conversation default_settings sample_now phone (py "user") (py "hi")
      sample_world = (Some tt, w1) ∧
    (get_conversation_history default_settings (sample_now + 1000000) phone w1).1
      = Some (JArr l) ∧
    l = last20 ([] ++ [conversation_entry sample_now (py "user") (py "hi")]) ∧
    last l = Some (conversation_entry sample_now (py "user") (py "hi")) ∧
    (length l ≤ 20)%nat.
Proof.
  intros phone.
  apply (history_after_append default_settings sample_now (sample_now + 1000000)
           phone (py "user") (py "hi") sample_world []).
  - reflexivity.
  - reflexivity.
  - reflexivity.
Defined.

(** X7.  On a session whose [conversation] is not a list, the append
    raises; the session keeps its content and the orders are untouched. *)
Theorem add_to_conversation_rejects_non_list settings now phone role message w d v :
  0 < SESSION_TIMEOUT_MINUTES settings →
  session_at (w_redis w) now phone = Some d →
  d !! py "conversation" = Some v →
  (∀ l, v ≠ JArr l) →
  ∃ w', add_to_conversation settings now phone role message w = (None, w') ∧
    w_db w' = w_db w ∧
    stored_session (w_redis w') phone = Some d.
Proof.
  intros Hpos Hs Hv Hnl. unfold add_to_conversation.
  rewrite (bind_run _ _ _ _ _ (get_session_run settings now phone w)).
  rewrite Hs. change (default ∅ (Some d)) with d. rewrite Hv.
  destruct (refreshed_hit settings _ _ _ _ Hpos Hs) as (ex & HR & _).
  assert (Hst : stored_session (refreshed settings (w_redis w) now phone) phone
                = Some d).
  { rewrite HR. unfold stored_session. by rewrite lookup_insert_eq. }
  destruct v; try (eexists; split; [reflexivity|]; by split).
  by destruct (Hnl l).
Qed.

Lemma add_to_conversation_rejects_non_list_witness :
  let phone := py "923001234567" in
  let d : dict := {[py "conversation" := JStr (py "lost")]} in
  let w := {| w_redis :=
                {[_get_session_key phone :=
                    {| r_val := RString d; r_expiry := None |}]};
              w_db := {| orders := []; next_order_id := 1 |} |} in
  ∃ w', add_to_conversation default_settings sample_now phone (py "user") (py "hi") w
          = (None, w') ∧
    w_db w' = w_db w ∧
    stored_session (w_redis w') phone = Some d.
Proof.
  intros phone d w.
  apply (add_to_conversation_rejects_non_list default_settings sample_now phone
           (py "user") (py "hi") w d (JStr (py "lost"))).
  - reflexivity.
  - vm_compute. reflexivity.
  - vm_compute. reflexivity.
  - intros l H. discriminate H.
Defined.

(** X8.  An append changes two keys of the session only: every key but
    [conversation] and [last_activity] keeps the value the session had, or
    stays absent. *)
Theorem add_to_conversation_keeps_fields settings now phone role message w w' :
  0 < SESSION_TIMEOUT_MINUTES settings →
  add_to_conversation settings now phone role message w = (Some tt, w') →
  w_db w' = w_db w ∧
  ∃ stored, stored_session (w_redis w') phone = Some stored ∧
    ∀ k, k ≠ py "conversation" → k ≠ py "last_activity" →
      stored !! k = default ∅ (session_at (w_redis w) now phone) !! k.
Proof.
  intros Hpos Hrun.
  set (prior := default ∅ (session_at (w_redis w) now phone)) in *.
  destruct (transcript prior) as [conv|] eqn:Hconv.
  - rewrite (add_to_conversation_run settings Hpos _ _ _ _ _ _ Hconv) in Hrun.
    injection Hrun as <-. cbn [w_db w_redis]. split; [done|].
    eexists. unfold stored_session. rewrite lookup_insert_eq.
    split; [reflexivity|]. intros k H1 H2.
    by rewrite !lookup_insert_ne by done.
  - exfalso. unfold add_to_conversation in Hrun.
    rewrite (bind_run _ _ _ _ _ (get_session_run settings now phone w)) in Hrun.
    fold prior in Hrun. unfold transcript in Hconv.
    destruct (prior !! py "conversation") as [[]|]; try discriminate Hconv;
      by run.
Qed.

Lemma add_to_conversation_keeps_fields_witness :
  let phone := py "923001234567" in
  let w := (update_session default_settings sample_now phone
              {[py "pending_address" := JBool true]} sample_world).2 in
  let w' := (add_to_conversation default_settings (sample_now + 5) phone
               (py "user") (py "hi") w).2 in
  w_db w' = w_db w ∧
  ∃ stored, stored_session (w_redis w') phone = Some stored ∧
    ∀ k, k ≠ py "conversation" → k ≠ py "last_activity" →
      stored !! k = default ∅ (session_at (w_redis w) (sample_now + 5) phone) !! k.
Proof.
  intros phone w w'.
  apply (add_to_conversation_keeps_fields default_settings (sample_now + 5) phone
           (py "user") (py "hi") w w').
  - reflexivity.
  - vm_compute. reflexivity.
Defined.

(** X9.  With a session timeout that is not positive no session can be
    written: [set_session] raises and changes nothing, and
    [update_session] and [add_to_conversation] raise and leave no live
    session behind. *)
Theorem session_writes_need_positive_timeout settings now phone w :
  SESSION_TIMEOUT_MINUTES settings ≤ 0 →
  (∀ d, set_session settings now phone d w = (None, w)) ∧
  (∀ u, ∃ w', update_session settings now phone u w = (None, w') ∧
     w_db w' = w_db w ∧ session_at (w_redis w') now phone = None) ∧
  (∀ role message, ∃ w',
     add_to_conversation settings now phone role message w = (None, w') ∧
     w_db w' = w_db w ∧ session_at (w_redis w') now phone = None).
Proof.
  intros Hle.
  assert (Hsecs : (0 <? session_timeout settings) = false).
  { apply Z.ltb_ge. unfold session_timeout. lia. }
  assert (Hset : ∀ d w0, set_session settings now phone d w0 = (None, w0)).
  { intros d [R db]. unfold set_session, redis_setex. run. by rewrite Hsecs. }
  assert (Hgone : session_at (refreshed settings (w_redis w) now phone) now phone
                  = None).
  { unfold refreshed.
    destruct (session_at (w_redis w) now phone) as [d|] eqn:Hs; [|exact Hs].
    unfold redis_expire. unfold session_at in Hs.
    destruct (live (w_redis w) now (_get_session_key phone)); [|done].
    rewrite Hsecs. unfold session_at, live. by rewrite lookup_delete_eq. }
  split; [intros d; apply Hset|]. split.
  - intros u. unfold update_session.
    rewrite (bind_run _ _ _ _ _ (get_session_run settings now phone w)).
    rewrite Hset. eexists. split; [reflexivity|]. by split.
  - intros role message. unfold add_to_conversation.
    rewrite (bind_run _ _ _ _ _ (get_session_run settings now phone w)).
    set (prior := default ∅ (session_at (w_redis w) now phone)).
    destruct (prior !! py "conversation") as [[]|];
      try (eexists; split; [reflexivity|]; by split).
    + rewrite bind_mret, Hset. eexists. split; [reflexivity|]. by split.
    + rewrite bind_mret, Hset. eexists. split; [reflexivity|]. by split.
Qed.

Lemma session_writes_need_positive_timeout_witness :
  let settings := {| SESSION_TIMEOUT_MINUTES := 0; FEEDBACK_DELAY_MINUTES := 30 |} in
  set_session settings sample_now (py "923001234567")
    {[py "pending_address" := JBool true]} sample_world
  = (None, sample_world).
Proof.
  intros settings.
  apply (session_writes_need_positive_timeout settings sample_now
           (py "923001234567") sample_world).
  vm_compute. intros H; discriminate H.
Defined.

(** ** Orders *)

(** A body under [try] whose handler only logs never raises. *)
Lemma try_except_unit (m : M unit) w :
  ∃ w', try_except m (mret tt) w = (Some tt, w').
Proof. unfold try_except. destruct (m w) as [[[]|] w']; eauto. Qed.

Lemma filter_id_absent (l : list Order) id :
  (∀ o, o ∈ l → order_id o ≠ id) → filter (λ o, order_id o = id) l = [].
Proof.
  induction l as [|x l IH]; intros H; [done|].
  rewrite filter_cons_False.
  - apply IH. intros o Ho. apply H. by right.
  - apply H. by left.
Qed.

Lemma filter_id_unique (l : list Order) o :
  NoDup (order_id <$> l) → o ∈ l →
  filter (λ x, order_id x = order_id o) l = [o].
Proof.
  induction l as [|x l IH]; intros Hnd Ho; [by apply elem_of_nil in Ho|].
  rewrite fmap_cons in Hnd. apply NoDup_cons in Hnd as [Hx Hnd].
  apply elem_of_cons in Ho as [->|Ho].
  - rewrite filter_cons_True by done. f_equal.
    apply filter_id_absent. intros o' Ho' E. apply Hx.
    rewrite <- E. by apply list_elem_of_fmap_2.
  - rewrite filter_cons_False; [by apply IH|].
    intros E. apply Hx. rewrite E. by apply list_elem_of_fmap_2.
Qed.

Lemma select_order_found id w o :
  db_ok (w_db w) → o ∈ orders (w_db w) → order_id o = id →
  select_order id w = (Some (Some o), w).
Proof.
  intros [Hnd _] Ho <-. unfold select_order.
  unfold mbind, M_bind, bind, get_db. by rewrite filter_id_unique.
Qed.

Lemma select_order_absent id w :
  (∀ o, o ∈ orders (w_db w) → order_id o ≠ id) →
  select_order id w = (Some None, w).
Proof.
  intros H. unfold select_order.
  unfold mbind, M_bind, bind, get_db. by rewrite filter_id_absent.
Qed.

(** Replacing the row of an identifier keeps the identifiers. *)
Lemma replace_row_ids (l : list Order) o' :
  order_id <$> ((λ o, if bool_decide (order_id o = order_id o') then o' else o) <$> l)
  = order_id <$> l.
Proof.
  rewrite <- list_fmap_compose. apply list_fmap_ext. intros i o _. cbn.
  by case_bool_decide.
Qed.

Lemma replace_row_elem (l : list Order) o o' :
  o ∈ l → order_id o' = order_id o →
  o' ∈ (λ x, if bool_decide (order_id x = order_id o') then o' else x) <$> l.
Proof.
  intros Ho E. apply list_elem_of_fmap. exists o. split; [|done].
  by rewrite bool_decide_eq_true_2.
Qed.

Lemma replace_row_other (l : list Order) o' x :
  order_id x ≠ order_id o' →
  x ∈ (λ o, if bool_decide (order_id o = order_id o') then o' else o) <$> l ↔ x ∈ l.
Proof.
  intros Hne. rewrite list_elem_of_fmap. split.
  - intros (y & Hx & Hy). destruct (decide (order_id y = order_id o')) as [E|E].
    + rewrite bool_decide_eq_true_2 in Hx by done. by subst x.
    + rewrite bool_decide_eq_false_2 in Hx by done. by subst x.
  - intros Hx. exists x. split; [|done]. by rewrite bool_decide_eq_false_2.
Qed.

Lemma db_ok_replace db o' :
  db_ok db →
  db_ok {| orders :=
             (λ o, if bool_decide (order_id o = order_id o') then o' else o)
               <$> orders db;
           next_order_id := next_order_id db |}.
Proof.
  intros [Hnd Hlt]. split; cbn [orders next_order_id].
  - by rewrite replace_row_ids.
  - apply Forall_fmap. eapply Forall_impl; [exact Hlt|].
    intros o Ho. cbn. case_bool_decide as E; [by rewrite <- E | done].
Qed.

Section OrderFacts.
Variable commit_ok : Order → bool.
Hypothesis commits : ∀ o, commit_ok o = true.

Lemma commit_row_run o' w :
  commit_row commit_ok o' w =
  (Some tt,
   {| w_redis := w_redis w;
      w_db := {| orders :=
                   (λ o, if bool_decide (order_id o = order_id o') then o' else o)
                     <$> orders (w_db w);
                 next_order_id := next_order_id (w_db w) |} |}).
Proof. unfold commit_row. by rewrite commits. Qed.

Lemma get_order_found id w o :
  db_ok (w_db w) → o ∈ orders (w_db w) → order_id o = id →
  get_order id w = (Some (Some o), w).
Proof.
  intros Hok Ho E. unfold get_order, try_except.
  by rewrite (select_order_found id w o).
Qed.

End OrderFacts.

Lemma db_ok_create db o :
  db_ok db → order_id o = next_order_id db →
  db_ok {| orders := orders db ++ [o]; next_order_id := next_order_id db + 1 |}.
Proof.
  intros [Hnd Hlt] E. split; cbn [orders next_order_id].
  - rewrite fmap_app. apply NoDup_app. split; [done|]. split.
    + intros x Hx. cbn. rewrite list_elem_of_singleton. intros ->.
      apply list_elem_of_fmap in Hx as (y & Hy & Hin).
      rewrite Forall_forall in Hlt. specialize (Hlt _ Hin). lia.
    + cbn. apply NoDup_singleton.
  - apply Forall_app. split.
    + eapply Forall_impl; [exact Hlt|]. intros; cbn in *; lia.
    + apply Forall_singleton. lia.
Qed.

(** X10.  An order created on a table whose identifiers are unique and
    below the next one gets the next identifier, is read back by
    [get_order] as it was created, and changes the answer of [get_order]
    for no other identifier; the table keeps its shape. *)
Theorem create_order_then_get_order commit_ok now stamp cid ot items total
    addr lat lon w :
  (∀ o, commit_ok o = true) →
  db_ok (w_db w) →
  ∃ o w1,
    create_order commit_ok now stamp cid ot items total addr lat lon w
      = (Some o, w1) ∧
    order_id o = next_order_id (w_db w) ∧
    db_ok (w_db w1) ∧
    get_order (order_id o) w1 = (Some (Some o), w1) ∧
    (∀ id, id ≠ order_id o → (get_order id w1).1 = (get_order id w).1).
Proof.
  intros Hc Hok. rewrite (create_order_run commit_ok Hc). cbv zeta.
  eexists _, _. split; [reflexivity|]. cbn [order_id w_db].
  split; [done|].
  assert (Hok1 := db_ok_create (w_db w) _ Hok
                    (eq_refl : order_id
                       {| order_id := next_order_id (w_db w);
                          order_customer_id := cid; order_type := ot;
                          order_status := PENDING; order_items := items;
                          order_total_price := total;
                          order_delivery_address := addr;
                          order_delivery_latitude := lat;
                          order_delivery_longitude := lon;
                          order_estimated_completion_time :=
                            Some (now + timedelta_minutes (minutes_map ot));
                          order_completed_at := None;
                          order_feedback_requested := false;
                          order_feedback := None;
                          order_created_at := stamp;
                          order_updated_at := stamp |} = _)).
  split; [exact Hok1|]. split.
  - apply get_order_found; [exact Hok1| |done].
    cbn [w_db orders]. apply elem_of_app. right. by apply list_elem_of_singleton.
  - intros id Hid. unfold get_order, try_except, select_order.
    unfold mbind, M_bind, bind, get_db. cbn [w_db orders].
    rewrite filter_app, filter_cons_False by (cbn; congruence).
    rewrite filter_nil, app_nil_r.
    by destruct (scalar_one_or_none _) as [|].
Qed.

Lemma create_order_then_get_order_witness :
  ∃ o w1,
    create_order (λ _, true) sample_now sample_now 1 TAKEAWAY
      (JArr []) (JInt 650) JNull JNull JNull sample_world = (Some o, w1) ∧
    order_id o = 1 ∧
    get_order (order_id o) w1 = (Some (Some o), w1).
Proof.
  destruct (create_order_then_get_order (λ _, true) sample_now sample_now 1
              TAKEAWAY (JArr []) (JInt 650) JNull JNull JNull sample_world)
    as (o & w1 & H1 & H2 & _ & H3 & _).
  - reflexivity.
  - split; [apply NoDup_nil_2 | apply Forall_nil_2].
  - exists o, w1. by repeat split.
Defined.

(** X11.  [update_order_status] on a stored order sets the status and the
    update time; it sets the completion time when the status is
    [COMPLETED] and keeps it otherwise; [get_order] reads the changed row
    back and the other rows are as before.  An order completed this way,
    without feedback asked or given, is due for a feedback request exactly
    from the completion time plus the configured delay. *)
Theorem update_order_status_completes settings commit_ok t t' status w o :
  (∀ o, commit_ok o = true) →
  db_ok (w_db w) →
  o ∈ orders (w_db w) →
  ∃ o' w1,
    update_order_status commit_ok t t' (order_id o) status w = (Some (Some o'), w1) ∧
    w_redis w1 = w_redis w ∧
    db_ok (w_db w1) ∧
    order_id o' = order_id o ∧
    order_status o' = status ∧
    order_updated_at o' = t ∧
    order_completed_at o'
      = match status with COMPLETED => Some t' | _ => order_completed_at o end ∧
    get_order (order_id o) w1 = (Some (Some o'), w1) ∧
    (∀ x, order_id x ≠ order_id o → x ∈ orders (w_db w1) ↔ x ∈ orders (w_db w)) ∧
    (status = COMPLETED →
     order_feedback_requested o = false →
     (order_feedback o = None ∨ order_feedback o = Some []) →
     ∀ now, should_request_feedback settings now o' = true ↔
            t' + timedelta_minutes (FEEDBACK_DELAY_MINUTES settings) ≤ now).
Proof.
  intros Hc Hok Ho. unfold update_order_status.
  rewrite (bind_run _ _ _ _ _ (select_order_found _ w o Hok Ho eq_refl)).
  cbv zeta.
  set (o' := with_status status t _ o).
  rewrite (bind_run _ _ _ _ _ (commit_row_run commit_ok Hc o' w)).
  exists o'. eexists. split; [reflexivity|]. cbn [w_redis w_db].
  split; [done|].
  assert (Hok1 := db_ok_replace (w_db w) o' Hok).
  split; [exact Hok1|].
  split; [done|]. split; [done|]. split; [done|]. split; [done|].
  split; [|split].
  - apply get_order_found; [exact Hok1| |done].
    cbn [w_db orders]. by apply (replace_row_elem _ o).
  - intros x Hx. cbn [orders]. by apply replace_row_other.
  - intros -> Hreq Hfb now. unfold should_request_feedback.
    cbn [o' with_status order_feedback_requested order_feedback order_completed_at].
    rewrite Hreq. cbn [orb].
    assert (Hf : truthy (of_opt_str (order_feedback o)) = false)
      by (by destruct Hfb as [-> | ->]).
    rewrite Hf. rewrite Z.leb_le. lia.
Qed.

Lemma update_order_status_completes_witness :
  let o :=
    {| order_id := 1; order_customer_id := 1; order_type := TAKEAWAY;
       order_status := READY; order_items := JArr [];
       order_total_price := JInt 650; order_delivery_address := JNull;
       order_delivery_latitude := JNull; order_delivery_longitude := JNull;
       order_estimated_completion_time := None; order_completed_at := None;
       order_feedback_requested := false; order_feedback := None;
       order_created_at := sample_now; order_updated_at := sample_now |} in
  let w := {| w_redis := ∅; w_db := {| orders := [o]; next_order_id := 2 |} |} in
  let t := sample_now + timedelta_minutes 20 in
  ∃ o' w1,
    update_order_status (λ _, true) t t 1 COMPLETED w = (Some (Some o'), w1) ∧
    order_status o' = COMPLETED ∧
    ∀ now, should_request_feedback default_settings now o' = true ↔
           t + timedelta_minutes 30 ≤ now.
Proof.
  intros o w t.
  destruct (update_order_status_completes default_settings (λ _, true) t t
              COMPLETED w o)
    as (o' & w1 & H1 & _ & _ & _ & H2 & _ & _ & _ & _ & H3).
  - reflexivity.
  - split.
    + apply NoDup_singleton.
    + apply Forall_singleton. reflexivity.
  - apply list_elem_of_singleton. reflexivity.
  - exists o', w1. split; [exact H1|]. split; [exact H2|].
    apply H3; [reflexivity | reflexivity | left; reflexivity].
Defined.

(** X12.  After [mark_feedback_requested] the stored order is never due
    for a feedback request again, whatever the delay and the time; the
    method itself never raises. *)
Theorem mark_feedback_requested_stops_requests commit_ok w o :
  (∀ w0 id, ∃ w', mark_feedback_requested commit_ok id w0 = (Some tt, w')) ∧
  ((∀ o, commit_ok o = true) →
   db_ok (w_db w) →
   o ∈ orders (w_db w) →
   ∃ o' w1,
     mark_feedback_requested commit_ok (order_id o) w = (Some tt, w1) ∧
     get_order (order_id o) w1 = (Some (Some o'), w1) ∧
     o' = with_feedback_requested o ∧
     ∀ settings now, should_request_feedback settings now o' = false).
Proof.
  split.
  - intros w0 id. apply try_except_unit.
  - intros Hc Hok Ho. unfold mark_feedback_requested.
    exists (with_feedback_requested o). eexists. split.
    { apply try_except_run.
      rewrite (bind_run _ _ _ _ _ (select_order_found _ w o Hok Ho eq_refl)).
      apply (commit_row_run commit_ok Hc). }
    split; [|split; [done|]].
    + apply get_order_found; [by apply db_ok_replace| |done].
      cbn [w_db orders]. by apply (replace_row_elem _ o).
    + intros settings now. reflexivity.
Qed.

Lemma mark_feedback_requested_stops_requests_witness :
  let o :=
    {| order_id := 1; order_customer_id := 1; order_type := TAKEAWAY;
       order_status := COMPLETED; order_items := JArr [];
       order_total_price := JInt 650; order_delivery_address := JNull;
       order_delivery_latitude := JNull; order_delivery_longitude := JNull;
       order_estimated_completion_time := None;
       order_completed_at := Some sample_now;
       order_feedback_requested := false; order_feedback := None;
       order_created_at := sample_now; order_updated_at := sample_now |} in
  let w := {| w_redis := ∅; w_db := {| orders := [o]; next_order_id := 2 |} |} in
  ∃ o' w1,
    mark_feedback_requested (λ _, true) 1 w = (Some tt, w1) ∧
    get_order 1 w1 = (Some (Some o'), w1) ∧
    o' = with_feedback_requested o ∧
    ∀ settings now, should_request_feedback settings now o' = false.
Proof.
  intros o w.
  apply (proj2 (mark_feedback_requested_stops_requests (λ _, true) w o)).
  - reflexivity.
  - split.
    + apply NoDup_singleton.
    + apply Forall_singleton. reflexivity.
  - apply list_elem_of_singleton. reflexivity.
Defined.

Section DispatchMore.
Variable settings : Settings.
Variable commit_ok : Order → bool.

(** The [create_order] branch up to the construction of the order. *)
Lemma handle_action_create_order_raises clk action customer phone session w :
  dict_get action (py "type") = JStr (py "create_order") →
  match dict_get_or action (py "data") (JObj ∅) with
  | JObj data =>
      match OrderType_of (dict_get_or data (py "order_type") (JStr (py "dine_in"))) with
      | None => True
      | Some DELIVERY =>
          match dict_get_or session (py "location") (JObj ∅) with
          | JObj _ => ∀ o, commit_ok o = false
          | _ => True
          end
      | Some _ => ∀ o, commit_ok o = false
      end
  | _ => True
  end →
  handle_action settings commit_ok clk action customer phone session w = (Some tt, w).
Proof.
  intros Htype H. unfold handle_action. cbv zeta. rewrite Htype.
  change (str_eq (JStr (py "create_order")) (py "create_order")) with true.
  cbv iota.
  destruct (dict_get_or action (py "data") (JObj ∅)) as [| | | | | |data];
    try reflexivity.
  cbn [as_dict]. rewrite bind_mret.
  destruct (OrderType_of _) as [[| |]|]; [| | |reflexivity];
    cbn [of_option]; change (@ret OrderType ?x) with (@mret M _ _ x);
    rewrite bind_mret.
  - rewrite bind_mret. cbv iota beta. unfold create_order, try_except.
    unfold mbind, M_bind, bind, get_db. by rewrite H.
  - rewrite bind_mret. cbv iota beta. unfold create_order, try_except.
    unfold mbind, M_bind, bind, get_db. by rewrite H.
  - destruct (dict_get_or session (py "location") (JObj ∅))
      as [| | | | | |location]; try reflexivity.
    cbn [as_dict]. rewrite !bind_mret. cbv iota beta.
    unfold create_order, try_except.
    unfold mbind, M_bind, bind, get_db. by rewrite H.
Qed.

End DispatchMore.

(** X13.  A [create_order] command whose [data] is not an object, or whose
    [order_type] is not one of [dine_in], [takeaway] and [delivery],
    creates no order and writes no session; the dispatcher returns
    normally. *)
Theorem handle_action_rejects_bad_order settings commit_ok clk action customer
    phone session w :
  dict_get action (py "type") = JStr (py "create_order") →
  match dict_get_or action (py "data") (JObj ∅) with
  | JObj data =>
      OrderType_of (dict_get_or data (py "order_type") (JStr (py "dine_in"))) = None
  | _ => True
  end →
  handle_action settings commit_ok clk action customer phone session w = (Some tt, w).
Proof.
  intros Htype H. apply handle_action_create_order_raises; [done|].
  destruct (dict_get_or action (py "data") (JObj ∅)); try done.
  by rewrite H.
Qed.

Lemma handle_action_rejects_bad_order_witness :
  let action : dict :=
    <[py "type" := JStr (py "create_order")]>
      (<[py "data" := JObj (<[py "order_type" := JStr (py "pickup")]>
                              (<[py "total_price" := JInt 650]> ∅))]> ∅) in
  handle_action default_settings (λ _, true) sample_clock action sample_customer
    (py "923001234567") ∅ sample_world = (Some tt, sample_world).
Proof.
  intros action.
  apply (handle_action_rejects_bad_order default_settings (λ _, true) sample_clock
           action sample_customer (py "923001234567") ∅ sample_world).
  - vm_compute. reflexivity.
  - vm_compute. reflexivity.
Defined.

(** X14.  When the store refuses the new row, a [create_order] command
    leaves the orders and the session as they were, and the dispatcher
    returns normally. *)
Theorem handle_action_failed_commit settings commit_ok clk action customer
    phone session w :
  (∀ o, commit_ok o = false) →
  dict_get action (py "type") = JStr (py "create_order") →
  handle_action settings commit_ok clk action customer phone session w = (Some tt, w).
Proof.
  intros Hc Htype. apply handle_action_create_order_raises; [done|].
  destruct (dict_get_or action (py "data") (JObj ∅)); try done.
  destruct (OrderType_of _) as [[| |]|]; try done.
  by destruct (dict_get_or session (py "location") (JObj ∅)).
Qed.

Lemma handle_action_failed_commit_witness :
  handle_action default_settings (λ _, false) sample_clock takeaway_action
    sample_customer (py "923001234567") ∅ sample_world = (Some tt, sample_world).
Proof.
  apply (handle_action_failed_commit default_settings (λ _, false) sample_clock
           takeaway_action sample_customer (py "923001234567") ∅ sample_world).
  - reflexivity.
  - vm_compute. reflexivity.
Defined.

(** X15.  A dine-in or takeaway order carries no delivery address and no
    coordinates, whatever the command, the session and the profile
    hold. *)
Theorem handle_action_no_delivery_fields settings commit_ok clk action customer
    phone session w data ot :
  0 < SESSION_TIMEOUT_MINUTES settings →
  (∀ o, commit_ok o = true) →
  dict_get action (py "type") = JStr (py "create_order") →
  dict_get_or action (py "data") (JObj ∅) = JObj data →
  OrderType_of (dict_get_or data (py "order_type") (JStr (py "dine_in"))) = Some ot →
  ot ≠ DELIVERY →
  ∃ o w',
    handle_action settings commit_ok clk action customer phone session w
      = (Some tt, w') ∧
    orders (w_db w') = orders (w_db w) ++ [o] ∧
    order_type o = ot ∧
    order_delivery_address o = JNull ∧
    order_delivery_latitude o = JNull ∧
    order_delivery_longitude o = JNull.
Proof.
  intros Hpos Hc Htype Hdata Hot Hnd.
  destruct (handle_action_create_order settings commit_ok Hpos Hc clk action
              customer phone session w data ot Htype Hdata Hot)
    as (o & w' & Hrun & Hdb & _ & _ & _ & Ht & _ & _ & _ & _ & _ & Hdel);
    [by intros ->|].
  exists o, w'. split; [exact Hrun|]. rewrite Hdb. split; [done|].
  split; [exact Ht|].
  destruct ot; [| |done]; by injection Hdel as -> -> ->.
Qed.

Lemma handle_action_no_delivery_fields_witness :
  let data : dict :=
    <[py "order_type" := JStr (py "takeaway")]>
      (<[py "address" := JStr (py "9 Mall Road")]> ∅) in
  let action : dict :=
    <[py "type" := JStr (py "create_order")]> (<[py "data" := JObj data]> ∅) in
  let session : dict :=
    {[py "location" := JObj (<[py "latitude" := JInt 3]>
                               (<[py "longitude" := JInt 4]> ∅))]} in
  ∃ o w',
    handle_action default_settings (λ _, true) sample_clock action sample_customer
      (py "923001234567") session sample_world = (Some tt, w') ∧
    orders (w_db w') = orders (w_db sample_world) ++ [o] ∧
    order_type o = TAKEAWAY ∧
    order_delivery_address o = JNull ∧
    order_delivery_latitude o = JNull ∧
    order_delivery_longitude o = JNull.
Proof.
  intros data action session.
  apply (handle_action_no_delivery_fields default_settings (λ _, true)
           sample_clock action sample_customer (py "923001234567") session
           sample_world data TAKEAWAY).
  - reflexivity.
  - reflexivity.
  - vm_compute. reflexivity.
  - vm_compute. reflexivity.
  - vm_compute. reflexivity.
  - discriminate.
Defined.

(** X16.  The fields of a [create_order] command are not required: a
    command without [data], or with an empty one, creates a pending
    dine-in order with no items and a total of 0, due 20 minutes after the
    reading of the clock. *)
Theorem handle_action_order_defaults settings commit_ok clk action customer
    phone session w :
  0 < SESSION_TIMEOUT_MINUTES settings →
  (∀ o, commit_ok o = true) →
  action !! py "type" = Some (JStr (py "create_order")) →
  action !! py "data" = None ∨ action !! py "data" = Some (JObj ∅) →
  ∃ o w',
    handle_action settings commit_ok clk action customer phone session w
      = (Some tt, w') ∧
    orders (w_db w') = orders (w_db w) ++ [o] ∧
    order_type o = DINE_IN ∧
    order_status o = PENDING ∧
    order_items o = JArr [] ∧
    order_total_price o = JInt 0 ∧
    order_estimated_completion_time o = Some (at_order clk + timedelta_minutes 20).
Proof.
  intros Hpos Hc Htype Hdata.
  assert (Hd : dict_get_or action (py "data") (JObj ∅) = JObj ∅).
  { unfold dict_get_or. by destruct Hdata as [-> | ->]. }
  destruct (handle_action_create_order settings commit_ok Hpos Hc clk action
              customer phone session w ∅ DINE_IN)
    as (o & w' & Hrun & Hdb & _ & _ & _ & Ht & Hst & Hit & Htot & Hest & _);
    [unfold dict_get; by rewrite Htype | exact Hd | reflexivity | done |].
  exists o, w'. split; [exact Hrun|]. rewrite Hdb. by repeat split.
Qed.

Lemma handle_action_order_defaults_witness :
  let action : dict := {[py "type" := JStr (py "create_order")]} in
  ∃ o w',
    handle_action default_settings (λ _, true) sample_clock action sample_customer
      (py "923001234567") ∅ sample_world = (Some tt, w') ∧
    orders (w_db w') = orders (w_db sample_world) ++ [o] ∧
    order_type o = DINE_IN ∧
    order_status o = PENDING ∧
    order_items o = JArr [] ∧
    order_total_price o = JInt 0 ∧
    order_estimated_completion_time o
      = Some (at_order sample_clock + timedelta_minutes 20).
Proof.
  intros action.
  apply (handle_action_order_defaults default_settings (λ _, true) sample_clock
           action sample_customer (py "923001234567") ∅ sample_world).
  - reflexivity.
  - reflexivity.
  - vm_compute. reflexivity.
  - left. vm_compute. reflexivity.
Defined.

Section FeedbackFacts.
Variable commit_ok : Order → bool.

Lemma commit_row_accepts o' w :
  commit_ok o' = true →
  commit_row commit_ok o' w =
  (Some tt,
   {| w_redis := w_redis w;
      w_db := {| orders :=
                   (λ o, if bool_decide (order_id o = order_id o') then o' else o)
                     <$> orders (w_db w);
                 next_order_id := next_order_id (w_db w) |} |}).
Proof. intros H. unfold commit_row. by rewrite H. Qed.

Lemma commit_row_refuses o' w :
  commit_ok o' = false → commit_row commit_ok o' w = (None, w).
Proof. intros H. unfold commit_row. by rewrite H. Qed.

(** [save_feedback] never raises and leaves the session store alone. *)
Lemma save_feedback_frame id feedback w :
  ∃ db', save_feedback commit_ok id feedback w
         = (Some tt, {| w_redis := w_redis w; w_db := db' |}).
Proof.
  destruct w as [R db]. unfold save_feedback, try_except.
  destruct id as [| |z| | | |]; try (by eexists);
    destruct feedback as [| | | |f| |]; try (by eexists).
  unfold select_order, mbind, M_bind, bind, get_db. cbn [w_db].
  destruct (scalar_one_or_none _) as [[o|]|]; cbn [of_option ret raise];
    try (by eexists).
  unfold commit_row. destruct (commit_ok _); by eexists.
Qed.

Lemma save_feedback_stored z f w o :
  db_ok (w_db w) → o ∈ orders (w_db w) → order_id o = z →
  commit_ok (set_feedback f o) = true →
  save_feedback commit_ok (JInt z) (JStr f) w =
  (Some tt,
   {| w_redis := w_redis w;
      w_db := {| orders :=
                   (λ x, if bool_decide (order_id x = z) then set_feedback f o else x)
                     <$> orders (w_db w);
                 next_order_id := next_order_id (w_db w) |} |}).
Proof.
  intros Hok Ho Hz Hc. unfold save_feedback. apply try_except_run.
  rewrite (bind_run _ _ _ _ _ (select_order_found _ w o Hok Ho Hz)).
  rewrite (commit_row_accepts _ _ Hc). cbn [set_feedback order_id].
  by rewrite Hz.
Qed.

Lemma save_feedback_refused z f w o :
  db_ok (w_db w) → o ∈ orders (w_db w) → order_id o = z →
  commit_ok (set_feedback f o) = false →
  save_feedback commit_ok (JInt z) (JStr f) w = (Some tt, w).
Proof.
  intros Hok Ho Hz Hc. unfold save_feedback, try_except.
  rewrite (bind_run _ _ _ _ _ (select_order_found _ w o Hok Ho Hz)).
  by rewrite (commit_row_refuses _ _ Hc).
Qed.

Lemma save_feedback_absent z f w :
  (∀ o, o ∈ orders (w_db w) → order_id o ≠ z) →
  save_feedback commit_ok (JInt z) (JStr f) w = (Some tt, w).
Proof.
  intros H. unfold save_feedback, try_except.
  by rewrite (bind_run _ _ _ _ _ (select_order_absent _ w H)).
Qed.

End FeedbackFacts.

(** X17.  A [save_feedback] command with an integer identifier other than
    0 and a feedback text that is not empty always ends with the session
    holding [should_request_feedback] = [False], whatever the store did.
    When the table has the order and the commit succeeds, the text is
    stored on that order and on no other, and the order is never due for a
    feedback request again.  When the commit fails, or no order has the
    identifier, the table is as it was. *)
Theorem handle_action_save_feedback settings commit_ok clk action customer
    phone session w data z f :
  0 < SESSION_TIMEOUT_MINUTES settings →
  dict_get action (py "type") = JStr (py "save_feedback") →
  dict_get_or action (py "data") (JObj ∅) = JObj data →
  dict_get data (py "order_id") = JInt z → z ≠ 0 →
  dict_get data (py "feedback") = JStr f → f ≠ [] →
  ∃ w',
    handle_action settings commit_ok clk action customer phone session w
      = (Some tt, w') ∧
    (∃ stored,
       session_at (w_redis w') (at_session clk) phone = Some stored ∧
       stored !! py "should_request_feedback" = Some (JBool false)) ∧
    (∀ o, db_ok (w_db w) → o ∈ orders (w_db w) → order_id o = z →
       if commit_ok (set_feedback f o)
       then
         orders (w_db w')
           = (λ x, if bool_decide (order_id x = z) then set_feedback f o else x)
               <$> orders (w_db w) ∧
         set_feedback f o ∈ orders (w_db w') ∧
         (∀ x, order_id x ≠ z → x ∈ orders (w_db w') ↔ x ∈ orders (w_db w)) ∧
         (∀ settings' now,
            should_request_feedback settings' now (set_feedback f o) = false)
       else w_db w' = w_db w) ∧
    ((∀ o, o ∈ orders (w_db w) → order_id o ≠ z) → w_db w' = w_db w).
Proof.
  intros Hpos Htype Hdata Hid Hz Hf Hne.
  destruct (save_feedback_frame commit_ok (JInt z) (JStr f) w) as (db' & Hsave).
  unfold handle_action. cbv zeta. rewrite Htype, Hdata.
  change (str_eq (JStr (py "save_feedback")) (py "create_order")) with false.
  change (str_eq (JStr (py "save_feedback")) (py "save_feedback")) with true.
  cbv iota. cbn [as_dict]. rewrite bind_mret, Hid, Hf.
  assert (E : truthy (JInt z) && truthy (JStr f) = true).
  { cbn [truthy]. apply andb_true_iff. split.
    - apply negb_true_iff, Z.eqb_neq, Hz.
    - by destruct f. }
  rewrite E.
  eexists. split.
  { apply try_except_run. rewrite (bind_run _ _ _ _ _ Hsave).
    apply (update_session_run settings Hpos). }
  cbn [w_db w_redis]. split; [|split].
  - eexists. split.
    + apply (session_at_insert settings).
      pose proof (session_timeout_pos settings Hpos).
      unfold timedelta_seconds. lia.
    + rewrite lookup_insert_ne by key_ne. rewrite union_lookup_pref.
      by rewrite lookup_insert_eq.
  - intros o Hok Ho Ez. destruct (commit_ok (set_feedback f o)) eqn:Hc.
    + rewrite (save_feedback_stored commit_ok z f w o Hok Ho Ez Hc) in Hsave.
      injection Hsave as <-. cbn [orders]. split; [reflexivity|].
      split; [|split].
      * apply list_elem_of_fmap. exists o. split; [|done].
        by rewrite bool_decide_eq_true_2.
      * intros x Hx. rewrite list_elem_of_fmap. split.
        -- intros (y & Hy & Hin). destruct (decide (order_id y = z)) as [Ey|Ey].
           ++ rewrite bool_decide_eq_true_2 in Hy by done. by subst x.
           ++ rewrite bool_decide_eq_false_2 in Hy by done. by subst x.
        -- intros Hin. exists x. split; [|done]. by rewrite bool_decide_eq_false_2.
      * intros settings' now. unfold should_request_feedback.
        cbn [set_feedback order_feedback order_feedback_requested of_opt_str truthy].
        destruct f; [done|]. by rewrite orb_true_r.
    + rewrite (save_feedback_refused commit_ok z f w o Hok Ho Ez Hc) in Hsave.
      by apply (f_equal (λ r, w_db r.2)) in Hsave.
  - intros Habs. rewrite (save_feedback_absent commit_ok z f w Habs) in Hsave.
    by apply (f_equal (λ r, w_db r.2)) in Hsave.
Qed.

Lemma handle_action_save_feedback_witness :
  let o :=
    {| order_id := 1; order_customer_id := 1; order_type := TAKEAWAY;
       order_status := COMPLETED; order_items := JArr [];
       order_total_price := JInt 650; order_delivery_address := JNull;
       order_delivery_latitude := JNull; order_delivery_longitude := JNull;
       order_estimated_completion_time := None;
       order_completed_at := Some sample_now;
       order_feedback_requested := false; order_feedback := None;
       order_created_at := sample_now; order_updated_at := sample_now |} in
  let w := {| w_redis := ∅; w_db := {| orders := [o]; next_order_id := 2 |} |} in
  let data : dict :=
    <[py "order_id" := JInt 1]> (<[py "feedback" := JStr (py "Great food")]> ∅) in
  let action : dict :=
    <[py "type" := JStr (py "save_feedback")]> (<[py "data" := JObj data]> ∅) in
  let cleared w' :=
    ∃ stored,
      session_at (w_redis w') (at_session sample_clock) (py "923001234567")
        = Some stored ∧
      stored !! py "should_request_feedback" = Some (JBool false) in
  (∃ w',
     handle_action default_settings (λ _, true) sample_clock action sample_customer
       (py "923001234567") ∅ w = (Some tt, w') ∧
     cleared w' ∧
     orders (w_db w') = [set_feedback (py "Great food") o]) ∧
  (∃ w',
     handle_action default_settings (λ _, false) sample_clock action sample_customer
       (py "923001234567") ∅ w = (Some tt, w') ∧
     cleared w' ∧
     orders (w_db w') = [o]).
Proof.
  intros o w data action cleared.
  assert (Hok : db_ok (w_db w)).
  { split; [apply NoDup_singleton | apply Forall_singleton; reflexivity]. }
  assert (Ho : o ∈ orders (w_db w)) by (apply list_elem_of_singleton; reflexivity).
  split.
  - destruct (handle_action_save_feedback default_settings (λ _, true) sample_clock
                action sample_customer (py "923001234567") ∅ w data 1
                (py "Great food"))
      as (w' & H1 & H2 & H3 & _);
      [reflexivity | vm_compute; reflexivity | vm_compute; reflexivity
      | vm_compute; reflexivity | lia | vm_compute; reflexivity
      | vm_compute; intros H; discriminate H |].
    exists w'. split; [exact H1|]. split; [exact H2|].
    destruct (H3 o Hok Ho eq_refl) as (H4 & _). rewrite H4. reflexivity.
  - destruct (handle_action_save_feedback default_settings (λ _, false) sample_clock
                action sample_customer (py "923001234567") ∅ w data 1
                (py "Great food"))
      as (w' & H1 & H2 & H3 & _);
      [reflexivity | vm_compute; reflexivity | vm_compute; reflexivity
      | vm_compute; reflexivity | lia | vm_compute; reflexivity
      | vm_compute; intros H; discriminate H |].
    exists w'. split; [exact H1|]. split; [exact H2|].
    by rewrite (H3 o Hok Ho eq_refl).
Defined.

(** ** A shared location and the next delivery *)

(** X18.  The steps [process_message] takes on the session for a location
    message: the coordinates are put in the session, the message is
    appended to the transcript, and the session is read back.  When both
    coordinates are values Python takes as true and the steps are made
    before the session expires, a delivery order dispatched with the
    session read back, or with any session that has the same [location],
    is created with the coordinates of the message, whatever the profile
    holds and whatever was stored in between. *)
Theorem shared_location_reaches_delivery settings commit_ok clk action customer
    phone w data latitude longitude t1 t2 t3 message conv :
  0 < SESSION_TIMEOUT_MINUTES settings →
  (∀ o, commit_ok o = true) →
  truthy latitude = true →
  truthy longitude = true →
  transcript (default ∅ (session_at (w_redis w) t1 phone)) = Some conv →
  t2 < t1 + timedelta_seconds (session_timeout settings) →
  t3 < t2 + timedelta_seconds (session_timeout settings) →
  dict_get action (py "type") = JStr (py "create_order") →
  dict_get_or action (py "data") (JObj ∅) = JObj data →
  dict_get_or data (py "order_type") (JStr (py "dine_in")) = JStr (py "delivery") →
  ∃ w1 w2 session w3,
    update_session settings t1 phone (location_update latitude longitude) w
      = (Some tt, w1) ∧
    add_to_conversation settings t2 phone (py "user") message w1 = (Some tt, w2) ∧
    get_session settings t3 phone w2 = (Some (Some session), w3) ∧
    ∀ session' w',
      session' !! py "location" = session !! py "location" →
      ∃ o w4,
        handle_action settings commit_ok clk action customer phone session' w'
          = (Some tt, w4) ∧
        orders (w_db w4) = orders (w_db w') ++ [o] ∧
        order_type o = DELIVERY ∧
        order_delivery_latitude o = latitude ∧
        order_delivery_longitude o = longitude.
Proof.
  intros Hpos Hc Hlat Hlon Hconv Ht2 Ht3 Htype Hdata Hot.
  set (prior := default ∅ (session_at (w_redis w) t1 phone)) in *.
  set (s1 := <[py "last_activity" := JStr (isoformat t1)]>
               (location_update latitude longitude ∪ prior)).
  set (s2 := <[py "last_activity" := JStr (isoformat t2)]>
               (<[py "conversation" :=
                    JArr (last20 (conv ++ [conversation_entry t2 (py "user") message]))]>
                  s1)).
  pose proof (update_session_run settings Hpos t1 phone
                (location_update latitude longitude) w) as H1.
  fold prior in H1.
  match type of H1 with _ = (_, ?x) => set (w1 := x) in * end.
  assert (Hs1 : session_at (w_redis w1) t2 phone = Some s1).
  { subst w1. cbn [w_redis].
    by rewrite (session_at_insert settings) by exact Ht2. }
  assert (Hc1 : transcript s1 = Some conv).
  { unfold transcript, s1. rewrite lookup_insert_ne by key_ne.
    rewrite union_lookup_pref. unfold location_update.
    rewrite !lookup_insert_ne by key_ne. rewrite lookup_empty.
    exact Hconv. }
  pose proof (add_to_conversation_run settings Hpos t2 phone (py "user") message
                w1 conv) as H2.
  rewrite Hs1 in H2. change (default ∅ (Some s1)) with s1 in H2.
  specialize (H2 Hc1).
  match type of H2 with _ = (_, ?x) => set (w2 := x) in * end.
  assert (Hs2 : session_at (w_redis w2) t3 phone = Some s2).
  { subst w2. cbn [w_redis].
    by rewrite (session_at_insert settings) by exact Ht3. }
  pose proof (get_session_run settings t3 phone w2) as H3. rewrite Hs2 in H3.
  match type of H3 with _ = (_, ?x) => set (w3 := x) in * end.
  exists w1, w2, s2, w3.
  split; [exact H1|]. split; [exact H2|]. split; [exact H3|].
  intros session' w' Hsame.
  assert (Hloc : dict_get_or session' (py "location") (JObj ∅)
                 = JObj (<[py "latitude" := latitude]>
                           (<[py "longitude" := longitude]> ∅))).
  { unfold dict_get_or. rewrite Hsame. unfold s2, s1.
    rewrite !lookup_insert_ne by key_ne.
    rewrite union_lookup_pref. unfold location_update.
    rewrite lookup_insert_ne by key_ne. by rewrite lookup_insert_eq. }
  destruct (handle_action_create_order settings commit_ok Hpos Hc clk action
              customer phone session' w' data DELIVERY Htype Hdata)
    as (o & w4 & Hrun & Hdb & _ & _ & _ & Hty & _ & _ & _ & _ & _ & Hdel).
  { by rewrite Hot. }
  { intros _. eauto. }
  exists o, w4. split; [exact Hrun|]. rewrite Hdb.
  split; [done|]. split; [exact Hty|].
  rewrite Hloc in Hdel. cbv zeta in Hdel. unfold dict_get in Hdel.
  rewrite lookup_insert_eq in Hdel.
  rewrite lookup_insert_ne, lookup_insert_eq in Hdel by key_ne.
  cbn [default] in Hdel. unfold py_or at 2 3 in Hdel.
  change (id ?x) with x in Hdel.
  rewrite Hlat, Hlon in Hdel. by injection Hdel as _ -> ->.
Qed.

Lemma shared_location_reaches_delivery_witness :
  let phone := py "923001234567" in
  let latitude := JFloat (binary64_of_Z 31) in
  let longitude := JFloat (binary64_of_Z 74) in
  ∃ w1 w2 session w3 o w4,
    update_session default_settings sample_now phone
      (location_update latitude longitude) sample_world = (Some tt, w1) ∧
    add_to_conversation default_settings (sample_now + 1000) phone (py "user")
      (py "here") w1 = (Some tt, w2) ∧
    get_session default_settings (sample_now + 2000) phone w2
      = (Some (Some session), w3) ∧
    handle_action default_settings (λ _, true) sample_clock delivery_action
      sample_customer phone session w3 = (Some tt, w4) ∧
    orders (w_db w4) = orders (w_db w3) ++ [o] ∧
    order_type o = DELIVERY ∧
    order_delivery_latitude o = latitude ∧
    order_delivery_longitude o = longitude.
Proof.
  intros phone latitude longitude.
  destruct (shared_location_reaches_delivery default_settings (λ _, true)
              sample_clock delivery_action sample_customer phone sample_world
              delivery_data latitude longitude sample_now (sample_now + 1000)
              (sample_now + 2000) (py "here") [])
    as (w1 & w2 & session & w3 & H1 & H2 & H3 & H4); try reflexivity.
  destruct (H4 session w3 eq_refl) as (o & w4 & H5 & H6 & H7 & H8 & H9).
  exists w1, w2, session, w3, o, w4. repeat split; assumption.
Defined.

(** ** Usage reports *)

Lemma redis_hgetall_insert R now key h deadline :
  now < deadline →
  redis_hgetall (<[key := {| r_val := RHash h; r_expiry := Some deadline |}]> R) now key
  = Some h.
Proof.
  intros H. unfold redis_hgetall, live. rewrite lookup_insert_eq. cbn.
  destruct (Z.leb_spec deadline now); [lia | done].
Qed.

Lemma redis_hgetall_insert_ne R now key key' e :
  key ≠ key' → redis_hgetall (<[key := e]> R) now key' = redis_hgetall R now key'.
Proof. intros H. unfold redis_hgetall, live. by rewrite lookup_insert_ne. Qed.

Lemma bump_full_fields (incrbyfloat : option text → spec_float → option text)
    i o usd pkr h :
  let h' := bump_full incrbyfloat i o usd pkr h in
  h' ≠ ∅ ∧
  h' !! py "input_tokens" = Some (str_of_int (int_field h (py "input_tokens") + i)) ∧
  h' !! py "output_tokens" = Some (str_of_int (int_field h (py "output_tokens") + o)) ∧
  h' !! py "requests" = Some (str_of_int (int_field h (py "requests") + 1)) ∧
  h' !! py "cost_usd" = Some (float_text incrbyfloat h (py "cost_usd") usd) ∧
  h' !! py "cost_pkr" = Some (float_text incrbyfloat h (py "cost_pkr") pkr).
Proof.
  unfold bump_full. cbv zeta. split; [apply insert_non_empty|].
  repeat split; lookup_literal.
Qed.

Section ReportFacts.
Variable int_of_text : text → option Z.
Variable float_of_text : text → option spec_float.

(** [int] reads the integers the server writes. *)
Lemma py_int_str_of_int z :
  int64 z = true → py_int int_of_text (str_of_int z) = Some z.
Proof. intros Hz. unfold py_int. by rewrite string2ll_str_of_int. Qed.

Lemma stats_int_written (h : gmap text text) f z dflt :
  h !! f = Some (str_of_int z) → int64 z = true →
  stats_int int_of_text h f dflt = mret z.
Proof.
  intros Hf Hz. unfold stats_int. rewrite Hf.
  by rewrite (py_int_str_of_int z Hz).
Qed.

Lemma stats_float_read (h : gmap text text) f t x :
  h !! f = Some t → float_of_text t = Some x →
  stats_float float_of_text h f = mret x.
Proof. intros Hf Hx. unfold stats_float. by rewrite Hf, Hx. Qed.

Lemma get_daily_stats_run now date w h i o r tu tp cost_usd cost_pkr :
  redis_hgetall (w_redis w) now
    (py "cost:daily:" ++ date_or_today (strftime_day now) date) = Some h →
  h ≠ ∅ →
  h !! py "input_tokens" = Some (str_of_int i) → int64 i = true →
  h !! py "output_tokens" = Some (str_of_int o) → int64 o = true →
  h !! py "requests" = Some (str_of_int r) → int64 r = true →
  h !! py "cost_usd" = Some tu → float_of_text tu = Some cost_usd →
  h !! py "cost_pkr" = Some tp → float_of_text tp = Some cost_pkr →
  get_daily_stats int_of_text float_of_text true now date w =
  (Some (<[py "date" := JStr (date_or_today (strftime_day now) date)]>
         (<[py "input_tokens" := JInt i]>
          (<[py "output_tokens" := JInt o]>
           (<[py "total_tokens" := JInt (i + o)]>
            (<[py "cost_usd" := JFloat cost_usd]>
             (<[py "cost_pkr" := JFloat cost_pkr]>
              (<[py "requests" := JInt r]> ∅))))))), w).
Proof.
  intros Hh Hne Hi Hi' Ho Ho' Hr Hr' Hu Hu' Hp Hp'.
  unfold get_daily_stats. cbv zeta.
  apply try_except_run. unfold mbind at 1, M_bind at 1, bind at 1, get_redis.
  rewrite Hh. cbn [of_option]. change (@ret ?A ?x) with (@mret M _ A x).
  rewrite bind_mret. rewrite bool_decide_eq_false_2 by done.
  rewrite (stats_int_written _ _ _ _ Hi Hi'), (stats_int_written _ _ _ _ Ho Ho'),
    (stats_int_written _ _ _ _ Hr Hr'),
    (stats_float_read _ _ _ _ Hu Hu'), (stats_float_read _ _ _ _ Hp Hp').
  by rewrite !bind_mret.
Qed.

Lemma get_monthly_stats_run now month w h i o r tu tp cost_usd cost_pkr divisor :
  redis_hgetall (w_redis w) now
    (py "cost:monthly:" ++ date_or_today (strftime_month now) month) = Some h →
  h ≠ ∅ →
  h !! py "input_tokens" = Some (str_of_int i) → int64 i = true →
  h !! py "output_tokens" = Some (str_of_int o) → int64 o = true →
  h !! py "requests" = Some (str_of_int r) → int64 r = true →
  h !! py "cost_usd" = Some tu → float_of_text tu = Some cost_usd →
  h !! py "cost_pkr" = Some tp → float_of_text tp = Some cost_pkr →
  float_of_int (Z.max r 1) = Some divisor →
  get_monthly_stats int_of_text float_of_text true now month w =
  (Some (<[py "month" := JStr (date_or_today (strftime_month now) month)]>
         (<[py "input_tokens" := JInt i]>
          (<[py "output_tokens" := JInt o]>
           (<[py "total_tokens" := JInt (i + o)]>
            (<[py "cost_usd" := JFloat cost_usd]>
             (<[py "cost_pkr" := JFloat cost_pkr]>
              (<[py "requests" := JInt r]>
               (<[py "avg_cost_per_request_pkr" :=
                    JFloat (fdiv cost_pkr divisor)]>
                  ∅)))))))), w).
Proof.
  intros Hh Hne Hi Hi' Ho Ho' Hr Hr' Hu Hu' Hp Hp' Hdiv.
  unfold get_monthly_stats. cbv zeta.
  apply try_except_run. unfold mbind at 1, M_bind at 1, bind at 1, get_redis.
  rewrite Hh. cbn [of_option]. change (@ret ?A ?x) with (@mret M _ A x).
  rewrite bind_mret. rewrite bool_decide_eq_false_2 by done.
  rewrite (stats_int_written _ _ _ _ Hi Hi'), (stats_int_written _ _ _ _ Ho Ho'),
    !(stats_int_written _ _ _ _ Hr Hr'),
    (stats_float_read _ _ _ _ Hu Hu'), (stats_float_read _ _ _ _ Hp Hp').
  rewrite !bind_mret. rewrite Hdiv.
  cbn [of_option]. change (@ret ?A ?x) with (@mret M _ A x).
  by rewrite bind_mret.
Qed.

End ReportFacts.

Lemma float_text_accepted (incrbyfloat : option text → spec_float → option text)
    (h : gmap text text) f x :
  float_ok incrbyfloat h f x →
  incrbyfloat (h !! f) x = Some (float_text incrbyfloat h f x).
Proof. intros [_ [t Ht]]. unfold float_text. by rewrite Ht. Qed.

(** X19.  After a record on windows that take the increments, the daily
    report for the day of the record, read before the window expires,
    gives the counters of the window with the record added: input tokens,
    output tokens, their sum as total and one more request, as integers;
    and for the two totals what [float] reads from the texts the float
    increments of the server left. *)
Theorem get_daily_stats_after_track_usage incrbyfloat int_of_text float_of_text
    now input_tokens output_tokens phone w hd exd hm exm hu exu later date
    cost_usd cost_pkr :
  let usd := total_cost_usd input_tokens output_tokens in
  let pkr := total_cost_pkr input_tokens output_tokens in
  hash_at (w_redis w) now (daily_key now) = Some (hd, exd) →
  hash_at (w_redis w) now (monthly_key now) = Some (hm, exm) →
  hash_at (w_redis w) now (user_key now phone) = Some (hu, exu) →
  full_ok incrbyfloat hd input_tokens output_tokens usd pkr →
  full_ok incrbyfloat hm input_tokens output_tokens usd pkr →
  user_ok incrbyfloat hu input_tokens output_tokens pkr →
  date_or_today (strftime_day later) date = strftime_day now →
  later < now + timedelta_seconds (86400 * 90) →
  (∀ total, incrbyfloat (hd !! py "cost_usd") usd = Some total →
            float_of_text total = Some cost_usd) →
  (∀ total, incrbyfloat (hd !! py "cost_pkr") pkr = Some total →
            float_of_text total = Some cost_pkr) →
  ∃ result w' stats,
    track_usage incrbyfloat true now input_tokens output_tokens phone w
      = (Some result, w') ∧
    get_daily_stats int_of_text float_of_text true later date w'
      = (Some stats, w') ∧
    stats !! py "date" = Some (JStr (strftime_day now)) ∧
    stats !! py "input_tokens"
      = Some (JInt (int_field hd (py "input_tokens") + input_tokens)) ∧
    stats !! py "output_tokens"
      = Some (JInt (int_field hd (py "output_tokens") + output_tokens)) ∧
    stats !! py "total_tokens"
      = Some (JInt (int_field hd (py "input_tokens") + input_tokens
                    + (int_field hd (py "output_tokens") + output_tokens))) ∧
    stats !! py "requests" = Some (JInt (int_field hd (py "requests") + 1)) ∧
    stats !! py "cost_usd" = Some (JFloat cost_usd) ∧
    stats !! py "cost_pkr" = Some (JFloat cost_pkr).
Proof.
  intros usd pkr Hd Hm Hu Hdok Hmok Huok Hdate Hlater Hcu Hcp.
  destruct (track_usage_run incrbyfloat now input_tokens output_tokens phone w
              hd exd hm exm hu exu Hd Hm Hu Hdok Hmok Huok)
    as (result & Hrun & _).
  destruct (cost_keys_distinct now phone) as (Hdm & Hdu & Hmu).
  destruct (bump_full_fields incrbyfloat input_tokens output_tokens usd pkr hd)
    as (Hne & Hi & Ho & Hr & Hu' & Hp').
  destruct Hdok as (Ki & Ko & Ku & Kp & Kr).
  eexists result, _, _. split; [exact Hrun|]. split.
  { eapply (get_daily_stats_run int_of_text float_of_text);
      [|exact Hne|exact Hi|by apply int_ok_sum|exact Ho|by apply int_ok_sum
       |exact Hr|by apply int_ok_sum
       |exact Hu'|by apply Hcu, float_text_accepted
       |exact Hp'|by apply Hcp, float_text_accepted].
    rewrite Hdate. cbn [w_redis]. unfold recorded. cbv zeta.
    fold (daily_key now).
    rewrite !redis_hgetall_insert_ne by done.
    by apply redis_hgetall_insert. }
  rewrite Hdate. repeat split; lookup_literal.
Qed.

Lemma get_daily_stats_after_track_usage_witness :
  let phone := py "923001234567" in
  ∃ result w' stats,
    track_usage sample_incrbyfloat true sample_now 100 50 phone sample_world
      = (Some result, w') ∧
    get_daily_stats (λ _, None) sample_float_of_text true (sample_now + 1000000)
      None w'
      = (Some stats, w') ∧
    stats !! py "input_tokens" = Some (JInt (0 + 100)) ∧
    stats !! py "total_tokens" = Some (JInt (0 + 100 + (0 + 50))) ∧
    stats !! py "requests" = Some (JInt (0 + 1)) ∧
    stats !! py "cost_usd"
      = Some (JFloat (S754_finite false 6640827866535439 (-68))) ∧
    stats !! py "cost_pkr"
      = Some (JFloat (S754_finite false 7263405479023136 (-60))).
Proof.
  intros phone.
  destruct (get_daily_stats_after_track_usage sample_incrbyfloat (λ _, None)
              sample_float_of_text sample_now 100 50 phone
              sample_world ∅ None ∅ None ∅ None (sample_now + 1000000) None
              (S754_finite false 6640827866535439 (-68))
              (S754_finite false 7263405479023136 (-60)))
    as (result & w' & stats & H1 & H2 & _ & H3 & _ & H4 & H5 & H6 & H7);
    [reflexivity | reflexivity | reflexivity | accepted | accepted | accepted
    | reflexivity | reflexivity
    | intros total H; vm_compute in H; injection H as <-; vm_compute; reflexivity
    | intros total H; vm_compute in H; injection H as <-; vm_compute; reflexivity |].
  exists result, w', stats. by repeat split.
Defined.

(** X20.  After a record on windows that take the increments, the monthly
    report for the month of the record gives the counters of the window
    with the record added, the display total as [float] reads it from the
    text the server keeps, and an average that is this total divided by
    the number of requests. *)
Theorem get_monthly_stats_after_track_usage incrbyfloat int_of_text float_of_text
    now input_tokens output_tokens phone w hd exd hm exm hu exu later month
    cost_usd cost_pkr divisor :
  let usd := total_cost_usd input_tokens output_tokens in
  let pkr := total_cost_pkr input_tokens output_tokens in
  hash_at (w_redis w) now (daily_key now) = Some (hd, exd) →
  hash_at (w_redis w) now (monthly_key now) = Some (hm, exm) →
  hash_at (w_redis w) now (user_key now phone) = Some (hu, exu) →
  full_ok incrbyfloat hd input_tokens output_tokens usd pkr →
  full_ok incrbyfloat hm input_tokens output_tokens usd pkr →
  user_ok incrbyfloat hu input_tokens output_tokens pkr →
  date_or_today (strftime_month later) month = strftime_month now →
  later < now + timedelta_seconds (86400 * 365) →
  (∀ total, incrbyfloat (hm !! py "cost_usd") usd = Some total →
            float_of_text total = Some cost_usd) →
  (∀ total, incrbyfloat (hm !! py "cost_pkr") pkr = Some total →
            float_of_text total = Some cost_pkr) →
  0 ≤ int_field hm (py "requests") →
  float_of_int (int_field hm (py "requests") + 1) = Some divisor →
  ∃ result w' stats,
    track_usage incrbyfloat true now input_tokens output_tokens phone w
      = (Some result, w') ∧
    get_monthly_stats int_of_text float_of_text true later month w'
      = (Some stats, w') ∧
    stats !! py "month" = Some (JStr (strftime_month now)) ∧
    stats !! py "input_tokens"
      = Some (JInt (int_field hm (py "input_tokens") + input_tokens)) ∧
    stats !! py "output_tokens"
      = Some (JInt (int_field hm (py "output_tokens") + output_tokens)) ∧
    stats !! py "requests" = Some (JInt (int_field hm (py "requests") + 1)) ∧
    stats !! py "cost_usd" = Some (JFloat cost_usd) ∧
    stats !! py "cost_pkr" = Some (JFloat cost_pkr) ∧
    stats !! py "avg_cost_per_request_pkr"
      = Some (JFloat (fdiv cost_pkr divisor)).
Proof.
  intros usd pkr Hd Hm Hu Hdok Hmok Huok Hdate Hlater Hcu Hcp Hreq Hdiv.
  destruct (track_usage_run incrbyfloat now input_tokens output_tokens phone w
              hd exd hm exm hu exu Hd Hm Hu Hdok Hmok Huok)
    as (result & Hrun & _).
  destruct (cost_keys_distinct now phone) as (Hdm & Hdu & Hmu).
  destruct (bump_full_fields incrbyfloat input_tokens output_tokens usd pkr hm)
    as (Hne & Hi & Ho & Hr & Hu' & Hp').
  destruct Hmok as (Ki & Ko & Ku & Kp & Kr).
  eexists result, _, _. split; [exact Hrun|]. split.
  { eapply (get_monthly_stats_run int_of_text float_of_text);
      [|exact Hne|exact Hi|by apply int_ok_sum|exact Ho|by apply int_ok_sum
       |exact Hr|by apply int_ok_sum
       |exact Hu'|by apply Hcu, float_text_accepted
       |exact Hp'|by apply Hcp, float_text_accepted|].
    - rewrite Hdate. cbn [w_redis]. unfold recorded. cbv zeta.
      fold (monthly_key now).
      rewrite redis_hgetall_insert_ne by done.
      by apply redis_hgetall_insert.
    - rewrite Z.max_l by lia. exact Hdiv. }
  rewrite Hdate. repeat split; lookup_literal.
Qed.

Lemma get_monthly_stats_after_track_usage_witness :
  let phone := py "923001234567" in
  let cost_pkr := S754_finite false 7263405479023136 (-60) in
  ∃ result w' stats,
    track_usage sample_incrbyfloat true sample_now 100 50 phone sample_world
      = (Some result, w') ∧
    get_monthly_stats (λ _, None) sample_float_of_text true (sample_now + 1000000)
      None w'
      = (Some stats, w') ∧
    stats !! py "requests" = Some (JInt (0 + 1)) ∧
    stats !! py "cost_pkr" = Some (JFloat cost_pkr) ∧
    stats !! py "avg_cost_per_request_pkr"
      = Some (JFloat (fdiv cost_pkr (binary64_of_Z 1))).
Proof.
  intros phone cost_pkr.
  destruct (get_monthly_stats_after_track_usage sample_incrbyfloat (λ _, None)
              sample_float_of_text sample_now 100 50 phone
              sample_world ∅ None ∅ None ∅ None (sample_now + 1000000) None
              (S754_finite false 6640827866535439 (-68)) cost_pkr
              (binary64_of_Z 1))
    as (result & w' & stats & H1 & H2 & _ & _ & _ & H3 & _ & H4 & H5);
    [reflexivity | reflexivity | reflexivity | accepted | accepted | accepted
    | reflexivity | reflexivity
    | intros total H; vm_compute in H; injection H as <-; vm_compute; reflexivity
    | intros total H; vm_compute in H; injection H as <-; vm_compute; reflexivity
    | vm_compute; discriminate | reflexivity |].
  exists result, w', stats. by repeat split.
Defined.

Lemma reads_ret {A} (a : A) : reads (mret a).
Proof. by intros w. Qed.

Lemma reads_of_option {A} (o : option A) : reads (of_option o).
Proof. intros w. by destruct o. Qed.

Lemma reads_get_redis : reads get_redis.
Proof. by intros w. Qed.

Lemma reads_bind {A B} (m : M A) (f : A → M B) :
  reads m → (∀ a, reads (f a)) → reads (m ≫= f).
Proof.
  intros Hm Hf w. unfold mbind, M_bind, bind. specialize (Hm w).
  destruct (m w) as [[a|] w1]; cbn in Hm; subst w1; [apply Hf | done].
Qed.

Lemma reads_stats_int int_of_text stats field dflt :
  reads (stats_int int_of_text stats field dflt).
Proof.
  unfold stats_int. destruct (stats !! field) as [s|];
    [apply reads_of_option | apply reads_ret].
Qed.

Lemma reads_stats_float float_of_text stats field :
  reads (stats_float float_of_text stats field).
Proof.
  unfold stats_float. destruct (stats !! field) as [s|];
    [apply reads_of_option | apply reads_ret].
Qed.

Lemma try_except_reads {A} (m : M A) (a : A) w :
  reads m → ∃ d, try_except m (mret a) w = (Some d, w).
Proof.
  intros Hm. unfold try_except. specialize (Hm w).
  destruct (m w) as [[d|] w1]; cbn in Hm; subst w1; eauto.
Qed.

Lemma get_daily_stats_reads int_of_text float_of_text connected now date w :
  ∃ d, get_daily_stats int_of_text float_of_text connected now date w = (Some d, w).
Proof.
  unfold get_daily_stats. apply try_except_reads. cbv zeta.
  destruct connected; [|apply reads_ret].
  apply reads_bind; [apply reads_get_redis | intros R].
  apply reads_bind; [apply reads_of_option | intros stats].
  case_bool_decide; [apply reads_ret|].
  repeat first
    [ apply reads_bind; [apply reads_stats_int | intros ?]
    | apply reads_bind; [apply reads_stats_float | intros ?] ].
  apply reads_ret.
Qed.

Lemma get_monthly_stats_reads int_of_text float_of_text connected now month w :
  ∃ d, get_monthly_stats int_of_text float_of_text connected now month w
       = (Some d, w).
Proof.
  unfold get_monthly_stats. apply try_except_reads. cbv zeta.
  destruct connected; [|apply reads_ret].
  apply reads_bind; [apply reads_get_redis | intros R].
  apply reads_bind; [apply reads_of_option | intros stats].
  case_bool_decide; [apply reads_ret|].
  repeat first
    [ apply reads_bind; [apply reads_stats_int | intros ?]
    | apply reads_bind; [apply reads_stats_float | intros ?] ].
  apply reads_bind; [apply reads_of_option | intros ?].
  apply reads_ret.
Qed.

Lemma redis_hgetall_no_window R now key :
  no_window R now key →
  redis_hgetall R now key = Some ∅ ∨ redis_hgetall R now key = None.
Proof.
  unfold redis_hgetall. intros [-> | (e & d & -> & ->)]; auto.
Qed.

(** X21.  The reports never raise and change nothing.  They are empty
    when the service is not connected, when the window has no live entry,
    and when its key holds a value that is not a hash. *)
Theorem reports_of_missing_window int_of_text float_of_text connected now date w :
  (∃ d, get_daily_stats int_of_text float_of_text connected now date w
        = (Some d, w)) ∧
  (∃ d, get_monthly_stats int_of_text float_of_text connected now date w
        = (Some d, w)) ∧
  get_daily_stats int_of_text float_of_text false now date w = (Some ∅, w) ∧
  get_monthly_stats int_of_text float_of_text false now date w = (Some ∅, w) ∧
  (no_window (w_redis w) now
     (py "cost:daily:" ++ date_or_today (strftime_day now) date) →
   get_daily_stats int_of_text float_of_text connected now date w = (Some ∅, w)) ∧
  (no_window (w_redis w) now
     (py "cost:monthly:" ++ date_or_today (strftime_month now) date) →
   get_monthly_stats int_of_text float_of_text connected now date w
   = (Some ∅, w)).
Proof.
  split; [apply get_daily_stats_reads|].
  split; [apply get_monthly_stats_reads|].
  split; [reflexivity|]. split; [reflexivity|]. split.
  - intros H. apply redis_hgetall_no_window in H.
    unfold get_daily_stats, try_except. cbv zeta.
    destruct connected; [|done]. destruct w as [R db].
    unfold mbind, M_bind, bind, get_redis. cbn [w_redis] in *.
    by destruct H as [-> | ->].
  - intros H. apply redis_hgetall_no_window in H.
    unfold get_monthly_stats, try_except. cbv zeta.
    destruct connected; [|done]. destruct w as [R db].
    unfold mbind, M_bind, bind, get_redis. cbn [w_redis] in *.
    by destruct H as [-> | ->].
Qed.

Lemma reports_of_missing_window_witness :
  get_daily_stats (λ _, None) (λ _, None) true sample_now None sample_world
    = (Some ∅, sample_world) ∧
  get_monthly_stats (λ _, None) (λ _, None) true sample_now (Some (py "2026-10"))
    sample_world
    = (Some ∅, sample_world).
Proof.
  split.
  - apply (proj1 (proj2 (proj2 (proj2 (proj2
             (reports_of_missing_window (λ _, None) (λ _, None) true sample_now
                None sample_world)))))).
    left. reflexivity.
  - apply (proj2 (proj2 (proj2 (proj2 (proj2
             (reports_of_missing_window (λ _, None) (λ _, None) true sample_now
                (Some (py "2026-10")) sample_world)))))).
    left. reflexivity.
Defined.

Lemma hincrby_wrong_type {A} (k : unit → M A) now key f n w e d :
  live (w_redis w) now key = Some e → r_val e = RString d →
  (hincrby now key f n ≫= k) w = (None, w).
Proof.
  intros He Hv. unfold hincrby, redis_hincrby, hash_at.
  unfold mbind, M_bind, bind, get_redis. by rewrite He, Hv.
Qed.

(** X22.  [track_usage] is not one transaction.  When the daily window
    takes the increments and the key of the monthly window holds a value
    that is not a hash, the method returns the empty dictionary, the daily
    window keeps the record with its new expiry, and the keys of the
    monthly and of the per-identity window are untouched. *)
Theorem track_usage_stops_at_first_error incrbyfloat now input_tokens
    output_tokens phone w hd exd e d :
  let usd := total_cost_usd input_tokens output_tokens in
  let pkr := total_cost_pkr input_tokens output_tokens in
  hash_at (w_redis w) now (daily_key now) = Some (hd, exd) →
  full_ok incrbyfloat hd input_tokens output_tokens usd pkr →
  live (w_redis w) now (monthly_key now) = Some e →
  r_val e = RString d →
  ∃ w',
    track_usage incrbyfloat true now input_tokens output_tokens phone w
      = (Some ∅, w') ∧
    w_db w' = w_db w ∧
    hash_at (w_redis w') now (daily_key now)
      = Some (bump_full incrbyfloat input_tokens output_tokens usd pkr hd,
              Some (now + timedelta_seconds (86400 * 90))) ∧
    w_redis w' !! monthly_key now = w_redis w !! monthly_key now ∧
    w_redis w' !! user_key now phone = w_redis w !! user_key now phone.
Proof.
  intros usd pkr Hd Hdok He Hv.
  destruct (cost_keys_distinct now phone) as (Hdm & Hdu & Hmu).
  assert (Hfin : sf_finite usd = true) by apply Hdok.
  apply cost_finite in Hfin as [Hi Ho].
  eexists. split.
  { unfold track_usage, try_except.
    rewrite (div_million_finite _ Hi), (div_million_finite _ Ho).
    cbn [of_option]. change (@ret spec_float ?x) with (@mret M _ _ x).
    rewrite !bind_mret. cbv zeta.
    unfold mbind at 1, M_bind at 1, bind at 1.
    rewrite (full_window_k _ _ _ _ _ _ _ _ _ _ _ _ Hd Hdok) by done.
    rewrite (hincrby_wrong_type _ _ _ _ _ _ e d); [reflexivity| |exact Hv].
    cbn [w_redis]. unfold live. rewrite lookup_insert_ne by done. exact He. }
  cbn [w_db w_redis]. split; [done|]. split; [|split].
  - apply hash_at_insert. cbn. unfold timedelta_seconds. lia.
  - by rewrite lookup_insert_ne.
  - by rewrite lookup_insert_ne.
Qed.

Lemma track_usage_stops_at_first_error_witness :
  let phone := py "923001234567" in
  let e := {| r_val := RString ∅; r_expiry := None |} in
  let w := {| w_redis := {[monthly_key sample_now := e]};
              w_db := {| orders := []; next_order_id := 1 |} |} in
  ∃ w',
    track_usage sample_incrbyfloat true sample_now 100 50 phone w = (Some ∅, w') ∧
    w_db w' = w_db w ∧
    hash_at (w_redis w') sample_now (daily_key sample_now)
      = Some (bump_full sample_incrbyfloat 100 50 (total_cost_usd 100 50)
                (total_cost_pkr 100 50) ∅,
              Some (sample_now + timedelta_seconds (86400 * 90))) ∧
    w_redis w' !! monthly_key sample_now = w_redis w !! monthly_key sample_now ∧
    w_redis w' !! user_key sample_now phone = w_redis w !! user_key sample_now phone.
Proof.
  intros phone e w.
  apply (track_usage_stops_at_first_error sample_incrbyfloat sample_now 100 50
           phone w ∅ None e ∅).
  - vm_compute. reflexivity.
  - accepted.
  - vm_compute. reflexivity.
  - reflexivity.
Defined.

Lemma user_key_inj now a b : user_key now a = user_key now b → a = b.
Proof.
  unfold user_key. intros H. apply app_inv_head in H.
  by apply app_inv_tail in H.
Qed.

Lemma session_key_not_cost_key now phone other :
  _get_session_key other ≠ daily_key now ∧
  _get_session_key other ≠ monthly_key now ∧
  _get_session_key other ≠ user_key now phone.
Proof.
  unfold _get_session_key, daily_key, monthly_key, user_key.
  repeat split; intros H; apply (f_equal (take 1)) in H;
    cbv -[strftime_day strftime_month] in H; discriminate H.
Qed.

(** X23.  A record that succeeds writes three keys and no other: the
    windows of the other phone numbers and every session are as they
    were. *)
Theorem track_usage_touches_three_keys incrbyfloat now input_tokens output_tokens
    phone w hd exd hm exm hu exu :
  let usd := total_cost_usd input_tokens output_tokens in
  let pkr := total_cost_pkr input_tokens output_tokens in
  hash_at (w_redis w) now (daily_key now) = Some (hd, exd) →
  hash_at (w_redis w) now (monthly_key now) = Some (hm, exm) →
  hash_at (w_redis w) now (user_key now phone) = Some (hu, exu) →
  full_ok incrbyfloat hd input_tokens output_tokens usd pkr →
  full_ok incrbyfloat hm input_tokens output_tokens usd pkr →
  user_ok incrbyfloat hu input_tokens output_tokens pkr →
  ∃ result w',
    track_usage incrbyfloat true now input_tokens output_tokens phone w
      = (Some result, w') ∧
    w_db w' = w_db w ∧
    (∀ key, key ≠ daily_key now → key ≠ monthly_key now →
            key ≠ user_key now phone →
            w_redis w' !! key = w_redis w !! key) ∧
    (∀ other, other ≠ phone →
       w_redis w' !! user_key now other = w_redis w !! user_key now other) ∧
    (∀ other t, session_at (w_redis w') t other = session_at (w_redis w) t other).
Proof.
  intros usd pkr Hd Hm Hu Hdok Hmok Huok.
  destruct (track_usage_run incrbyfloat now input_tokens output_tokens phone w
              hd exd hm exm hu exu Hd Hm Hu Hdok Hmok Huok)
    as (result & Hrun & _).
  eexists result, _. split; [exact Hrun|]. cbn [w_db w_redis].
  split; [done|].
  assert (Hkeys : ∀ key, key ≠ daily_key now → key ≠ monthly_key now →
            key ≠ user_key now phone →
            recorded incrbyfloat (w_redis w) now phone input_tokens output_tokens
              hd hm hu !! key
            = w_redis w !! key).
  { intros key H1 H2 H3. unfold recorded. cbv zeta.
    by rewrite !lookup_insert_ne by done. }
  split; [exact Hkeys|]. split.
  - intros other Hne.
    destruct (cost_keys_distinct now other) as (_ & Hdu & Hmu).
    apply Hkeys; [done | done |].
    intros H. by apply Hne, (user_key_inj now).
  - intros other t.
    destruct (session_key_not_cost_key now phone other) as (H1 & H2 & H3).
    unfold session_at, live. by rewrite Hkeys.
Qed.

Lemma track_usage_touches_three_keys_witness :
  let phone := py "923001234567" in
  let other := py "923007654321" in
  ∃ result w',
    track_usage sample_incrbyfloat true sample_now 100 50 phone sample_world
      = (Some result, w') ∧
    w_redis w' !! user_key sample_now other
      = w_redis sample_world !! user_key sample_now other.
Proof.
  intros phone other.
  destruct (track_usage_touches_three_keys sample_incrbyfloat sample_now 100 50
              phone sample_world ∅ None ∅ None ∅ None)
    as (result & w' & H1 & _ & _ & H2 & _);
    [reflexivity | reflexivity | reflexivity | accepted | accepted | accepted |].
  exists result, w'. split; [exact H1|]. apply H2.
  vm_compute. intros H; discriminate H.
Defined.

(** ** More on the codec *)

Lemma lstrip_fixed s : lstrip s = [] ∨ ∃ c s', lstrip s = c :: s' ∧ is_space c = false.
Proof.
  induction s as [|c s IH]; simpl; [by left|].
  destruct (is_space c) eqn:Hc; [exact IH|]. right. by exists c, s.
Qed.

Lemma lstrip_lstrip s : lstrip (lstrip s) = lstrip s.
Proof.
  destruct (lstrip_fixed s) as [-> | (c & s' & -> & Hc)]; [done|].
  by apply lstrip_head.
Qed.

Lemma lstrip_snoc a c : is_space c = false → ∃ a', lstrip (a ++ [c]) = a' ++ [c].
Proof.
  intros Hc. induction a as [|x a IH]; simpl.
  - rewrite Hc. by exists [].
  - destruct (is_space x); [exact IH|]. by exists (x :: a).
Qed.

Lemma rstrip_rstrip s : rstrip (rstrip s) = rstrip s.
Proof. unfold rstrip. by rewrite reverse_involutive, lstrip_lstrip. Qed.

Lemma lstrip_rstrip s : lstrip s = s → lstrip (rstrip s) = rstrip s.
Proof.
  intros Hs. destruct (lstrip_fixed s) as [E | (c & s' & E & Hc)];
    rewrite Hs in E; subst s; [done|].
  unfold rstrip. rewrite reverse_cons.
  destruct (lstrip_snoc (reverse s') c Hc) as (a' & ->).
  rewrite reverse_app. cbn [reverse rev_append app].
  change (reverse [c]) with [c]. cbn [app]. by apply lstrip_head.
Qed.

Lemma strip_strip s : strip (strip s) = strip s.
Proof.
  unfold strip. rewrite lstrip_rstrip by apply lstrip_lstrip.
  apply rstrip_rstrip.
Qed.

Lemma get_clean_response_stripped r :
  strip (get_clean_response r) = get_clean_response r.
Proof.
  destruct (decide (length (clean_text r) < 5)%nat) as [H|H].
  - by rewrite get_clean_response_short.
  - rewrite get_clean_response_long by lia. apply strip_strip.
Qed.

(** X24.  What [get_clean_response] returns has no white space around
    it and at least five characters, so the second check of the caller
    never fires: the reply sent to the customer is the clean response. *)
Theorem clean_response_is_get_clean_response r :
  clean_response r = get_clean_response r ∧
  strip (get_clean_response r) = get_clean_response r ∧
  (5 ≤ length (strip (get_clean_response r)))%nat.
Proof.
  pose proof (get_clean_response_length r) as Hlen.
  pose proof (get_clean_response_stripped r) as Hst.
  split; [|split; [exact Hst | by rewrite Hst]].
  unfold clean_response. cbv zeta. rewrite Hst.
  rewrite !bool_decide_eq_false_2; [done | lia |].
  intros H. rewrite H in Hlen. cbn in Hlen. lia.
Qed.

Lemma action_at_braced s a : action_at s = Some a → braced a.
Proof.
  unfold action_at.
  destruct (match_lit fence s) as [s1|]; [|done].
  destruct (after_tag s1) as [s2|]; [|done].
  destruct (match_lit lbrace (lstrip s2)) as [s4|] eqn:E4; [|done].
  intros (pre & x & -> & Hk)%star_lazy_Some. unfold closes in Hk.
  destruct (match_lit rbrace x) as [s6|] eqn:E6; [|done].
  destruct (match_lit fence (lstrip s6)); [|done].
  injection Hk as <-. apply match_lit_Some in E4, E6. subst x.
  exists pre. rewrite E4.
  rewrite (app_assoc lbrace), (app_assoc _ rbrace), length_app.
  replace (_ + _ - _)%nat with (length ((lbrace ++ pre) ++ rbrace)) by lia.
  rewrite take_app_length. by rewrite <- !app_assoc.
Qed.

Lemma re_search_action_braced r n g :
  re_search action_re r = Some (n, g) → ∃ a, g = Some a ∧ braced a.
Proof.
  induction r as [|c r IH].
  - cbn [re_search]. pose proof (match_at_action []) as Hm.
    destruct (match_at action_re []) as [[n' g']|]; [|done].
    vm_compute in Hm. discriminate Hm.
  - cbn [re_search]. pose proof (match_at_action (c :: r)) as Hm.
    destruct (match_at action_re (c :: r)) as [[n' g']|]; [|exact IH].
    intros [= -> ->].
    destruct (action_at (c :: r)) as [a|] eqn:Ha; [|discriminate Hm].
    injection Hm as ->. exists a. split; [done|].
    by apply (action_at_braced (c :: r)).
Qed.

Lemma scan_pairs_object n : ∀ s acc v rest,
  scan_pairs n s acc = Some (v, rest) → ∃ d, v = JObj d.
Proof.
  induction n as [|n IH]; intros s acc v rest H; [discriminate H|].
  cbn [scan_pairs] in H.
  destruct (scanstring (length s) s []) as [[key s1]|]; [|discriminate H].
  destruct (skip_ws s1) as [|c s2]; [discriminate H|].
  destruct (c =? 58)%N; [|discriminate H].
  destruct (scan_once n (skip_ws s2)) as [[v' s3]|]; [|discriminate H].
  destruct (skip_ws s3) as [|c' s4]; [discriminate H|].
  destruct (c' =? 125)%N; [injection H as <- _; eauto|].
  destruct (c' =? 44)%N; [|discriminate H].
  destruct (skip_ws s4) as [|q s5]; [discriminate H|].
  destruct (q =? 34)%N; [|discriminate H].
  by apply IH in H.
Qed.

Lemma json_loads_braced a v : braced a → json_loads a = Some v → ∃ d, v = JObj d.
Proof.
  intros [inner ->]. unfold json_loads, lbrace.
  change ([123%N] ++ inner ++ rbrace) with (123%N :: inner ++ rbrace).
  cbn [skip_ws is_json_ws N.eqb Pos.eqb orb].
  set (n := length (123%N :: inner ++ rbrace)).
  cbn [scan_once N.eqb Pos.eqb].
  destruct (skip_ws (inner ++ rbrace)) as [|c1 s2]; [done|].
  destruct (c1 =? 125)%N.
  - destruct (skip_ws s2); [|done]. intros [= <-]. eauto.
  - destruct (c1 =? 34)%N; [|done].
    destruct (scan_pairs n s2 ∅) as [[v' rest]|] eqn:E; [|done].
    apply scan_pairs_object in E as [d ->].
    destruct (skip_ws rest); [|done]. intros [= <-]. eauto.
Qed.

(** X25.  With the decoder of the standard library, what
    [extract_action] returns is always a JSON object: the text it decodes
    starts with a brace, so the dispatcher is never handed a list, a string
    or a number. *)
Theorem extract_action_returns_object r v :
  extract_action json_loads r = Some v → ∃ d, v = JObj d.
Proof.
  unfold extract_action.
  destruct (re_search action_re r) as [[n [g|]]|] eqn:E; [|done|done].
  apply re_search_action_braced in E as (a & [= ->] & Hbr).
  rewrite (strip_braced _ Hbr). by apply json_loads_braced.
Qed.

Lemma extract_action_returns_object_witness :
  ∃ d, complaint_action = JObj d.
Proof.
  apply (extract_action_returns_object complaint_response complaint_action).
  vm_compute. reflexivity.
Defined.

(** ** Prompt construction *)

Lemma drop_last_ten {A} (old recent : list A) :
  length recent = 10%nat →
  drop (length (old ++ recent) - 10) (old ++ recent) = recent.
Proof.
  intros H. rewrite length_app, H.
  replace (length old + 10 - 10)%nat with (length old) by lia.
  apply drop_app_length.
Qed.

(** X26.  The prompt is made of the last ten entries of the history: what
    comes before them has no effect on the result, malformed or not, and
    when one of the last ten is not a dictionary with a [role] and a
    [message] the model is not called and the result is the fixed apology
    with no tokens counted. *)
Theorem generate_response_last_ten system_prompt generate_content dumps
    format_value user_message old recent context menu_items :
  length recent = 10%nat →
  generate_response system_prompt generate_content dumps format_value
    user_message (old ++ recent) context menu_items
  = generate_response system_prompt generate_content dumps format_value
      user_message recent context menu_items
  ∧ (∀ msg, msg ∈ recent → history_line format_value msg = None →
     generate_response system_prompt generate_content dumps format_value
       user_message (old ++ recent) context menu_items = (SORRY, 0, 0, [])).
Proof.
  intros Hlen.
  assert (E : full_prompt system_prompt dumps format_value user_message
                (old ++ recent) context menu_items
              = full_prompt system_prompt dumps format_value user_message
                  recent context menu_items).
  { unfold full_prompt. rewrite (drop_last_ten old recent Hlen).
    replace (length recent - 10)%nat with 0%nat by lia. by rewrite drop_0. }
  split.
  - unfold generate_response. by rewrite E.
  - intros msg Hin Hbad. unfold generate_response. rewrite E.
    unfold full_prompt. cbv zeta.
    replace (length recent - 10)%nat with 0%nat by lia. rewrite drop_0.
    assert (Hm : mapM (history_line format_value) recent = None).
    { destruct (mapM (history_line format_value) recent) as [lines|] eqn:Em;
        [|done].
      apply mapM_Some_1 in Em.
      apply list_elem_of_lookup in Hin as [i Hi].
      destruct (Forall2_lookup_l _ _ _ _ _ Em Hi) as (line & _ & Hline).
      congruence. }
    by rewrite Hm.
Qed.

Lemma generate_response_last_ten_witness :
  let entry := conversation_entry sample_now (py "user") (py "hi") in
  let recent := replicate 10 entry in
  generate_response (py "Waiter.") (λ _, Some (py "Welcome!")) (λ _, []) (λ _, [])
    (py "menu?") ([JNull; JStr (py "lost")] ++ recent) ∅ None
  = generate_response (py "Waiter.") (λ _, Some (py "Welcome!")) (λ _, []) (λ _, [])
      (py "menu?") recent ∅ None.
Proof.
  intros entry recent.
  apply (generate_response_last_ten (py "Waiter.") (λ _, Some (py "Welcome!"))
           (λ _, []) (λ _, []) (py "menu?") [JNull; JStr (py "lost")] recent ∅ None).
  reflexivity.
Defined.

(** ** The menu text *)

Lemma elem_of_first_seen c l : c ∈ first_seen l ↔ c ∈ l.
Proof.
  induction l as [|a l IH]; cbn [first_seen]; [done|].
  rewrite !elem_of_cons, list_elem_of_filter, IH.
  destruct (decide (c = a)) as [->|Hne].
  - split; intros _; by left.
  - split.
    + intros [H|[_ H]]; [done | by right].
    + intros [H|H]; [done | right; by split].
Qed.

Lemma NoDup_first_seen l : NoDup (first_seen l).
Proof.
  induction l as [|a l IH]; cbn [first_seen]; [constructor|].
  apply NoDup_cons. split.
  - rewrite list_elem_of_filter. by intros [H _].
  - by apply NoDup_filter.
Qed.

Lemma first_seen_snoc l c :
  first_seen (l ++ [c]) = first_seen l ++ (if decide (c ∈ l) then [] else [c]).
Proof.
  induction l as [|a l IH]; cbn [first_seen app].
  - rewrite decide_False by apply not_elem_of_nil. done.
  - rewrite IH, filter_app. f_equal. f_equal.
    destruct (decide (c = a)) as [->|Hne].
    + rewrite (decide_True (P := a ∈ a :: l)) by apply list_elem_of_here.
      destruct (decide (a ∈ l)); [done|].
      by rewrite filter_cons_False by (intros H; by apply H).
    + destruct (decide (c ∈ l)) as [Hin|Hin].
      * by rewrite decide_True by (by apply list_elem_of_further).
      * rewrite decide_False by (rewrite elem_of_cons; by intros [?|?]).
        by rewrite filter_cons_True.
Qed.

Lemma filter_snoc {A} (P : A → Prop) `{∀ x, Decision (P x)} (l : list A) x :
  filter P (l ++ [x]) = filter P l ++ (if decide (P x) then [x] else []).
Proof.
  rewrite filter_app.
  destruct (decide (P x)); [by rewrite filter_cons_True | by rewrite filter_cons_False].
Qed.

(** Adding an item to a table of distinct categories. *)
Lemma add_to_category_fmap (f : text → list MenuItem) item (cs : list text) :
  NoDup cs →
  add_to_category item ((λ c, (c, f c)) <$> cs)
  = ((λ c, (c, f c ++ (if decide (category item = c) then [item] else []))) <$> cs)
    ++ (if decide (category item ∈ cs) then [] else [(category item, [item])]).
Proof.
  induction cs as [|a cs IH]; intros Hnd; cbn [fmap list_fmap add_to_category].
  - by rewrite decide_False by apply not_elem_of_nil.
  - apply NoDup_cons in Hnd as [Ha Hnd]. cbn [app].
    destruct (decide (a = category item)) as [->|Hne].
    + rewrite bool_decide_eq_true_2 by done.
      rewrite decide_True by done.
      rewrite (decide_True (P := category item ∈ category item :: cs))
        by apply list_elem_of_here.
      rewrite app_nil_r. f_equal.
      apply list_fmap_ext. intros i c Hc.
      rewrite decide_False; [by rewrite app_nil_r|].
      intros <-. apply Ha. by eapply list_elem_of_lookup_2.
    + rewrite bool_decide_eq_false_2 by done.
      rewrite (decide_False (P := category item = a)) by done.
      rewrite app_nil_r, IH by done. f_equal. f_equal.
      destruct (decide (category item ∈ cs)) as [Hin|Hin].
      * by rewrite decide_True by (by apply list_elem_of_further).
      * by rewrite decide_False by (rewrite elem_of_cons; by intros [?|?]).
Qed.

Lemma filter_category_absent (l : list MenuItem) c :
  c ∉ category <$> l → filter (λ item, category item = c) l = [].
Proof.
  intros H. induction l as [|x l IH]; [done|].
  rewrite fmap_cons, not_elem_of_cons in H. destruct H as [H1 H2].
  rewrite filter_cons_False by done. by apply IH.
Qed.

Lemma by_category_snoc l item :
  by_category (l ++ [item]) = add_to_category item (by_category l).
Proof.
  unfold by_category.
  rewrite (add_to_category_fmap (λ c, filter (λ i, category i = c) l))
    by apply NoDup_first_seen.
  rewrite (fmap_app category).
  change (category <$> [item]) with [category item].
  rewrite first_seen_snoc, fmap_app.
  f_equal.
  - apply list_fmap_ext. intros i c _. by rewrite filter_snoc.
  - destruct (decide (category item ∈ category <$> l)) as [Hin|Hin].
    + by rewrite decide_True by (by apply elem_of_first_seen).
    + rewrite decide_False by (by rewrite elem_of_first_seen).
      cbn [fmap list_fmap]. rewrite filter_snoc, decide_True by done.
      by rewrite filter_category_absent.
Qed.

Lemma fold_add_to_category done rest :
  fold_left (λ categories item, add_to_category item categories) rest
    (by_category done)
  = by_category (done ++ rest).
Proof.
  revert done. induction rest as [|x rest IH]; intros done; cbn [fold_left].
  - by rewrite app_nil_r.
  - rewrite <- by_category_snoc, IH. by rewrite <- app_assoc.
Qed.

Lemma elem_of_by_category item l :
  item ∈ l ↔ ∃ c items, (c, items) ∈ by_category l ∧ item ∈ items.
Proof.
  unfold by_category. split.
  - intros Hin. exists (category item), (filter (λ i, category i = category item) l).
    split.
    + apply list_elem_of_fmap. exists (category item). split; [done|].
      apply elem_of_first_seen. by apply list_elem_of_fmap_2.
    + by apply list_elem_of_filter.
  - intros (c & items & (c' & [= -> ->] & _)%list_elem_of_fmap & Hi).
    by apply list_elem_of_filter in Hi as [_ Hi].
Qed.

Lemma int_of_float_finite f : is_Some (int_of_float f) ↔ sf_finite f = true.
Proof.
  destruct f; cbn; split; try done; try (by intros [? [=]]); by eauto.
Qed.

Lemma mapM_is_Some_all {A B} (f : A → option B) (l : list A) :
  is_Some (mapM f l) ↔ ∀ x, x ∈ l → is_Some (f x).
Proof. rewrite mapM_is_Some, Forall_forall. done. Qed.

(** X27.  The menu text has one section for each category, in the order
    the categories first appear in the menu, and a section holds the items
    of its category in the order of the menu: the table the first loop
    builds is the grouping stated directly.  An empty menu gives the fixed
    text. *)
Theorem format_menu_for_ai_groups upper menu_items :
  format_menu_for_ai upper [] = Some (py "Menu not available") ∧
  (menu_items ≠ [] →
   format_menu_for_ai upper menu_items = menu_text upper (by_category menu_items)) ∧
  fold_left (λ categories item, add_to_category item categories) menu_items []
    = by_category menu_items ∧
  NoDup (fst <$> by_category menu_items) ∧
  (∀ item, item ∈ menu_items ↔
     ∃ c items, (c, items) ∈ by_category menu_items ∧ item ∈ items).
Proof.
  assert (E : fold_left (λ categories item, add_to_category item categories)
                menu_items [] = by_category menu_items)
    by apply (fold_add_to_category [] menu_items).
  split; [done|]. split; [|split; [exact E|split]].
  - destruct menu_items as [|x l]; [done|]. intros _.
    unfold format_menu_for_ai. cbv zeta. by rewrite E.
  - unfold by_category. rewrite <- list_fmap_compose.
    rewrite (list_fmap_ext _ id) by done.
    rewrite list_fmap_id. apply NoDup_first_seen.
  - intros item. apply elem_of_by_category.
Qed.

Lemma format_menu_for_ai_groups_witness :
  let item c n :=
    {| menu_item_id := 1; category := c; item_name := n;
       price := S754_zero false; price_with_tax := S754_zero false;
       description := None; options := None; synonyms := None;
       serving := S754_zero false |} in
  let menu := [item (py "Broast") (py "Quarter"); item (py "Drinks") (py "Cola");
               item (py "Broast") (py "Half")] in
  format_menu_for_ai id menu = menu_text id (by_category menu) ∧
  by_category menu
    = [(py "Broast", [item (py "Broast") (py "Quarter"); item (py "Broast") (py "Half")]);
       (py "Drinks", [item (py "Drinks") (py "Cola")])].
Proof.
  intros item menu. split.
  - apply (proj1 (proj2 (format_menu_for_ai_groups id menu))). discriminate.
  - vm_compute. reflexivity.
Defined.

Lemma menu_text_is_Some upper (categories : list (text * list MenuItem)) :
  is_Some (menu_text upper categories) ↔
  ∀ c items item, (c, items) ∈ categories → item ∈ items →
    sf_finite (price_with_tax item) = true.
Proof.
  unfold menu_text. split.
  - intros [t Ht] c items item Hc Hi.
    destruct (mapM (category_text upper) categories) as [sections|] eqn:Es;
      [|discriminate Ht].
    assert (Hs : is_Some (mapM (category_text upper) categories)) by eauto.
    rewrite mapM_is_Some_all in Hs. specialize (Hs _ Hc) as [s Hs].
    cbn [category_text] in Hs.
    destruct (mapM item_text items) as [lines|] eqn:El; [|discriminate Hs].
    assert (Hl : is_Some (mapM item_text items)) by eauto.
    rewrite mapM_is_Some_all in Hl. specialize (Hl _ Hi) as [l Hl].
    apply int_of_float_finite. unfold item_text in Hl.
    destruct (int_of_float (price_with_tax item)); [eauto | discriminate Hl].
  - intros H.
    assert (Hs : is_Some (mapM (category_text upper) categories)).
    { apply mapM_is_Some_all. intros [c items] Hc. cbn [category_text].
      assert (Hl : is_Some (mapM item_text items)).
      { apply mapM_is_Some_all. intros item Hi. unfold item_text.
        destruct (proj2 (int_of_float_finite _) (H _ _ _ Hc Hi)) as [z ->].
        by eexists. }
      destruct Hl as [lines ->]. by eexists. }
    destruct Hs as [sections ->]. by eexists.
Qed.

(** X28.  The menu text exists exactly when the price with tax of every
    item is a finite number: one item priced NaN or infinite makes the
    whole call raise. *)
Theorem format_menu_for_ai_needs_finite_prices upper menu_items :
  is_Some (format_menu_for_ai upper menu_items) ↔
  ∀ item, item ∈ menu_items → sf_finite (price_with_tax item) = true.
Proof.
  destruct menu_items as [|x l] eqn:El.
  - split; [intros _ item Hin; by apply elem_of_nil in Hin | by eexists].
  - rewrite <- El.
    assert (E : format_menu_for_ai upper menu_items
                = menu_text upper (by_category menu_items)).
    { rewrite El. unfold format_menu_for_ai. cbv zeta.
      apply (f_equal (menu_text upper) (fold_add_to_category [] (x :: l))). }
    rewrite E, menu_text_is_Some. split.
    + intros H item Hin.
      apply elem_of_by_category in Hin as (c & items & Hc & Hi). eauto.
    + intros H c items item Hc Hi. apply H. apply elem_of_by_category. eauto.
Qed.

Lemma format_menu_for_ai_needs_finite_prices_witness :
  let item :=
    {| menu_item_id := 1; category := py "Broast"; item_name := py "Quarter";
       price := binary64_of_Z 600; price_with_tax := binary64_of_Z 650;
       description := None; options := None; synonyms := None;
       serving := binary64_of_Z 1 |} in
  is_Some (format_menu_for_ai id [item]).
Proof.
  intros item.
  apply (proj2 (format_menu_for_ai_needs_finite_prices id [item])).
  intros x Hx. apply list_elem_of_singleton in Hx. rewrite Hx. reflexivity.
Defined.

(** ** Customers *)

Lemma filter_key_absent {A K} (key : A → K) `{EqDecision K} (l : list A) k :
  k ∉ key <$> l → filter (λ x, key x = k) l = [].
Proof.
  intros H. induction l as [|x l IH]; [done|].
  rewrite fmap_cons, not_elem_of_cons in H. destruct H as [H1 H2].
  rewrite filter_cons_False by done. by apply IH.
Qed.

Lemma filter_key_unique {A K} (key : A → K) `{EqDecision K} (l : list A) x :
  NoDup (key <$> l) → x ∈ l → filter (λ y, key y = key x) l = [x].
Proof.
  induction l as [|y l IH]; intros Hnd Hx; [by apply elem_of_nil in Hx|].
  rewrite fmap_cons in Hnd. apply NoDup_cons in Hnd as [Hy Hnd].
  apply elem_of_cons in Hx as [->|Hx].
  - rewrite filter_cons_True by done. f_equal. by apply filter_key_absent.
  - rewrite filter_cons_False; [by apply IH|].
    intros E. apply Hy. rewrite E. by apply list_elem_of_fmap_2.
Qed.

Lemma filter_key_cases {A K} (key : A → K) `{EqDecision K} (l : list A) k :
  NoDup (key <$> l) →
  filter (λ x, key x = k) l = [] ∧ k ∉ key <$> l ∨
  ∃ x, x ∈ l ∧ key x = k ∧ filter (λ y, key y = k) l = [x].
Proof.
  intros Hnd. destruct (decide (k ∈ key <$> l)) as [Hin|Hin].
  - right. apply list_elem_of_fmap in Hin as (x & -> & Hx).
    exists x. split; [done|]. split; [done|]. by apply filter_key_unique.
  - left. split; [by apply filter_key_absent | done].
Qed.

(** X29.  On a table with one row for a phone number,
    [get_or_create_customer] returns a customer with the phone number
    asked for, keeps the rows there were, and adds a row only when the
    phone number was unknown; the table keeps one row for a phone number,
    and every later call for the same phone number returns the same
    customer and changes nothing. *)
Theorem get_or_create_customer_once commit_ok now now' phone db :
  (∀ c, commit_ok c = true) →
  customers_ok db →
  ∃ c db1,
    get_or_create_customer commit_ok now now' phone db = (Some c, db1) ∧
    customer_phone c = phone ∧
    customers_ok db1 ∧
    (∀ r, r ∈ customer_rows db → r ∈ customer_rows db1) ∧
    (phone ∈ (λ r, customer_phone (profile r)) <$> customer_rows db → db1 = db) ∧
    (∀ t t', get_or_create_customer commit_ok t t' phone db1 = (Some c, db1)).
Proof.
  intros Hc (Hph & Hid & Hlt). unfold get_or_create_customer.
  destruct (filter_key_cases (λ r, customer_phone (profile r)) (customer_rows db)
              phone Hph) as [[E Hnew] | (r & Hr & Hk & E)].
  - rewrite E. cbn [scalar_one_or_none]. cbv zeta. rewrite Hc.
    eexists _, _. split; [reflexivity|]. cbn [customer_phone customer_rows].
    split; [done|].
    assert (Hok : customers_ok
      {| customer_rows :=
           customer_rows db ++
           [{| profile :=
                 {| customer_id := next_customer_id db; customer_phone := phone;
                    customer_name := None; customer_address := None;
                    customer_latitude := None; customer_longitude := None |};
               customer_created_at := now; customer_updated_at := now' |}];
         next_customer_id := next_customer_id db + 1 |}).
    { repeat split; cbn [customer_rows next_customer_id].
      - rewrite fmap_app. apply NoDup_app. split; [done|]. split.
        + intros x Hx. cbn. rewrite list_elem_of_singleton. by intros ->.
        + apply NoDup_singleton.
      - rewrite fmap_app. apply NoDup_app. split; [done|]. split.
        + intros x Hx. cbn. rewrite list_elem_of_singleton. intros ->.
          apply list_elem_of_fmap in Hx as (y & Hy & Hin).
          rewrite Forall_forall in Hlt. specialize (Hlt _ Hin). lia.
        + apply NoDup_singleton.
      - apply Forall_app. split.
        + eapply Forall_impl; [exact Hlt|]. intros; cbn in *; lia.
        + apply Forall_singleton. cbn. lia. }
    split; [exact Hok|]. split; [intros r Hr; apply elem_of_app; by left|].
    split; [done|]. intros t t'. cbn [customer_rows].
    rewrite filter_app, E, app_nil_l.
    by rewrite filter_cons_True.
  - rewrite E. cbn [scalar_one_or_none].
    eexists _, _. split; [reflexivity|]. split; [exact Hk|].
    split; [done|]. split; [done|]. split; [done|].
    intros t t'. by rewrite E.
Qed.

Lemma get_or_create_customer_once_witness :
  let db := {| customer_rows := []; next_customer_id := 1 |} in
  ∃ c db1,
    get_or_create_customer (λ _, true) sample_now sample_now (py "923001234567") db
      = (Some c, db1) ∧
    customer_phone c = py "923001234567" ∧
    (∀ t t', get_or_create_customer (λ _, true) t t' (py "923001234567") db1
             = (Some c, db1)).
Proof.
  intros db.
  destruct (get_or_create_customer_once (λ _, true) sample_now sample_now
              (py "923001234567") db)
    as (c & db1 & H1 & H2 & _ & _ & _ & H3).
  - reflexivity.
  - repeat split; cbn; constructor.
  - exists c, db1. by repeat split.
Defined.

(** X30.  [update_customer_info] replaces a field only by an argument
    that Python takes as true: a missing or empty name or address and a
    missing or zero coordinate leave the stored value, so that no field
    is ever cleared and a coordinate of exactly 0.0 cannot be stored.  The
    identifier and the phone number never change. *)
Theorem update_customer_info_never_clears commit_ok now name address
    latitude longitude db r :
  (∀ c, commit_ok c = true) →
  customers_ok db →
  r ∈ customer_rows db →
  ∃ c db1,
    update_customer_info commit_ok now (customer_id (profile r))
      name address latitude longitude db = (Some c, db1) ∧
    customer_id c = customer_id (profile r) ∧
    customer_phone c = customer_phone (profile r) ∧
    customer_name c
      = match name with Some (_ :: _) => name | _ => customer_name (profile r) end ∧
    customer_address c
      = match address with
        | Some (_ :: _) => address
        | _ => customer_address (profile r)
        end ∧
    customer_latitude c
      = match latitude with
        | None | Some (S754_zero _) => customer_latitude (profile r)
        | _ => latitude
        end ∧
    customer_longitude c
      = match longitude with
        | None | Some (S754_zero _) => customer_longitude (profile r)
        | _ => longitude
        end ∧
    (is_Some (customer_name (profile r)) → is_Some (customer_name c)) ∧
    (is_Some (customer_address (profile r)) → is_Some (customer_address c)) ∧
    (is_Some (customer_latitude (profile r)) → is_Some (customer_latitude c)) ∧
    (is_Some (customer_longitude (profile r)) → is_Some (customer_longitude c)) ∧
    {| profile := c; customer_created_at := customer_created_at r;
       customer_updated_at := now |} ∈ customer_rows db1.
Proof.
  intros Hc (Hph & Hid & Hlt) Hr. unfold update_customer_info.
  rewrite (filter_key_unique (λ r, customer_id (profile r)) _ r Hid Hr).
  cbn [scalar_one]. cbv zeta. rewrite Hc.
  eexists _, _. split; [reflexivity|].
  cbn [customer_id customer_phone customer_name customer_address
       customer_latitude customer_longitude customer_rows].
  split; [done|]. split; [done|].
  split; [by destruct name as [[|]|]|].
  split; [by destruct address as [[|]|]|].
  split; [by destruct latitude as [[]|]|].
  split; [by destruct longitude as [[]|]|].
  split; [destruct name as [[|]|]; cbn; eauto|].
  split; [destruct address as [[|]|]; cbn; eauto|].
  split; [destruct latitude as [[]|]; cbn; eauto|].
  split; [destruct longitude as [[]|]; cbn; eauto|].
  apply list_elem_of_fmap. exists r. split; [|done].
  by rewrite bool_decide_eq_true_2.
Qed.

Lemma update_customer_info_never_clears_witness :
  let r :=
    {| profile :=
         {| customer_id := 1; customer_phone := py "923001234567";
            customer_name := Some (py "Ali"); customer_address := None;
            customer_latitude := Some (binary64_of_Z 31);
            customer_longitude := Some (binary64_of_Z 74) |};
       customer_created_at := sample_now; customer_updated_at := sample_now |} in
  let db := {| customer_rows := [r]; next_customer_id := 2 |} in
  ∃ c db1,
    update_customer_info (λ _, true) (sample_now + 5) 1
      (Some []) None (Some (S754_zero false)) None db = (Some c, db1) ∧
    customer_name c = Some (py "Ali") ∧
    customer_latitude c = Some (binary64_of_Z 31).
Proof.
  intros r db.
  destruct (update_customer_info_never_clears (λ _, true) (sample_now + 5)
              (Some []) None (Some (S754_zero false)) None db r)
    as (c & db1 & H1 & _ & _ & H2 & _ & H3 & _).
  - reflexivity.
  - repeat split; cbn; repeat constructor; try (by intros H%elem_of_nil); lia.
  - apply list_elem_of_singleton. reflexivity.
  - exists c, db1. by repeat split.
Defined.
